(** * Task lifecycle service: a shallow embedding and its properties

    The development follows the TypeScript sources of the task API:

    - [services/TaskService.ts]        (the coordinator: create, update,
                                        delete, deleteByOwner, deleteMultiple,
                                        getById, getByOwner)
    - [services/CacheService.ts]       (time-to-live cache)
    - [repositories/TaskRepository.ts] (in-memory task store)
    - [repositories/UserRepository.ts] (in-memory user store)
    - [utils/TransactionManager.ts]    (transaction flag and queue)
    - [utils/Logger.ts]                (console logging)
    - [errors/BaseError.ts], [types/DTOs.ts]
    - [utils/AuthContext.ts], [services/UserService.ts] (getById) and the
      endpoints of [controllers/TaskController.ts] and
      [controllers/UserController.ts] that read no request body

    Modelling choices.

    - A JavaScript string is a [string]: a sequence of code units, here
      restricted to U+0000..U+00FF. [trim], [toLowerCase] and [includes]
      follow ECMA-262 on that range.
    - A JavaScript number that holds a time or a duration is a [Z]
      (milliseconds); a [Date] is either invalid (time value NaN) or holds a
      [Z]. The calendar functions behind [getFullYear] and [setFullYear]
      follow ECMA-262 (section "Date Objects"); the offset of local time
      from UTC is the host's [LocalTZA(t, isUTC)], a function of the time,
      so a host that observes daylight saving time is covered.
    - The four collaborators of the service are mutable objects; their
      fields form the [World]. Every method is a computation in a state and
      exception monad [M] that also reads the inputs the host supplies to a
      call: the clock, the time zone offset, and the identifier produced by
      [crypto.randomUUID()].
    - [console.log] and [console.error] append to the [console] field of the
      world; the timestamp prefix of a log line is left out. *)

From Stdlib Require Import ZArith Lia Bool String Ascii List.
From stdpp Require Import gmap strings list pretty.
Import ListNotations.

Local Open Scope string_scope.
Local Open Scope Z_scope.

(* ===================================================================== *)
(** * JavaScript strings *)
(* ===================================================================== *)

Module JSString.

(** Code unit of a character. *)
Definition code (c : ascii) : N := N_of_ascii c.

(** WhiteSpace and LineTerminator code points below U+0100:
    TAB, LF, VT, FF, CR, SP and NBSP. *)
Definition isWhiteSpace (c : ascii) : bool :=
  let n := code c in
  ((9 <=? n) && (n <=? 13) || (n =? 32) || (n =? 160))%N.

(** Lower-case mapping below U+0100: A..Z, and U+00C0..U+00DE without the
    multiplication sign U+00D7, move up by 32. *)
Definition lowerChar (c : ascii) : ascii :=
  let n := code c in
  if ((65 <=? n) && (n <=? 90)
      || (192 <=? n) && (n <=? 222) && negb (n =? 215))%N
  then ascii_of_N (n + 32) else c.

Fixpoint toLowerCase (s : string) : string :=
  match s with
  | EmptyString => EmptyString
  | String c s' => String (lowerChar c) (toLowerCase s')
  end.

Fixpoint trimStart (s : string) : string :=
  match s with
  | EmptyString => EmptyString
  | String c s' => if isWhiteSpace c then trimStart s' else s
  end.

Fixpoint trimEnd (s : string) : string :=
  match s with
  | EmptyString => EmptyString
  | String c s' =>
      match trimEnd s' with
      | EmptyString => if isWhiteSpace c then EmptyString
                       else String c EmptyString
      | r => String c r
      end
  end.

Definition trim (s : string) : string := trimEnd (trimStart s).

(** [s.length], as a natural number. *)
Definition length (s : string) : nat := String.length s.

(** [s.includes(p)]: [p] occurs in [s] as a contiguous run. *)
Fixpoint includes (s p : string) : bool :=
  String.prefix p s ||
  match s with
  | EmptyString => false
  | String _ s' => includes s' p
  end.

(** A string is falsy exactly when it is empty. *)
Definition truthy (s : string) : bool :=
  match s with EmptyString => false | _ => true end.

(** [xs.join(sep)]. *)
Fixpoint join (sep : string) (xs : list string) : string :=
  match xs with
  | [] => ""
  | [x] => x
  | x :: rest => (x ++ sep ++ join sep rest)%string
  end.

(** A number in a template literal. *)
Definition ofNat (n : nat) : string := pretty n.

End JSString.

(* ===================================================================== *)
(** * JavaScript dates (ECMA-262, Date objects) *)
(* ===================================================================== *)

Module JSDate.

Definition msPerDay : Z := 86400000.

Definition Day (t : Z) : Z := t / msPerDay.
Definition TimeWithinDay (t : Z) : Z := t mod msPerDay.

Definition isLeapYear (y : Z) : bool :=
  ((y mod 4 =? 0) && negb (y mod 100 =? 0)) || (y mod 400 =? 0).

Definition DaysInYear (y : Z) : Z := if isLeapYear y then 366 else 365.

Definition DayFromYear (y : Z) : Z :=
  365 * (y - 1970) + (y - 1969) / 4 - (y - 1901) / 100 + (y - 1601) / 400.

Definition TimeFromYear (y : Z) : Z := msPerDay * DayFromYear y.

(** The largest [y] with [TimeFromYear y <= t]: an estimate from the mean
    length of a year, moved by one where needed. *)
Definition YearFromTime (t : Z) : Z :=
  let d := Day t in
  let y := 1970 + (d * 400) / 146097 in
  if d <? DayFromYear y then y - 1
  else if DayFromYear (y + 1) <=? d then y + 1
  else y.

Definition InLeapYear (t : Z) : Z :=
  if isLeapYear (YearFromTime t) then 1 else 0.

Definition DayWithinYear (t : Z) : Z := Day t - DayFromYear (YearFromTime t).

(** Day number within the year on which month [m] (0..11) starts. *)
Definition monthStart (leap m : Z) : Z :=
  match m with
  | 0 => 0
  | 1 => 31
  | 2 => 59 + leap
  | 3 => 90 + leap
  | 4 => 120 + leap
  | 5 => 151 + leap
  | 6 => 181 + leap
  | 7 => 212 + leap
  | 8 => 243 + leap
  | 9 => 273 + leap
  | 10 => 304 + leap
  | _ => 334 + leap
  end.

Definition MonthFromTime (t : Z) : Z :=
  let d := DayWithinYear t in
  let l := InLeapYear t in
  if d <? 31 then 0
  else if d <? 59 + l then 1
  else if d <? 90 + l then 2
  else if d <? 120 + l then 3
  else if d <? 151 + l then 4
  else if d <? 181 + l then 5
  else if d <? 212 + l then 6
  else if d <? 243 + l then 7
  else if d <? 273 + l then 8
  else if d <? 304 + l then 9
  else if d <? 334 + l then 10
  else 11.

Definition DateFromTime (t : Z) : Z :=
  let d := DayWithinYear t in
  let l := InLeapYear t in
  match MonthFromTime t with
  | 0 => d + 1
  | 1 => d - 30
  | 2 => d - 58 - l
  | 3 => d - 89 - l
  | 4 => d - 119 - l
  | 5 => d - 150 - l
  | 6 => d - 180 - l
  | 7 => d - 211 - l
  | 8 => d - 242 - l
  | 9 => d - 272 - l
  | 10 => d - 303 - l
  | _ => d - 333 - l
  end.

(** [MakeDay(year, month, date)]: the day number of the first day of month
    [month mod 12] of year [year + floor(month / 12)], plus [date - 1]. *)
Definition MakeDay (year month date : Z) : Z :=
  let ym := year + month / 12 in
  let mn := month mod 12 in
  DayFromYear ym + monthStart (if isLeapYear ym then 1 else 0) mn + date - 1.

Definition MakeDate (day time : Z) : Z := day * msPerDay + time.

Definition maxTime : Z := 8640000000000000.

(** [TimeClip]: [None] stands for NaN. *)
Definition TimeClip (time : Z) : option Z :=
  if maxTime <? Z.abs time then None else Some time.

(** A Date object: its time value is NaN or a number of milliseconds. *)
Inductive Date : Type :=
| InvalidDate
| DateOf (t : Z).

(** [d.getTime()]; [None] stands for NaN. *)
Definition getTime (d : Date) : option Z :=
  match d with InvalidDate => None | DateOf t => Some t end.

Definition ofTimeValue (o : option Z) : Date :=
  match o with None => InvalidDate | Some t => DateOf t end.

(** [isNaN(x)]. *)
Definition isNaN (x : option Z) : bool :=
  match x with None => true | Some _ => false end.

(** [a < b] and [a > b] on dates compare the time values; a comparison
    with NaN is false. *)
Definition lt (a b : Date) : bool :=
  match a, b with
  | DateOf x, DateOf y => x <? y
  | _, _ => false
  end.

Definition gt (a b : Date) : bool := lt b a.

Section LocalTime.
(** [LocalTZA(t, isUTC)]: the offset of the host's local time from UTC, in
    milliseconds, at the instant [t] when [isUTC] holds, and at the local
    time [t] when it does not. It varies with [t] on a host that observes
    daylight saving time. *)
Variable LocalTZA : Z -> bool -> Z.

Definition LocalTime (t : Z) : Z := t + LocalTZA t true.
Definition UTC (t : Z) : Z := t - LocalTZA t false.

(** [d.getFullYear()]. *)
Definition getFullYear (d : Date) : option Z :=
  match d with
  | InvalidDate => None
  | DateOf t => Some (YearFromTime (LocalTime t))
  end.

(** [d.setFullYear(year)] with one argument, as the new value of [d]. *)
Definition setFullYear (d : Date) (year : option Z) : Date :=
  let t := match d with InvalidDate => 0 | DateOf t => LocalTime t end in
  match year with
  | None => InvalidDate
  | Some y =>
      let newDate :=
        MakeDate (MakeDay y (MonthFromTime t) (DateFromTime t))
                 (TimeWithinDay t) in
      ofTimeValue (TimeClip (UTC newDate))
  end.
End LocalTime.

End JSDate.

(* ===================================================================== *)
(** * Errors ([errors/BaseError.ts]) *)
(* ===================================================================== *)

(** The exceptions the modelled code throws: the two subclasses of
    [BaseError] it uses, and the plain [Error] of the transaction manager. *)
Inductive Err : Type :=
| ValidationError (message : string)
| NotFoundError (message : string)
| Error (message : string).

Definition statusCode (e : Err) : Z :=
  match e with
  | ValidationError _ => 400
  | NotFoundError _ => 404
  | Error _ => 500
  end.

Definition isValidation (e : Err) : bool :=
  match e with ValidationError _ => true | _ => false end.

Definition isNotFound (e : Err) : bool :=
  match e with NotFoundError _ => true | _ => false end.

(* ===================================================================== *)
(** * Data ([types/DTOs.ts]) *)
(* ===================================================================== *)

Inductive Role : Type := USER | ADMIN.

Module User.
Record t : Type := mk {
  id : string;
  email : string;
  password : string;
  role : Role
}.
End User.

Module Task.
Record t : Type := mk {
  id : string;
  title : string;
  description : option string;
  status : string;
  deadline : option JSDate.Date;
  priority : string;
  ownerId : string;
  createdAt : JSDate.Date
}.
End Task.

(** An absent optional field is [None]. The [priority] of a request is any
    string at run time, which is why the service validates it. *)
Module CreateTaskDTO.
Record t : Type := mk {
  title : string;
  description : option string;
  deadline : option JSDate.Date;
  priority : option string;
  ownerId : string
}.
End CreateTaskDTO.

Module UpdateTaskDTO.
Record t : Type := mk {
  title : option string;
  description : option string;
  status : option string;
  deadline : option JSDate.Date;
  priority : option string
}.

(** [{}] *)
Definition empty : t := mk None None None None None.
End UpdateTaskDTO.

(** [{ ...task, ...updates }]: the keys present in [updates] win. *)
Definition spread (task : Task.t) (updates : UpdateTaskDTO.t) : Task.t :=
  Task.mk (Task.id task)
    (default (Task.title task) (UpdateTaskDTO.title updates))
    (match UpdateTaskDTO.description updates with
     | Some d => Some d
     | None => Task.description task
     end)
    (default (Task.status task) (UpdateTaskDTO.status updates))
    (match UpdateTaskDTO.deadline updates with
     | Some d => Some d
     | None => Task.deadline task
     end)
    (default (Task.priority task) (UpdateTaskDTO.priority updates))
    (Task.ownerId task)
    (Task.createdAt task).

(** What the cache holds ([data: any]): a task or an array of tasks. *)
Inductive Any : Type :=
| AnyTask (task : Task.t)
| AnyTasks (tasks : list Task.t).

Record CacheEntry : Type := mkEntry {
  data : Any;
  expiry : Z
}.

(** A queued closure of the transaction manager; it is never invoked. *)
Definition Operation : Type := nat.

(** One call of [console.log] or [console.error]. *)
Inductive ConsoleLine : Type :=
| ConsoleLog (text : string)
| ConsoleError (text : string)
| ConsoleErrorObject (error : Err).

(* ===================================================================== *)
(** * The world and the monad of method bodies *)
(* ===================================================================== *)

(** The private fields of the four collaborators and the console. *)
Record World : Type := mkWorld {
  tasks : list Task.t;                 (* TaskRepository.tasks *)
  users : list User.t;                 (* UserRepository.users *)
  cache : gmap string CacheEntry;      (* CacheService.cache *)
  isActive : bool;                     (* TransactionManager.isActive *)
  operations : list Operation;         (* TransactionManager.operations *)
  console : list ConsoleLine
}.

(** What the host supplies to one call. *)
Record Env : Type := mkEnv {
  now : Z;          (* the clock: Date.now() and new Date() *)
  localTZA : Z -> bool -> Z;   (* LocalTZA of the host's time zone *)
  uuid : string     (* crypto.randomUUID() *)
}.

Inductive Result (A : Type) : Type :=
| Ok (a : A)
| Throw (e : Err).
Arguments Ok {A} a.
Arguments Throw {A} e.

Definition M (A : Type) : Type := Env -> World -> Result A * World.

Definition run {A} (m : M A) (env : Env) (w : World) : Result A * World :=
  m env w.

#[global] Instance M_ret : MRet M := fun A a _ w => (Ok a, w).

#[global] Instance M_bind : MBind M := fun A B f m env w =>
  match m env w with
  | (Ok a, w') => f a env w'
  | (Throw e, w') => (Throw e, w')
  end.

Definition throw {A} (e : Err) : M A := fun _ w => (Throw e, w).

(** [try { m } catch (error) { h error }] *)
Definition try_catch {A} (m : M A) (h : Err -> M A) : M A := fun env w =>
  match m env w with
  | (Ok a, w') => (Ok a, w')
  | (Throw e, w') => h e env w'
  end.

(** [!x] on an optional object: an object is truthy, [undefined] is not. *)
Definition isUndefined {A} (x : option A) : bool :=
  match x with Some _ => false | None => true end.

(** [if (c) { throw e }] *)
Definition throw_if (c : bool) (e : Err) : M unit :=
  if c then throw e else mret tt.

Definition ask : M Env := fun env w => (Ok env, w).
Definition get_world : M World := fun _ w => (Ok w, w).
Definition put_world (w : World) : M unit := fun _ _ => (Ok tt, w).
Definition modify (f : World -> World) : M unit := fun _ w => (Ok tt, f w).

Definition set_tasks (ts : list Task.t) (w : World) : World :=
  mkWorld ts (users w) (cache w) (isActive w) (operations w) (console w).
Definition set_users (us : list User.t) (w : World) : World :=
  mkWorld (tasks w) us (cache w) (isActive w) (operations w) (console w).
Definition set_cache (c : gmap string CacheEntry) (w : World) : World :=
  mkWorld (tasks w) (users w) c (isActive w) (operations w) (console w).
Definition set_transaction (a : bool) (ops : list Operation) (w : World)
  : World :=
  mkWorld (tasks w) (users w) (cache w) a ops (console w).
Definition write_console (l : ConsoleLine) (w : World) : World :=
  mkWorld (tasks w) (users w) (cache w) (isActive w) (operations w)
          (console w ++ [l]).

(** [Date.now()] *)
Definition Date_now : M Z := fun env w => (Ok (now env), w).

(** [new Date()] *)
Definition Date_new : M JSDate.Date :=
  fun env w => (Ok (JSDate.DateOf (now env)), w).

(** [crypto.randomUUID()] *)
Definition randomUUID : M string := fun env w => (Ok (uuid env), w).

(* ===================================================================== *)
(** * [utils/Logger.ts] *)
(* ===================================================================== *)

Module Logger.
Definition formatMessage (level message : string) : string :=
  ("[" ++ level ++ "] " ++ message)%string.

Definition info (message : string) : M unit :=
  modify (write_console (ConsoleLog (formatMessage "INFO" message))).

Definition error (message : string) (error : option Err) : M unit :=
  modify (write_console (ConsoleError (formatMessage "ERROR" message)));;
  match error with
  | Some e => modify (write_console (ConsoleErrorObject e))
  | None => mret tt
  end.

Definition debug (message : string) : M unit :=
  modify (write_console (ConsoleLog (formatMessage "DEBUG" message))).
End Logger.

(* ===================================================================== *)
(** * [services/CacheService.ts] *)
(* ===================================================================== *)

Module CacheService.
Definition defaultTTL : Z := 60000.

(** [set(key, value, ttl = this.defaultTTL)]; [None] is an omitted [ttl]. *)
Definition set (key : string) (value : Any) (ttl : option Z) : M unit :=
  let ttl := default defaultTTL ttl in
  Logger.debug ("Caching data with key: " ++ key);;
  t ← Date_now;
  let expiry := t + ttl in
  modify (fun w => set_cache (<[key := mkEntry value expiry]> (cache w)) w).

(** [get(key)]; [None] is [null]. *)
Definition get (key : string) : M (option Any) :=
  Logger.debug ("Checking cache for key: " ++ key);;
  w ← get_world;
  match cache w !! key with
  | None =>
      Logger.debug ("Cache miss for key: " ++ key);;
      mret None
  | Some cached =>
      t ← Date_now;
      if expiry cached <? t then
        Logger.debug ("Cache expired for key: " ++ key);;
        modify (fun w => set_cache (delete key (cache w)) w);;
        mret None
      else
        Logger.debug ("Cache hit for key: " ++ key);;
        mret (Some (data cached))
  end.

Definition invalidate (key : string) : M unit :=
  Logger.debug ("Invalidating cache for key: " ++ key);;
  modify (fun w => set_cache (delete key (cache w)) w).

Definition clear : M unit :=
  Logger.info "Clearing all cache";;
  modify (set_cache ∅).
End CacheService.

(* ===================================================================== *)
(** * [utils/TransactionManager.ts] *)
(* ===================================================================== *)

Module TransactionManager.
Definition begin : M unit := modify (set_transaction true []).

Definition commit : M unit :=
  w ← get_world;
  throw_if (negb (isActive w)) (Error "No active transaction to commit");;
  modify (set_transaction false []).

Definition rollback : M unit :=
  w ← get_world;
  throw_if (negb (isActive w)) (Error "No active transaction to rollback");;
  Logger.error "Rolling back transaction" None;;
  modify (set_transaction false []).

Definition addOperation (operation : Operation) : M unit :=
  w ← get_world;
  throw_if (negb (isActive w)) (Error "No active transaction");;
  modify (fun w => set_transaction (isActive w) (operations w ++ [operation]) w).
End TransactionManager.

(* ===================================================================== *)
(** * [repositories/UserRepository.ts] *)
(* ===================================================================== *)

Module UserRepository.
Definition save (user : User.t) : M User.t :=
  Logger.info "Saving user to database";;
  modify (fun w => set_users (users w ++ [user]) w);;
  mret user.

Definition findByEmail (email : string) : M (option User.t) :=
  Logger.info "Finding user by email";;
  w ← get_world;
  mret (List.find (fun u => String.eqb (User.email u) email) (users w)).

Definition findById (id : string) : M (option User.t) :=
  Logger.info "Finding user by id";;
  w ← get_world;
  mret (List.find (fun u => String.eqb (User.id u) id) (users w)).
End UserRepository.

(* ===================================================================== *)
(** * [repositories/TaskRepository.ts] *)
(* ===================================================================== *)

Module TaskRepository.
Definition save (task : Task.t) : M Task.t :=
  Logger.info "Saving task to database";;
  modify (fun w => set_tasks (tasks w ++ [task]) w);;
  mret task.

Definition delete (id : string) : M unit :=
  Logger.info "Deleting task from database";;
  modify (fun w =>
    set_tasks (List.filter (fun t => negb (String.eqb (Task.id t) id))
                           (tasks w)) w).

Definition findById (id : string) : M (option Task.t) :=
  Logger.info "Finding task by id";;
  w ← get_world;
  mret (List.find (fun t => String.eqb (Task.id t) id) (tasks w)).

(** [findIndex]: position of the first element that satisfies [p]. *)
Fixpoint findIndex {A} (p : A -> bool) (l : list A) : option nat :=
  match l with
  | [] => None
  | x :: l' => if p x then Some O else S <$> findIndex p l'
  end.

Definition update (id : string) (updates : UpdateTaskDTO.t)
  : M (option Task.t) :=
  Logger.info "Updating task in database";;
  w ← get_world;
  match findIndex (fun t => String.eqb (Task.id t) id) (tasks w) with
  | None => mret None
  | Some index =>
      match tasks w !! index with
      | None => mret None
      | Some old =>
          modify (fun w =>
            set_tasks (<[index := spread old updates]> (tasks w)) w);;
          w' ← get_world;
          mret (tasks w' !! index)
      end
  end.

(** [excludeId] is [None] when the argument is omitted; an empty string
    is falsy and excludes nothing either. *)
Definition matchesPattern (ownerId titlePattern : string)
    (excludeId : option string) (t : Task.t) : bool :=
  String.eqb (Task.ownerId t) ownerId
  && JSString.includes (JSString.toLowerCase (Task.title t))
                       (JSString.toLowerCase titlePattern)
  && match excludeId with
     | None => true
     | Some e => negb (JSString.truthy e) || negb (String.eqb (Task.id t) e)
     end.

Definition findByOwnerAndTitlePattern (ownerId titlePattern : string)
    (excludeId : option string) : M (list Task.t) :=
  Logger.info "Finding tasks by owner and title pattern";;
  w ← get_world;
  mret (List.filter (matchesPattern ownerId titlePattern excludeId)
                    (tasks w)).

Definition findByOwner (ownerId : string) : M (list Task.t) :=
  Logger.info ("Finding all tasks for owner: " ++ ownerId);;
  w ← get_world;
  mret (List.filter (fun t => String.eqb (Task.ownerId t) ownerId)
                    (tasks w)).

Definition deleteByOwner (ownerId : string) : M nat :=
  Logger.info ("Deleting all tasks for owner: " ++ ownerId);;
  w ← get_world;
  let beforeCount := length (tasks w) in
  modify (fun w =>
    set_tasks (List.filter
                 (fun t => negb (String.eqb (Task.ownerId t) ownerId))
                 (tasks w)) w);;
  w' ← get_world;
  let deletedCount := (beforeCount - length (tasks w'))%nat in
  Logger.info ("Deleted " ++ JSString.ofNat deletedCount
               ++ " tasks for owner: " ++ ownerId);;
  mret deletedCount.

(** [ids.includes(x)] on an array of strings. *)
Definition arrayIncludes (ids : list string) (x : string) : bool :=
  existsb (String.eqb x) ids.

Definition deleteMultiple (ids : list string) : M nat :=
  Logger.info ("Deleting multiple tasks: " ++ JSString.join ", " ids);;
  w ← get_world;
  let beforeCount := length (tasks w) in
  modify (fun w =>
    set_tasks (List.filter (fun t => negb (arrayIncludes ids (Task.id t)))
                           (tasks w)) w);;
  w' ← get_world;
  let deletedCount := (beforeCount - length (tasks w'))%nat in
  Logger.info ("Deleted " ++ JSString.ofNat deletedCount ++ " tasks");;
  mret deletedCount.
End TaskRepository.

(* ===================================================================== *)
(** * [services/TaskService.ts] *)
(* ===================================================================== *)

Module TaskService.

(** The deadline block, the same text in [create] (lines 41-59) and in
    [update] (lines 271-288). A [Date] object is truthy, also an invalid
    one, so the block runs whenever the field is present. *)
Definition deadlineValidation (deadline : option JSDate.Date) : M unit :=
  match deadline with
  | None => mret tt
  | Some deadline =>
      let deadlineDate := deadline in
      now ← Date_new;
      throw_if (JSDate.isNaN (JSDate.getTime deadlineDate))
               (ValidationError "Invalid deadline date format");;
      throw_if (JSDate.lt deadlineDate now)
               (ValidationError "Deadline cannot be in the past");;
      fiveYearsFromNow ← Date_new;
      env ← ask;
      let fiveYearsFromNow :=
        JSDate.setFullYear (localTZA env) fiveYearsFromNow
          ((fun y => y + 5)
             <$> JSDate.getFullYear (localTZA env) fiveYearsFromNow) in
      throw_if (JSDate.gt deadlineDate fiveYearsFromNow)
               (ValidationError
                  "Deadline cannot be more than 5 years in the future")
  end.

(** [dto.priority && !['LOW', 'MEDIUM', 'HIGH'].includes(dto.priority)] *)
Definition badPriority (priority : option string) : bool :=
  match priority with
  | None => false
  | Some p =>
      JSString.truthy p
      && negb (TaskRepository.arrayIncludes ["LOW"; "MEDIUM"; "HIGH"] p)
  end.

(** [dto.status && ![...].includes(dto.status)] *)
Definition badStatus (status : option string) : bool :=
  match status with
  | None => false
  | Some s =>
      JSString.truthy s
      && negb (TaskRepository.arrayIncludes
                 ["TODO"; "IN_PROGRESS"; "DONE"; "CANCELLED"] s)
  end.

(** [x || fallback] on an optional string. *)
Definition orElse (x : option string) (fallback : string) : string :=
  match x with
  | Some s => if JSString.truthy s then s else fallback
  | None => fallback
  end.

(** [if (x) ...] on an optional string: present and not empty. *)
Definition present (x : option string) : option string :=
  match x with
  | Some s => if JSString.truthy s then Some s else None
  | None => None
  end.

Definition create (dto : CreateTaskDTO.t) : M Task.t :=
  let title := CreateTaskDTO.title dto in
  Logger.info "Entering create task";;
  Logger.debug ("Creating task with title: " ++ title);;
  try_catch
    (Logger.debug "Validating task data";;
     (* Title validation *)
     throw_if (negb (JSString.truthy title))
              (ValidationError "Title is required");;
     throw_if (JSString.length (JSString.trim title) <? 3)%nat
              (ValidationError "Title must be at least 3 characters long");;
     throw_if (100 <? JSString.length title)%nat
              (ValidationError "Title must not exceed 100 characters");;
     (* Description validation *)
     throw_if (match present (CreateTaskDTO.description dto) with
               | Some d => (500 <? JSString.length d)%nat
               | None => false
               end)
              (ValidationError "Description must not exceed 500 characters");;
     (* Deadline validation *)
     deadlineValidation (CreateTaskDTO.deadline dto);;
     (* Priority validation *)
     throw_if (badPriority (CreateTaskDTO.priority dto))
              (ValidationError "Priority must be LOW, MEDIUM, or HIGH");;
     TransactionManager.begin;;
     try_catch
       (owner ← UserRepository.findById (CreateTaskDTO.ownerId dto);
        throw_if (isUndefined owner)
                 (NotFoundError "Owner not found");;
        (* Check for duplicate task titles for the same user *)
        similarTasks ← TaskRepository.findByOwnerAndTitlePattern
                         (CreateTaskDTO.ownerId dto) (JSString.trim title)
                         None;
        (if (0 <? length similarTasks)%nat then
           Logger.debug ("Found " ++ JSString.ofNat (length similarTasks)
                         ++ " similar task(s) for user");;
           throw (ValidationError
                    "A task with similar title already exists for this user")
         else mret tt);;
        id ← randomUUID;
        createdAt ← Date_new;
        let task :=
          Task.mk id
            (JSString.trim title)
            (JSString.trim <$> CreateTaskDTO.description dto)
            "TODO"
            (CreateTaskDTO.deadline dto)
            (orElse (CreateTaskDTO.priority dto) "MEDIUM")
            (CreateTaskDTO.ownerId dto)
            createdAt in
        savedTask ← TaskRepository.save task;
        TransactionManager.commit;;
        Logger.info ("Task created successfully: " ++ Task.id task);;
        mret savedTask)
       (fun error => TransactionManager.rollback;; throw error))
    (fun error => Logger.error "Error creating task" (Some error);;
                  throw error).

Definition delete (id : string) : M unit :=
  Logger.info "Entering delete task";;
  Logger.debug ("Deleting task with id: " ++ id);;
  try_catch
    (TaskRepository.delete id;;
     CacheService.invalidate ("task:" ++ id))
    (fun error => Logger.error "Error deleting task" (Some error);;
                  throw error).

Definition deleteByOwner (ownerId : string) : M nat :=
  Logger.info "Entering deleteByOwner";;
  Logger.debug ("Deleting all tasks for user: " ++ ownerId);;
  try_catch
    (Logger.debug "Validating owner exists";;
     owner ← UserRepository.findById ownerId;
     throw_if (isUndefined owner)
              (NotFoundError "Owner not found");;
     TransactionManager.begin;;
     try_catch
       (deletedCount ← TaskRepository.deleteByOwner ownerId;
        (* Invalidate all cached tasks for this owner *)
        CacheService.clear;;
        TransactionManager.commit;;
        Logger.info ("Successfully deleted " ++ JSString.ofNat deletedCount
                     ++ " tasks for user: " ++ ownerId);;
        mret deletedCount)
       (fun error => TransactionManager.rollback;; throw error))
    (fun error => Logger.error "Error deleting tasks by owner" (Some error);;
                  throw error).

(** [ids.forEach(id => this.cacheService.invalidate(`task:${id}`))] *)
Fixpoint invalidateEach (ids : list string) : M unit :=
  match ids with
  | [] => mret tt
  | id :: rest => CacheService.invalidate ("task:" ++ id);; invalidateEach rest
  end.

Definition deleteMultiple (ids : list string) : M nat :=
  Logger.info "Entering deleteMultiple";;
  Logger.debug ("Deleting " ++ JSString.ofNat (length ids) ++ " tasks");;
  try_catch
    (Logger.debug "Validating task IDs";;
     throw_if (length ids =? 0)%nat
              (ValidationError "At least one task ID required");;
     TransactionManager.begin;;
     try_catch
       (deletedCount ← TaskRepository.deleteMultiple ids;
        (* Invalidate cache for deleted tasks *)
        invalidateEach ids;;
        TransactionManager.commit;;
        Logger.info ("Successfully deleted " ++ JSString.ofNat deletedCount
                     ++ " tasks");;
        mret deletedCount)
       (fun error => TransactionManager.rollback;; throw error))
    (fun error => Logger.error "Error deleting multiple tasks" (Some error);;
                  throw error).

(** The result is the cached value when there is one, whatever it is. *)
Definition getById (id : string) : M Any :=
  Logger.info "Entering getById task";;
  Logger.debug ("Fetching task with id: " ++ id);;
  try_catch
    (cached ← CacheService.get ("task:" ++ id);
     match cached with
     | Some cached =>
         Logger.info "Returning task from cache";;
         mret cached
     | None =>
         task ← TaskRepository.findById id;
         match task with
         | None => throw (NotFoundError "Task not found")
         | Some task =>
             CacheService.set ("task:" ++ id) (AnyTask task) None;;
             mret (AnyTask task)
         end
     end)
    (fun error => Logger.error "Error fetching task" (Some error);;
                  throw error).

Definition getByOwner (ownerId : string) : M Any :=
  Logger.info "Entering getByOwner";;
  Logger.debug ("Fetching all tasks for owner: " ++ ownerId);;
  try_catch
    (Logger.debug "Validating owner exists";;
     owner ← UserRepository.findById ownerId;
     throw_if (isUndefined owner)
              (NotFoundError "Owner not found");;
     let cacheKey := "tasks:owner:" ++ ownerId in
     cached ← CacheService.get cacheKey;
     match cached with
     | Some cached =>
         Logger.info "Returning owner tasks from cache";;
         mret cached
     | None =>
         tasks ← TaskRepository.findByOwner ownerId;
         CacheService.set cacheKey (AnyTasks tasks) None;;
         Logger.info ("Fetched " ++ JSString.ofNat (length tasks)
                      ++ " tasks for owner: " ++ ownerId);;
         mret (AnyTasks tasks)
     end)
    (fun error => Logger.error "Error fetching tasks by owner" (Some error);;
                  throw error).

Definition update (id : string) (dto : UpdateTaskDTO.t) : M Task.t :=
  Logger.info "Entering update task";;
  Logger.debug ("Updating task with id: " ++ id);;
  try_catch
    (Logger.debug "Validating update data";;
     (* Title validation *)
     match UpdateTaskDTO.title dto with
     | Some title =>
         throw_if (JSString.length (JSString.trim title) <? 3)%nat
                  (ValidationError
                     "Title must be at least 3 characters long");;
         throw_if (100 <? JSString.length title)%nat
                  (ValidationError "Title must not exceed 100 characters")
     | None => mret tt
     end;;
     (* Description validation *)
     throw_if (match UpdateTaskDTO.description dto with
               | Some d => (500 <? JSString.length d)%nat
               | None => false
               end)
              (ValidationError "Description must not exceed 500 characters");;
     (* Deadline validation *)
     deadlineValidation (UpdateTaskDTO.deadline dto);;
     (* Priority validation *)
     throw_if (badPriority (UpdateTaskDTO.priority dto))
              (ValidationError "Priority must be LOW, MEDIUM, or HIGH");;
     (* Status validation *)
     throw_if (badStatus (UpdateTaskDTO.status dto))
              (ValidationError
                 "Status must be TODO, IN_PROGRESS, DONE, or CANCELLED");;
     (* Simulate transaction handling *)
     TransactionManager.begin;;
     try_catch
       (existing ← TaskRepository.findById id;
        match existing with
        | None => throw (NotFoundError "Task not found")
        | Some existing =>
            (* Check for duplicate task titles for the same user
               (if title is being updated) *)
            match UpdateTaskDTO.title dto with
            | Some title =>
                similarTasks ← TaskRepository.findByOwnerAndTitlePattern
                                 (Task.ownerId existing)
                                 (JSString.trim title)
                                 (Some id);
                if (0 <? length similarTasks)%nat then
                  Logger.debug ("Found "
                                ++ JSString.ofNat (length similarTasks)
                                ++ " similar task(s) for user");;
                  throw (ValidationError
                    "A task with similar title already exists for this user")
                else mret tt
            | None => mret tt
            end;;
            (* Prepare update data with trimmed strings *)
            let updateData :=
              UpdateTaskDTO.mk
                (JSString.trim <$> UpdateTaskDTO.title dto)
                (JSString.trim <$> UpdateTaskDTO.description dto)
                (present (UpdateTaskDTO.status dto))
                (UpdateTaskDTO.deadline dto)
                (present (UpdateTaskDTO.priority dto)) in
            updated ← TaskRepository.update id updateData;
            match updated with
            | None => throw (NotFoundError "Task not found")
            | Some updated =>
                CacheService.invalidate ("task:" ++ id);;
                TransactionManager.commit;;
                Logger.info ("Task updated successfully: " ++ id);;
                mret updated
            end
        end)
       (fun error => TransactionManager.rollback;; throw error))
    (fun error => Logger.error "Error updating task" (Some error);;
                  throw error).

End TaskService.

(* ===================================================================== *)
(** * The controllers and the authentication context *)
(* ===================================================================== *)

(** What a controller can catch: an exception of the service, or one of
    the two other subclasses of [BaseError]. *)
Inductive Thrown : Type :=
| ServiceError (e : Err)
| UnauthorizedError (message : string)
| ForbiddenError (message : string).

(** [err instanceof BaseError]: all but the plain [Error]. *)
Definition instanceofBaseError (x : Thrown) : bool :=
  match x with
  | ServiceError (Error _) => false
  | _ => true
  end.

Definition thrownMessage (x : Thrown) : string :=
  match x with
  | ServiceError (ValidationError m) => m
  | ServiceError (NotFoundError m) => m
  | ServiceError (Error m) => m
  | UnauthorizedError m => m
  | ForbiddenError m => m
  end.

(** [err.statusCode] and [err.code], as the constructors in
    [errors/BaseError.ts] set them. *)
Definition thrownStatusCode (x : Thrown) : Z :=
  match x with
  | ServiceError e => statusCode e
  | UnauthorizedError _ => 401
  | ForbiddenError _ => 403
  end.

Definition thrownCode (x : Thrown) : string :=
  match x with
  | ServiceError (ValidationError _) => "VALIDATION_ERROR"
  | ServiceError (NotFoundError _) => "NOT_FOUND"
  | ServiceError (Error _) => "INTERNAL_ERROR"
  | UnauthorizedError _ => "UNAUTHORIZED"
  | ForbiddenError _ => "FORBIDDEN"
  end.

Module AuthContextData.
Record t : Type := mk {
  userId : string;
  role : string     (* [role as Role]: the header value, unchecked *)
}.
End AuthContextData.

(** The process: the world of the service and the static field
    [AuthContext.context] ([None] is [null]). A handler runs to its end
    before the next request is served. *)
Record Server : Type := mkServer {
  world : World;
  context : option AuthContextData.t
}.

Inductive Outcome (A : Type) : Type :=
| Returned (a : A)
| Raised (x : Thrown).
Arguments Returned {A} a.
Arguments Raised {A} x.

Definition H (A : Type) : Type := Env -> Server -> Outcome A * Server.

Definition serve {A} (h : H A) (env : Env) (s : Server) : Outcome A * Server :=
  h env s.

#[global] Instance H_ret : MRet H := fun A a _ s => (Returned a, s).

#[global] Instance H_bind : MBind H := fun A B f h env s =>
  match h env s with
  | (Returned a, s') => f a env s'
  | (Raised x, s') => (Raised x, s')
  end.

Definition raise {A} (x : Thrown) : H A := fun _ s => (Raised x, s).

Definition try_catchH {A} (h : H A) (k : Thrown -> H A) : H A := fun env s =>
  match h env s with
  | (Returned a, s') => (Returned a, s')
  | (Raised x, s') => k x env s'
  end.

(** A method of the service, run on the world of the process. *)
Definition lift {A} (m : M A) : H A := fun env s =>
  match m env (world s) with
  | (Ok a, w') => (Returned a, mkServer w' (context s))
  | (Throw e, w') => (Raised (ServiceError e), mkServer w' (context s))
  end.

Definition getContext : H (option AuthContextData.t) :=
  fun _ s => (Returned (context s), s).

Definition setContext (c : option AuthContextData.t) : H unit :=
  fun _ s => (Returned tt, mkServer (world s) c).

(** [console.error(error)] for what a controller caught: an exception of
    the service as before, one of the two other classes by name and
    message. *)
Definition consoleErrorObject (x : Thrown) : ConsoleLine :=
  match x with
  | ServiceError e => ConsoleErrorObject e
  | UnauthorizedError m => ConsoleError ("UnauthorizedError: " ++ m)
  | ForbiddenError m => ConsoleError ("ForbiddenError: " ++ m)
  end.

(** [Logger.error(message, err)] in a [catch] block of a controller. *)
Definition logCaught (message : string) (err : Thrown) : H unit :=
  lift (modify (write_console
                  (ConsoleError (Logger.formatMessage "ERROR" message))));;
  lift (modify (write_console (consoleErrorObject err))).

Module AuthContext.
(** [req.headers] maps the lower-case name of a header to its value. *)
Definition extractFromHeaders (headers : gmap string string) : H unit :=
  let userId := headers !! "x-user-id" in
  let role := headers !! "x-role" in
  match TaskService.present userId, TaskService.present role with
  | Some userId, Some role =>
      setContext (Some (AuthContextData.mk userId role));;
      lift (Logger.debug ("Auth context set: userId=" ++ userId
                          ++ ", role=" ++ role))
  | _, _ =>
      lift (Logger.error "Missing authentication headers" None);;
      raise (UnauthorizedError "Authentication required")
  end.

Definition get : H AuthContextData.t :=
  c ← getContext;
  match c with
  | None =>
      lift (Logger.error "Auth context not initialized" None);;
      raise (UnauthorizedError "Authentication context not available")
  | Some c => mret c
  end.

Definition isAuthenticated : H bool :=
  c ← getContext; mret (negb (isUndefined c)).

Definition clear : H unit := setContext None.

Definition getUserId : H string := c ← get; mret (AuthContextData.userId c).

Definition getRole : H string := c ← get; mret (AuthContextData.role c).
End AuthContext.

Module UserService.
Definition getById (id : string) : M User.t :=
  Logger.info "Entering getById";;
  Logger.debug ("Fetching user by id: " ++ id);;
  try_catch
    (user ← UserRepository.findById id;
     match user with
     | None => throw (NotFoundError "User not found")
     | Some user => mret user
     end)
    (fun error => Logger.error "Error fetching user" (Some error);;
                  throw error).
End UserService.

(** The body of a response. *)
Inductive Body : Type :=
| SendNothing                                         (* [.send()] *)
| JsonError (error code : string)         (* [{ error, code }] *)
| JsonInternal                       (* [{ error: "Internal error" }] *)
| JsonValue (value : Any)                  (* a task or an array of tasks *)
| JsonDeleted (deletedCount : nat) (message : string)
| JsonProfile (id email : string) (role : Role).

Record Response : Type := mkResponse {
  status : Z;
  body : Body
}.

(** The end of every [catch] block of the task controller. *)
Definition errorResponse (err : Thrown) : Response :=
  if instanceofBaseError err
  then mkResponse (thrownStatusCode err)
         (JsonError (thrownMessage err) (thrownCode err))
  else mkResponse 500 JsonInternal.

Module TaskController.
(** [taskId] is [req.params.id], which the route [/tasks/:id] supplies. *)
Definition deleteTask (taskId : string) (headers : gmap string string)
  : H Response :=
  lift (Logger.info "Entering deleteTask endpoint");;
  try_catchH
    (AuthContext.extractFromHeaders headers;;
     role ← AuthContext.getRole;
     (if negb (String.eqb role "ADMIN")
      then raise (ForbiddenError "Admin role required")
      else mret tt);;
     lift (TaskService.delete taskId);;
     AuthContext.clear;;
     mret (mkResponse 204 SendNothing))
    (fun err =>
       logCaught "Error in deleteTask endpoint" err;;
       AuthContext.clear;;
       mret (errorResponse err)).

Definition getTask (id : string) : H Response :=
  lift (Logger.info "Entering getTask endpoint");;
  try_catchH
    (task ← lift (TaskService.getById id);
     mret (mkResponse 200 (JsonValue task)))
    (fun err =>
       logCaught "Error in getTask endpoint" err;;
       mret (errorResponse err)).

Definition getTasksByOwner (headers : gmap string string) : H Response :=
  lift (Logger.info "Entering getTasksByOwner endpoint");;
  try_catchH
    (AuthContext.extractFromHeaders headers;;
     userId ← AuthContext.getUserId;
     tasks ← lift (TaskService.getByOwner userId);
     AuthContext.clear;;
     mret (mkResponse 200 (JsonValue tasks)))
    (fun err =>
       logCaught "Error in getTasksByOwner endpoint" err;;
       AuthContext.clear;;
       mret (errorResponse err)).

(** [paramUserId] is [req.params.userId]; [None] when it is not a string. *)
Definition deleteTasksByOwner (paramUserId : option string)
    (headers : gmap string string) : H Response :=
  lift (Logger.info "Entering deleteTasksByOwner endpoint");;
  try_catchH
    (AuthContext.extractFromHeaders headers;;
     userId ← AuthContext.getUserId;
     role ← AuthContext.getRole;
     let targetUserId := default userId paramUserId in
     (if negb (String.eqb targetUserId userId) && negb (String.eqb role "ADMIN")
      then raise (ForbiddenError "You can only delete your own tasks")
      else mret tt);;
     deletedCount ← lift (TaskService.deleteByOwner targetUserId);
     AuthContext.clear;;
     mret (mkResponse 200
             (JsonDeleted deletedCount
                ("Deleted " ++ JSString.ofNat deletedCount ++ " tasks"))))
    (fun err =>
       logCaught "Error in deleteTasksByOwner endpoint" err;;
       AuthContext.clear;;
       mret (errorResponse err)).
End TaskController.

Module UserController.
Definition getProfile (headers : gmap string string) : H Response :=
  lift (Logger.info "Entering getProfile endpoint");;
  try_catchH
    (AuthContext.extractFromHeaders headers;;
     userId ← AuthContext.getUserId;
     user ← lift (UserService.getById userId);
     AuthContext.clear;;
     mret (mkResponse 200
             (JsonProfile (User.id user) (User.email user) (User.role user))))
    (fun err =>
       logCaught "Error in getProfile endpoint" err;;
       AuthContext.clear;;
       mret (errorResponse err)).
End UserController.

(* ===================================================================== *)
(** * Vocabulary of the properties *)
(* ===================================================================== *)

(** The date that the deadline block compares against: a fresh [new Date()]
    moved five calendar years ahead with [setFullYear]. *)
Definition fiveYearsFromNow (env : Env) : JSDate.Date :=
  JSDate.setFullYear (localTZA env) (JSDate.DateOf (now env))
    ((fun y => y + 5)
       <$> JSDate.getFullYear (localTZA env) (JSDate.DateOf (now env))).

(** The deadline passes the block: absent, or a valid date that is neither
    before the clock nor after [fiveYearsFromNow]. *)
Definition deadlineAccepted (env : Env) (deadline : option JSDate.Date) : bool :=
  match deadline with
  | None => true
  | Some d =>
      negb (JSDate.isNaN (JSDate.getTime d))
      && negb (JSDate.lt d (JSDate.DateOf (now env)))
      && negb (JSDate.gt d (fiveYearsFromNow env))
  end.

(** The clock and the time zone of a host: a local time value that leaves
    room for five more years, and offsets of at most a day. *)
Definition hostTimeOk (env : Env) : Prop :=
  Z.abs (JSDate.LocalTime (localTZA env) (now env))
  <= JSDate.maxTime - 200000000000
  /\ forall t isUTC, Z.abs (localTZA env t isUTC) <= JSDate.msPerDay.

(** The title bounds of [create]. *)
Definition titleAccepted (title : string) : Prop :=
  (3 <= JSString.length (JSString.trim title))%nat
  /\ (JSString.length title <= 100)%nat.

(** The checks of [create] on the description and the priority. *)
Definition descriptionAccepted (description : option string) : Prop :=
  match description with
  | Some d => (JSString.length d <= 500)%nat
  | None => True
  end.

Definition priorityAccepted (priority : option string) : Prop :=
  match priority with
  | Some p => p = "" \/ p = "LOW" \/ p = "MEDIUM" \/ p = "HIGH"
  | None => True
  end.

(** The check of [update] on the status. *)
Definition statusAccepted (status : option string) : Prop :=
  match status with
  | Some s => s = "" \/ s = "TODO" \/ s = "IN_PROGRESS" \/ s = "DONE"
              \/ s = "CANCELLED"
  | None => True
  end.

(** The field validation of [create] passes. *)
Definition fieldsAccepted (env : Env) (dto : CreateTaskDTO.t) : Prop :=
  titleAccepted (CreateTaskDTO.title dto)
  /\ descriptionAccepted (CreateTaskDTO.description dto)
  /\ deadlineAccepted env (CreateTaskDTO.deadline dto) = true
  /\ priorityAccepted (CreateTaskDTO.priority dto).

(** A deadline that the block turns down: not a valid timestamp, before
    the clock, or after [fiveYearsFromNow]. *)
Definition deadlineRejected (env : Env) (d : JSDate.Date) : Prop :=
  d = JSDate.InvalidDate
  \/ (exists t, d = JSDate.DateOf t /\ t < now env)
  \/ (exists t f, d = JSDate.DateOf t
                  /\ fiveYearsFromNow env = JSDate.DateOf f /\ f < t).

(** The message of the first deadline check that fails. *)
Definition deadlineMessage (env : Env) (deadline : option JSDate.Date)
  : string :=
  match deadline with
  | None => ""
  | Some d =>
      if JSDate.isNaN (JSDate.getTime d) then "Invalid deadline date format"
      else if JSDate.lt d (JSDate.DateOf (now env))
           then "Deadline cannot be in the past"
           else "Deadline cannot be more than 5 years in the future"
  end.

(** The owner is in the User Store. *)
Definition ownerExists (ownerId : string) (w : World) : Prop :=
  exists u, u ∈ users w /\ User.id u = ownerId.

(** The tasks of [ownerId] whose title contains [pattern], case aside. *)
Definition similarTasks (ownerId pattern : string) (w : World) : list Task.t :=
  List.filter (TaskRepository.matchesPattern ownerId pattern None) (tasks w).

(** The same among the tasks other than [id]: what the duplicate check of
    [update] looks at. *)
Definition similarTasksExcept (ownerId pattern id : string) (w : World)
  : list Task.t :=
  List.filter (TaskRepository.matchesPattern ownerId pattern (Some id))
              (tasks w).

(** The task that [create] builds from a request. *)
Definition newTask (env : Env) (dto : CreateTaskDTO.t) : Task.t :=
  Task.mk (uuid env)
    (JSString.trim (CreateTaskDTO.title dto))
    (JSString.trim <$> CreateTaskDTO.description dto)
    "TODO"
    (CreateTaskDTO.deadline dto)
    (TaskService.orElse (CreateTaskDTO.priority dto) "MEDIUM")
    (CreateTaskDTO.ownerId dto)
    (JSDate.DateOf (now env)).

(** The partial record that [update] passes to the store. *)
Definition updateData (dto : UpdateTaskDTO.t) : UpdateTaskDTO.t :=
  UpdateTaskDTO.mk
    (JSString.trim <$> UpdateTaskDTO.title dto)
    (JSString.trim <$> UpdateTaskDTO.description dto)
    (TaskService.present (UpdateTaskDTO.status dto))
    (UpdateTaskDTO.deadline dto)
    (TaskService.present (UpdateTaskDTO.priority dto)).

(** The cache after [invalidateEach ids]. *)
Fixpoint invalidated (ids : list string) (c : gmap string CacheEntry)
  : gmap string CacheEntry :=
  match ids with
  | [] => c
  | id :: rest => invalidated rest (delete ("task:" ++ id) c)
  end.

(** The identifiers of the stored tasks. *)
Definition storedIds (w : World) : list string := Task.id <$> tasks w.

(** The store read of [TaskRepository.findById], as it shows on the
    console, and the number of such reads so far. *)
Definition storeReadLine : ConsoleLine := ConsoleLog "[INFO] Finding task by id".

Definition isStoreRead (l : ConsoleLine) : bool :=
  match l with
  | ConsoleLog text => String.eqb text "[INFO] Finding task by id"
  | _ => false
  end.

Definition storeReads (w : World) : nat :=
  length (List.filter isStoreRead (console w)).

(** ** Calls and reachable worlds *)

(** A request to the coordinator, or a registration that adds a user. *)
Inductive Call : Type :=
| Create (dto : CreateTaskDTO.t)
| Update (id : string) (dto : UpdateTaskDTO.t)
| Delete (id : string)
| DeleteByOwner (ownerId : string)
| DeleteMultiple (ids : list string)
| GetById (id : string)
| GetByOwner (ownerId : string)
| Register (user : User.t).

(** The world after a call; an exception is caught by the caller. *)
Definition step (c : Call) (env : Env) (w : World) : World :=
  match c with
  | Create dto => snd (run (TaskService.create dto) env w)
  | Update id dto => snd (run (TaskService.update id dto) env w)
  | Delete id => snd (run (TaskService.delete id) env w)
  | DeleteByOwner o => snd (run (TaskService.deleteByOwner o) env w)
  | DeleteMultiple ids => snd (run (TaskService.deleteMultiple ids) env w)
  | GetById id => snd (run (TaskService.getById id) env w)
  | GetByOwner o => snd (run (TaskService.getByOwner o) env w)
  | Register u => snd (run (UserRepository.save u) env w)
  end.

(** [crypto.randomUUID()] yields an identifier that no stored task has. *)
Definition freshUUID (env : Env) (w : World) : Prop :=
  uuid env ∉ (Task.id <$> tasks w).

(** The start: no task, no cache entry, no transaction, any users. *)
Definition initial (us : list User.t) : World := mkWorld [] us ∅ false [] [].

Inductive reachable : World -> Prop :=
| reachable_initial us : reachable (initial us)
| reachable_step w env c :
    reachable w -> freshUUID env w -> reachable (step c env w).

(** Two stored tasks, at different places of the store, of one owner. *)
Definition sameOwnerPair (w : World) (a b : Task.t) : Prop :=
  exists i j, i <> j /\ tasks w !! i = Some a /\ tasks w !! j = Some b
              /\ Task.ownerId a = Task.ownerId b.

(** [a] occurs in [b], case aside, after trimming. *)
Definition titleWithin (a b : string) : bool :=
  JSString.includes (JSString.toLowerCase (JSString.trim b))
                    (JSString.toLowerCase (JSString.trim a)).

(** No title of an owner occurs within another title of that owner. *)
Definition noOverlappingTitles (w : World) : Prop :=
  forall a b, sameOwnerPair w a b ->
    titleWithin (Task.title a) (Task.title b) = false.

(** No two titles of an owner are equal, case aside, after trimming. *)
Definition noDuplicateTitles (w : World) : Prop :=
  forall a b, sameOwnerPair w a b ->
    JSString.toLowerCase (JSString.trim (Task.title a))
    <> JSString.toLowerCase (JSString.trim (Task.title b)).

(** ** The invariant of the store *)

Definition uniqueIds (ts : list Task.t) : Prop := NoDup (Task.id <$> ts).

Definition trimmedTitles (ts : list Task.t) : Prop :=
  forall t, t ∈ ts -> JSString.trim (Task.title t) = Task.title t.

Definition distinctTitles (ts : list Task.t) : Prop :=
  forall a b, a ∈ ts -> b ∈ ts -> Task.ownerId a = Task.ownerId b ->
    JSString.toLowerCase (Task.title a) = JSString.toLowerCase (Task.title b) ->
    Task.id a = Task.id b.

Definition storeInvariant (ts : list Task.t) : Prop :=
  uniqueIds ts /\ trimmedTitles ts /\ distinctTitles ts.

(** ** Sample data *)

Module Sample.
Definition user : User.t := User.mk "U" "u@example.org" "hash" USER.
Definition other : User.t := User.mk "V" "v@example.org" "hash" USER.

(** A host on UTC. *)
Definition utc : Z -> bool -> Z := fun _ _ => 0.

(** 2 November 2026, 23:34:56 UTC, and one second later. *)
Definition env1 : Env := mkEnv 1793662496000 utc "id-1".
Definition env2 : Env := mkEnv 1793662497000 utc "id-2".
Definition env3 : Env := mkEnv 1793662498000 utc "id-3".

(** Daylight saving time in the US Eastern time zone, 2026 to 2032: from
    the second Sunday of March, 7:00 UTC, to the first Sunday of November,
    6:00 UTC. *)
Definition easternDaylight : list (Z * Z) :=
  [(1772953200000, 1793512800000); (1805007600000, 1825567200000);
   (1836457200000, 1857016800000); (1867906800000, 1888466400000);
   (1899356400000, 1919916000000); (1930806000000, 1951365600000);
   (1962860400000, 1983420000000)].

(** A host on US Eastern time: five hours behind UTC, four during daylight
    saving time. A local time that a change of the clocks skips or repeats
    is read with the offset before the change. *)
Definition eastern (t : Z) (isUTC : bool) : Z :=
  let u := if isUTC then t else t + 4 * 3600000 in
  if existsb (fun i => (fst i <=? u) && (u <? snd i)) easternDaylight
  then -4 * 3600000
  else -5 * 3600000.

(** 9 March 2026, 0:30 local time, the day after the clocks went forward;
    five years on, 9 March 2031 is the day they go forward, at 2:00. *)
Definition spring : Env := mkEnv 1773030600000 eastern "id-1".

(** 1 November 2026, 12:00 local time, ten hours after the clocks went
    back; five years on they go back a day later, on 2 November 2031. *)
Definition autumn : Env := mkEnv 1793552400000 eastern "id-1".

Definition world : World := initial [user; other].

Definition titled (title : string) : CreateTaskDTO.t :=
  CreateTaskDTO.mk title None None None "U".

Definition due (deadline : JSDate.Date) : CreateTaskDTO.t :=
  CreateTaskDTO.mk "Write report" None (Some deadline) None "U".

Definition task (id title owner : string) (created : Z) : Task.t :=
  Task.mk id title None "TODO" None "MEDIUM" owner (JSDate.DateOf created).

(** A request that only sets the deadline. *)
Definition reschedule (deadline : JSDate.Date) : UpdateTaskDTO.t :=
  UpdateTaskDTO.mk None None None (Some deadline) None.

(** "report" is stored first, then "Write report". *)
Definition afterReport : World := step (Create (titled "report")) env1 world.
Definition afterBoth : World :=
  step (Create (titled "Write report")) env2 afterReport.
End Sample.

(** ** Vocabulary of the further properties *)

(** The calls that leave the cached owner lists as they are. *)
Definition leavesOwnerLists (c : Call) : bool :=
  match c with
  | Create _ | Update _ _ | Delete _ | DeleteMultiple _ | GetById _
  | Register _ => true
  | DeleteByOwner _ | GetByOwner _ => false
  end.

(** A key that is not the key of a single task. *)
Definition notTaskKey (key : string) : Prop :=
  forall id, key <> "task:" ++ id.

(** The shape of a stored task: a trimmed title of 3 to 100 characters, a
    description of at most 500, a status and a priority of the allowed
    sets, and a deadline that is a valid date. *)
Definition wellFormedTask (t : Task.t) : Prop :=
  JSString.trim (Task.title t) = Task.title t
  /\ (3 <= JSString.length (Task.title t) <= 100)%nat
  /\ match Task.description t with
     | Some d => (JSString.length d <= 500)%nat
     | None => True
     end
  /\ Task.status t ∈ ["TODO"; "IN_PROGRESS"; "DONE"; "CANCELLED"]
  /\ Task.priority t ∈ ["LOW"; "MEDIUM"; "HIGH"]
  /\ Task.deadline t <> Some JSDate.InvalidDate.

(** A header that is absent or empty. *)
Definition headerMissing (headers : gmap string string) (name : string) : Prop :=
  TaskService.present (headers !! name) = None.

(** A header that is present with a non-empty value. *)
Definition headerIs (headers : gmap string string) (name value : string)
  : Prop :=
  headers !! name = Some value /\ value <> "".

Module Scenario.
(** The task that [Sample.afterReport] holds. *)
Definition report : Task.t := newTask Sample.env1 (Sample.titled "report").

(** A request that only sets the status. *)
Definition setStatus (status : string) : UpdateTaskDTO.t :=
  UpdateTaskDTO.mk None None (Some status) None None.

(** That task once its status is set to DONE, and the world after the
    update that does so. *)
Definition finished : Task.t :=
  Task.mk "id-1" "report" None "DONE" None "MEDIUM" "U"
          (JSDate.DateOf 1793662496000).

Definition afterFinish : World :=
  snd (run (TaskService.update "id-1" (setStatus "DONE")) Sample.env2
         Sample.afterReport).

(** The owner list of U is read, and so cached, before a second task is
    created. *)
Definition listed : World :=
  snd (run (TaskService.getByOwner "U") Sample.env2 Sample.afterReport).

Definition adminHeaders : gmap string string :=
  {["x-user-id" := "V"; "x-role" := "ADMIN"]}.
Definition userHeaders : gmap string string :=
  {["x-user-id" := "U"; "x-role" := "USER"]}.
Definition noHeaders : gmap string string := ∅.

Definition server : Server := mkServer Sample.afterBoth None.
End Scenario.

(* ===================================================================== *)
(** * Examples *)
(* ===================================================================== *)

Example toLowerCase_ex : JSString.toLowerCase "Write Report" = "write report".
Proof. reflexivity. Qed.

Example trim_ex : JSString.trim "  ab c  " = "ab c".
Proof. reflexivity. Qed.

Example includes_ex :
  JSString.includes "write report" "report" = true
  /\ JSString.includes "write report" "report writing" = false.
Proof. split; reflexivity. Qed.

Example year_ex : JSDate.YearFromTime 1793662496000 = 2026.
Proof. reflexivity. Qed.

Example setFullYear_ex :
  JSDate.setFullYear Sample.utc (JSDate.DateOf 1793662496000) (Some 2031)
  = JSDate.DateOf 1951428896000.
Proof. reflexivity. Qed.

(** 29 February 2024 moves to 1 March 2029. *)
Example setFullYear_leap_day :
  JSDate.setFullYear Sample.utc (JSDate.DateOf 1709208000000) (Some 2029)
  = JSDate.DateOf 1867060800000.
Proof. reflexivity. Qed.

(** On a host with daylight saving time the offset five years ahead can
    differ from the offset at the clock. From 9 March 2026, 0:30 EDT
    (4:30 UTC), the limit is 9 March 2031, 0:30 EST (5:30 UTC); from
    1 November 2026, 12:00 EST (17:00 UTC), it is 1 November 2031,
    12:00 EDT (16:00 UTC). *)
Example fiveYearsFromNow_spring :
  fiveYearsFromNow Sample.spring = JSDate.DateOf 1930800600000.
Proof. reflexivity. Qed.

Example fiveYearsFromNow_autumn :
  fiveYearsFromNow Sample.autumn = JSDate.DateOf 1951315200000.
Proof. reflexivity. Qed.

(** A deadline at 5:00 UTC on 9 March 2031 passes on that host. *)
Example deadline_spring :
  run (TaskService.deadlineValidation (Some (JSDate.DateOf 1930798800000)))
      Sample.spring Sample.world
  = (Ok tt, Sample.world).
Proof. reflexivity. Qed.

(* ===================================================================== *)
(** * Strings *)
(* ===================================================================== *)

Module JSStringFacts.
Import JSString.

Lemma prefix_refl s : String.prefix s s = true.
Proof.
  induction s as [|c s IH]; [done|]. cbn.
  destruct (ascii_dec c c); [done|congruence].
Qed.

Lemma includes_refl s : includes s s = true.
Proof. destruct s; cbn [includes]; by rewrite prefix_refl. Qed.

Lemma trimEnd_cons c s :
  trimEnd (String c s)
  = match trimEnd s with
    | EmptyString => if isWhiteSpace c then EmptyString
                     else String c EmptyString
    | r => String c r
    end.
Proof. reflexivity. Qed.

Lemma trimEnd_idem s : trimEnd (trimEnd s) = trimEnd s.
Proof.
  induction s as [|c s IH]; [done|]. rewrite trimEnd_cons.
  destruct (trimEnd s) as [|c' r] eqn:E.
  - destruct (isWhiteSpace c) eqn:Ec; [done|]. cbn. by rewrite Ec.
  - rewrite trimEnd_cons, IH. done.
Qed.

Lemma trimStart_fixed c s :
  isWhiteSpace c = false -> trimStart (String c s) = String c s.
Proof. intros H. cbn. by rewrite H. Qed.

Lemma trimEnd_head c s :
  isWhiteSpace c = false -> exists r, trimEnd (String c s) = String c r.
Proof.
  intros H. rewrite trimEnd_cons. destruct (trimEnd s); [rewrite H|]; eauto.
Qed.

Lemma trimStart_head s :
  trimStart s = "" \/ exists c r, trimStart s = String c r /\ isWhiteSpace c = false.
Proof.
  induction s as [|c s IH]; [by left|]. cbn.
  destruct (isWhiteSpace c) eqn:E; [done|]. right; eauto.
Qed.

(** Trimming a trimmed string changes nothing. *)
Lemma trim_idem s : trim (trim s) = trim s.
Proof.
  unfold trim. destruct (trimStart_head s) as [->|(c & r & -> & Hc)]; [done|].
  destruct (trimEnd_head c r Hc) as [r' E]. rewrite E.
  rewrite (trimStart_fixed c r' Hc), <- E. apply trimEnd_idem.
Qed.

Lemma truthy_false s : truthy s = false -> s = "".
Proof. by destruct s. Qed.
End JSStringFacts.

(* ===================================================================== *)
(** * Calendar arithmetic *)
(* ===================================================================== *)

Module JSDateFacts.
Import JSDate.

Ltac split_eqb :=
  repeat match goal with
  | |- context [?a =? ?b] => destruct (Z.eqb_spec a b)
  end.

Ltac split_ltb :=
  repeat match goal with
  | |- context [?a <? ?b] => destruct (Z.ltb_spec a b)
  end.

Lemma DayFromYear_succ y : DayFromYear (y + 1) = DayFromYear y + DaysInYear y.
Proof.
  unfold DayFromYear, DaysInYear, isLeapYear.
  split_eqb; cbn [andb orb negb]; Z.to_euclidean_division_equations; lia.
Qed.

Lemma DayFromYear_mono y y' : y <= y' -> DayFromYear y <= DayFromYear y'.
Proof.
  unfold DayFromYear. intros. Z.to_euclidean_division_equations. lia.
Qed.

(** The year of a time value starts no later than its day and the next
    year starts after it. *)
Lemma YearFromTime_spec t :
  DayFromYear (YearFromTime t) <= Day t < DayFromYear (YearFromTime t + 1).
Proof.
  unfold YearFromTime. generalize (Day t). intros d.
  set (y := 1970 + d * 400 / 146097).
  assert (Hlo : DayFromYear (y - 1) <= d).
  { unfold DayFromYear, y. Z.to_euclidean_division_equations. lia. }
  assert (Hhi : d < DayFromYear (y + 2)).
  { unfold DayFromYear, y. Z.to_euclidean_division_equations. lia. }
  destruct (Z.ltb_spec d (DayFromYear y)).
  - replace (y - 1 + 1) with y by lia. lia.
  - destruct (Z.leb_spec (DayFromYear (y + 1)) d).
    + replace (y + 1 + 1) with (y + 2) by lia. lia.
    + lia.
Qed.

(** [YearFromTime t] is the largest [y] with [TimeFromYear y <= t]. *)
Lemma TimeFromYear_YearFromTime t : TimeFromYear (YearFromTime t) <= t.
Proof.
  pose proof (YearFromTime_spec t) as [H _].
  unfold TimeFromYear, Day, msPerDay in *.
  Z.to_euclidean_division_equations. lia.
Qed.

Lemma YearFromTime_largest t y : TimeFromYear y <= t -> y <= YearFromTime t.
Proof.
  intros H. pose proof (YearFromTime_spec t) as [_ Hhi].
  destruct (Z.le_gt_cases y (YearFromTime t)) as [|Hgt]; [done|].
  pose proof (DayFromYear_mono (YearFromTime t + 1) y ltac:(lia)).
  unfold TimeFromYear, Day, msPerDay in *.
  Z.to_euclidean_division_equations. lia.
Qed.

Lemma InLeapYear_range t : 0 <= InLeapYear t <= 1.
Proof. unfold InLeapYear. destruct (isLeapYear (YearFromTime t)); lia. Qed.

Lemma DayWithinYear_range t : 0 <= DayWithinYear t < 365 + InLeapYear t.
Proof.
  unfold DayWithinYear, InLeapYear.
  pose proof (YearFromTime_spec t) as [H1 H2].
  rewrite DayFromYear_succ in H2. unfold DaysInYear in H2.
  destruct (isLeapYear (YearFromTime t)); lia.
Qed.

Lemma MonthFromTime_range t : 0 <= MonthFromTime t <= 11.
Proof. unfold MonthFromTime. split_ltb; lia. Qed.

(** A day number is the start of its year, plus the start of its month,
    plus its day of the month. *)
Lemma Day_decompose t :
  Day t = DayFromYear (YearFromTime t)
          + monthStart (InLeapYear t) (MonthFromTime t)
          + DateFromTime t - 1.
Proof.
  unfold DateFromTime, MonthFromTime, DayWithinYear.
  split_ltb; cbn [monthStart]; lia.
Qed.

Lemma monthStart_leap l l' m :
  0 <= l <= 1 -> 0 <= l' <= 1 -> monthStart l m - 1 <= monthStart l' m.
Proof.
  intros. unfold monthStart.
  repeat match goal with
  | |- context [match ?x with _ => _ end] => destruct x
  end; lia.
Qed.

Lemma DayFromYear_plus5 y :
  DayFromYear y + 1825 <= DayFromYear (y + 5) <= DayFromYear y + 1827.
Proof. unfold DayFromYear. Z.to_euclidean_division_equations. lia. Qed.

(** Five calendar years ahead of [t] is a valid date: the UTC reading of a
    local time between 1824 and 1828 days after the local time of [t]. *)
Lemma setFullYear_plus5 tza t :
  Z.abs (LocalTime tza t) <= maxTime - 200000000000 ->
  (forall u isUTC, Z.abs (tza u isUTC) <= msPerDay) ->
  exists l5,
    setFullYear tza (DateOf t)
      ((fun y => y + 5) <$> getFullYear tza (DateOf t)) = DateOf (UTC tza l5)
    /\ LocalTime tza t + 1824 * msPerDay <= l5
       <= LocalTime tza t + 1828 * msPerDay.
Proof.
  intros Ht Hz. unfold setFullYear, getFullYear.
  cbn [fmap option_fmap option_map].
  set (l := LocalTime tza t) in *.
  unfold MakeDay, MakeDate.
  pose proof (MonthFromTime_range l) as Hm.
  rewrite (Z.div_small (MonthFromTime l) 12) by lia.
  rewrite (Z.mod_small (MonthFromTime l) 12) by lia.
  rewrite Z.add_0_r.
  pose proof (Day_decompose l) as Hd.
  pose proof (DayFromYear_plus5 (YearFromTime l)) as H5.
  pose proof (InLeapYear_range l) as Hl.
  set (Y := YearFromTime l) in *.
  set (l5 := if isLeapYear (Y + 5) then 1 else 0).
  assert (Hl' : 0 <= l5 <= 1) by (unfold l5; destruct (isLeapYear (Y + 5)); lia).
  pose proof (monthStart_leap (InLeapYear l) l5 (MonthFromTime l) Hl Hl') as Hs1.
  pose proof (monthStart_leap l5 (InLeapYear l) (MonthFromTime l) Hl' Hl) as Hs2.
  set (D' := DayFromYear (Y + 5) + monthStart l5 (MonthFromTime l)
             + DateFromTime l - 1) in *.
  assert (Hl0 : l = Day l * msPerDay + TimeWithinDay l).
  { unfold Day, TimeWithinDay, msPerDay.
    Z.to_euclidean_division_equations. lia. }
  assert (Hr : l + 1824 * msPerDay
               <= D' * msPerDay + TimeWithinDay l
               <= l + 1828 * msPerDay).
  { unfold msPerDay in *. lia. }
  set (r := D' * msPerDay + TimeWithinDay l) in *.
  exists r. split; [|exact Hr].
  unfold TimeClip, UTC. specialize (Hz r false).
  destruct (Z.ltb_spec maxTime (Z.abs (r - tza r false))); [|done].
  exfalso. unfold maxTime, msPerDay in *. lia.
Qed.

Lemma YearFromTime_unique t y :
  DayFromYear y <= Day t < DayFromYear (y + 1) -> YearFromTime t = y.
Proof.
  intros [Hlo Hhi]. pose proof (YearFromTime_spec t) as [Hlo' Hhi'].
  destruct (Z.lt_trichotomy (YearFromTime t) y) as [Hlt | [Heq | Hgt]];
    [|done|].
  - pose proof (DayFromYear_mono (YearFromTime t + 1) y ltac:(lia)). lia.
  - pose proof (DayFromYear_mono (y + 1) (YearFromTime t) ltac:(lia)). lia.
Qed.

(** [MakeDay] meets its definition in ECMA-262: the day it returns for the
    first of a month is a day of that year and month, with date 1. *)
Lemma MakeDay_first y m :
  0 <= m <= 11 ->
  let t := MakeDate (MakeDay y m 1) 0 in
  YearFromTime t = y /\ MonthFromTime t = m /\ DateFromTime t = 1.
Proof.
  intros Hm t.
  assert (Hday : Day t = DayFromYear y
                         + monthStart (if isLeapYear y then 1 else 0) m).
  { unfold t, MakeDate, MakeDay, Day, msPerDay.
    rewrite (Z.div_small m 12), (Z.mod_small m 12), Z.add_0_r by lia.
    rewrite Z.add_0_r, Z.div_mul by lia. lia. }
  assert (Hc : m = 0 \/ m = 1 \/ m = 2 \/ m = 3 \/ m = 4 \/ m = 5 \/ m = 6
               \/ m = 7 \/ m = 8 \/ m = 9 \/ m = 10 \/ m = 11) by lia.
  assert (Hms : 0 <= monthStart (if isLeapYear y then 1 else 0) m <= 335).
  { destruct (isLeapYear y);
      repeat (destruct Hc as [-> | Hc]; [cbn; lia|]); subst m; cbn; lia. }
  assert (Hy : YearFromTime t = y).
  { apply YearFromTime_unique. rewrite Hday, DayFromYear_succ.
    unfold DaysInYear. destruct (isLeapYear y); lia. }
  split; [done|].
  unfold DateFromTime, MonthFromTime, DayWithinYear, InLeapYear.
  rewrite Hy, Hday, Z.add_simpl_l.
  destruct (isLeapYear y);
    repeat (destruct Hc as [-> | Hc]; [split; reflexivity|]);
    subst m; split; reflexivity.
Qed.

End JSDateFacts.

(* ===================================================================== *)
(** * Running a method body *)
(* ===================================================================== *)

(** Unfold the monad and the world accessors; conditions stay folded. *)
Ltac unfold_monad :=
  cbv [run mbind M_bind mret M_ret throw throw_if try_catch ask get_world
       put_world modify Date_now Date_new randomUUID
       Logger.info Logger.error Logger.debug
       set_tasks set_users set_cache set_transaction write_console
       tasks users cache isActive operations console fst snd];
  change (negb true) with false; change (negb false) with true;
  cbn [data expiry isUndefined]; cbv iota.

(** Case analysis on the condition or the optional value that the run is
    waiting for. *)
Ltac split_head :=
  match goal with
  | |- context [(if ?c then _ else _) ?e ?w] => destruct c eqn:?
  | |- context [match ?o with Some _ => _ | None => _ end ?e ?w] =>
      destruct o eqn:?
  | |- context [match (if ?c then _ else _) with (_, _) => _ end] =>
      destruct c eqn:?
  | |- context [match (if ?c then _ else _) with Ok _ => _ | Throw _ => _ end] =>
      destruct c eqn:?
  end; unfold_monad.

Ltac unfold_cache :=
  unfold CacheService.set, CacheService.get, CacheService.invalidate,
    CacheService.clear.

Ltac unfold_create :=
  unfold TaskService.create, TransactionManager.begin,
    TransactionManager.commit, TransactionManager.rollback,
    UserRepository.findById, TaskRepository.findByOwnerAndTitlePattern,
    TaskRepository.save.

Ltac unfold_update :=
  unfold TaskService.update, TransactionManager.begin,
    TransactionManager.commit, TransactionManager.rollback,
    TaskRepository.findById, TaskRepository.findByOwnerAndTitlePattern,
    TaskRepository.update, CacheService.invalidate.

Ltac unfold_getById :=
  unfold TaskService.getById, TaskRepository.findById; unfold_cache.

Ltac unfold_deleteByOwner :=
  unfold TaskService.deleteByOwner, TransactionManager.begin,
    TransactionManager.commit, TransactionManager.rollback,
    UserRepository.findById, TaskRepository.deleteByOwner; unfold_cache.

Ltac unfold_deleteMultiple :=
  unfold TaskService.deleteMultiple, TransactionManager.begin,
    TransactionManager.commit, TransactionManager.rollback,
    TaskRepository.deleteMultiple.

(* ===================================================================== *)
(** * The checks of [create] and [update] *)
(* ===================================================================== *)

Lemma deadlineValidation_run deadline env w :
  TaskService.deadlineValidation deadline env w
  = (if deadlineAccepted env deadline then Ok tt
     else Throw (ValidationError (deadlineMessage env deadline)), w).
Proof.
  unfold TaskService.deadlineValidation, deadlineAccepted, deadlineMessage,
    fiveYearsFromNow.
  destruct deadline as [d|]; [|done].
  unfold_monad.
  destruct (JSDate.isNaN (JSDate.getTime d)); [done|].
  destruct (JSDate.lt d (JSDate.DateOf (now env))); [done|].
  cbn [negb andb].
  destruct (JSDate.gt d _); done.
Qed.

Lemma deadlineRejected_not_accepted env d :
  deadlineRejected env d -> deadlineAccepted env (Some d) = false.
Proof.
  unfold deadlineAccepted.
  intros [-> | [(t & -> & Ht) | (t & f & -> & Hf & Ht)]]; [done| |].
  - cbn. apply Z.ltb_lt in Ht. by rewrite Ht.
  - rewrite Hf. cbn. apply Z.ltb_lt in Ht. rewrite Ht. by rewrite andb_false_r.
Qed.

(** [findById] of the user store finds a user exactly when one exists. *)
Lemma findById_is_Some oid (us : list User.t) :
  is_Some (List.find (fun u => String.eqb (User.id u) oid) us)
  <-> exists u, u ∈ us /\ User.id u = oid.
Proof.
  split.
  - intros [u Hu]. apply find_some in Hu as [Hin Heq].
    exists u. split; [by apply list_elem_of_In|by apply String.eqb_eq].
  - intros (u & Hin & Heq). apply list_elem_of_In in Hin.
    destruct (List.find _ us) eqn:E; [done|].
    eapply find_none in E; [|done]. apply String.eqb_neq in E. done.
Qed.

Lemma badPriority_false p :
  priorityAccepted p -> TaskService.badPriority p = false.
Proof.
  destruct p as [p|]; [|done]. cbn. intros [-> | [-> | [-> | ->]]]; done.
Qed.

Lemma description_check_false d :
  descriptionAccepted d ->
  match TaskService.present d with
  | Some d => (500 <? JSString.length d)%nat
  | None => false
  end = false.
Proof.
  destruct d as [d|]; [|done]. unfold descriptionAccepted, TaskService.present.
  intros H. destruct (JSString.truthy d); [|done]. by apply Nat.ltb_ge.
Qed.

Lemma titleAccepted_checks title :
  titleAccepted title ->
  negb (JSString.truthy title) = false
  /\ (JSString.length (JSString.trim title) <? 3)%nat = false
  /\ (100 <? JSString.length title)%nat = false.
Proof.
  intros [H1 H2]. repeat split.
  - destruct title; [cbn in H1; lia|done].
  - by apply Nat.ltb_ge.
  - by apply Nat.ltb_ge.
Qed.

(** [create] once the fields are accepted: the owner check, the duplicate
    check, and the task that is stored. *)
Lemma create_accepted dto env w :
  fieldsAccepted env dto ->
  let owner := List.find
                 (fun u => String.eqb (User.id u) (CreateTaskDTO.ownerId dto))
                 (users w) in
  let sim := similarTasks (CreateTaskDTO.ownerId dto)
               (JSString.trim (CreateTaskDTO.title dto)) w in
  let r := run (TaskService.create dto) env w in
  fst r = (if isUndefined owner then Throw (NotFoundError "Owner not found")
           else if (0 <? length sim)%nat then
             Throw (ValidationError
                      "A task with similar title already exists for this user")
           else Ok (newTask env dto))
  /\ tasks (snd r) = (if isUndefined owner || (0 <? length sim)%nat
                      then tasks w
                      else (tasks w ++ [newTask env dto])%list)
  /\ users (snd r) = users w
  /\ cache (snd r) = cache w.
Proof.
  intros (Ht & Hd & Hl & Hp). destruct w as [ts us c a ops con].
  apply titleAccepted_checks in Ht as (Ht1 & Ht2 & Ht3).
  apply description_check_false in Hd. apply badPriority_false in Hp.
  unfold similarTasks, newTask. cbn [users tasks cache].
  unfold_create. unfold_monad.
  rewrite Ht1; unfold_monad. rewrite Ht2; unfold_monad.
  rewrite Ht3; unfold_monad. rewrite Hd; unfold_monad.
  rewrite deadlineValidation_run, Hl; unfold_monad.
  rewrite Hp; unfold_monad.
  split_head; [done|]. split_head; done.
Qed.

Lemma create_short_title dto env w :
  (JSString.length (JSString.trim (CreateTaskDTO.title dto)) < 3)%nat ->
  exists msg,
    fst (run (TaskService.create dto) env w) = Throw (ValidationError msg).
Proof.
  intros H%Nat.ltb_lt. destruct w as [ts us c a ops con].
  unfold_create. unfold_monad.
  split_head; [eauto|]. rewrite H; unfold_monad. eauto.
Qed.

Lemma create_long_title dto env w :
  (100 < JSString.length (CreateTaskDTO.title dto))%nat ->
  exists msg,
    fst (run (TaskService.create dto) env w) = Throw (ValidationError msg).
Proof.
  intros H%Nat.ltb_lt. destruct w as [ts us c a ops con].
  unfold_create. unfold_monad.
  split_head; [eauto|]. split_head; [eauto|].
  rewrite H; unfold_monad. eauto.
Qed.

Lemma create_bad_deadline dto env w d :
  CreateTaskDTO.deadline dto = Some d -> deadlineRejected env d ->
  exists msg,
    fst (run (TaskService.create dto) env w) = Throw (ValidationError msg).
Proof.
  intros Hd H%deadlineRejected_not_accepted. destruct w as [ts us c a ops con].
  unfold_create. unfold_monad.
  do 4 (split_head; [eauto|]).
  rewrite deadlineValidation_run, Hd, H; unfold_monad. eauto.
Qed.

Lemma update_bad_deadline id dto env w d :
  UpdateTaskDTO.deadline dto = Some d -> deadlineRejected env d ->
  exists msg,
    fst (run (TaskService.update id dto) env w) = Throw (ValidationError msg).
Proof.
  intros Hd H%deadlineRejected_not_accepted. destruct w as [ts us c a ops con].
  unfold_update. unfold_monad.
  destruct (UpdateTaskDTO.title dto) as [title|]; unfold_monad.
  - do 3 (split_head; [eauto|]).
    rewrite deadlineValidation_run, Hd, H; unfold_monad. eauto.
  - split_head; [eauto|].
    rewrite deadlineValidation_run, Hd, H; unfold_monad. eauto.
Qed.

(** On a host with a sound clock the limit of the deadline block is the
    UTC reading of a local time 1824 to 1828 days after the local clock,
    and the block passes exactly the deadlines from the clock to the
    limit. *)
Lemma deadline_window env :
  hostTimeOk env ->
  exists l5 f,
    fiveYearsFromNow env = JSDate.DateOf f
    /\ f = JSDate.UTC (localTZA env) l5
    /\ JSDate.LocalTime (localTZA env) (now env) + 1824 * JSDate.msPerDay
       <= l5
       <= JSDate.LocalTime (localTZA env) (now env) + 1828 * JSDate.msPerDay
    /\ now env + 1822 * JSDate.msPerDay <= f <= now env + 1830 * JSDate.msPerDay
    /\ forall t, deadlineAccepted env (Some (JSDate.DateOf t)) = true
                 <-> now env <= t <= f.
Proof.
  intros [Hn Hz].
  destruct (JSDateFacts.setFullYear_plus5 (localTZA env) (now env) Hn Hz)
    as (l5 & Hf & Hl5).
  exists l5, (JSDate.UTC (localTZA env) l5).
  split; [exact Hf|]. split; [reflexivity|]. split; [exact Hl5|].
  pose proof (Hz (now env) true) as H1. pose proof (Hz l5 false) as H2.
  split.
  - unfold JSDate.UTC, JSDate.LocalTime, JSDate.msPerDay in *. lia.
  - intros t. unfold deadlineAccepted. unfold fiveYearsFromNow in Hf |- *.
    rewrite Hf.
    cbn [JSDate.isNaN JSDate.getTime JSDate.lt JSDate.gt negb andb].
    rewrite !andb_true_iff, !negb_true_iff, !Z.ltb_ge. tauto.
Qed.

Lemma find_findIndex {A} (p : A -> bool) (l : list A) x :
  List.find p l = Some x ->
  exists i, TaskRepository.findIndex p l = Some i /\ l !! i = Some x.
Proof.
  induction l as [|y l IH]; [done|]. cbn.
  destruct (p y) eqn:E.
  - intros [= <-]. by exists 0%nat.
  - intros H. destruct (IH H) as (i & -> & Hi). by exists (S i).
Qed.

Lemma badStatus_false s :
  statusAccepted s -> TaskService.badStatus s = false.
Proof.
  destruct s as [s|]; [|done]. cbn.
  intros [-> | [-> | [-> | [-> | ->]]]]; done.
Qed.

(** [update] once the fields are accepted, the task is stored and no other
    task of its owner has a similar title: the merged task is returned and
    takes the place of the old one. *)
Lemma update_accepted id dto env w old :
  from_option titleAccepted True (UpdateTaskDTO.title dto) ->
  descriptionAccepted (UpdateTaskDTO.description dto) ->
  deadlineAccepted env (UpdateTaskDTO.deadline dto) = true ->
  priorityAccepted (UpdateTaskDTO.priority dto) ->
  statusAccepted (UpdateTaskDTO.status dto) ->
  List.find (fun t => String.eqb (Task.id t) id) (tasks w) = Some old ->
  (forall title, UpdateTaskDTO.title dto = Some title ->
     similarTasksExcept (Task.ownerId old) (JSString.trim title) id w = []) ->
  exists index,
    tasks w !! index = Some old
    /\ fst (run (TaskService.update id dto) env w)
       = Ok (spread old (updateData dto))
    /\ tasks (snd (run (TaskService.update id dto) env w))
       = <[index := spread old (updateData dto)]> (tasks w).
Proof.
  intros Ht Hd Hl Hp Hs Hf Hsim. destruct w as [ts us c a ops con].
  cbn [tasks] in Hf. unfold similarTasksExcept in Hsim. cbn [tasks] in Hsim.
  destruct (find_findIndex _ _ _ Hf) as (index & Hi & Hold).
  exists index. split; [exact Hold|].
  apply badPriority_false in Hp. apply badStatus_false in Hs.
  assert (Hd' : match UpdateTaskDTO.description dto with
                | Some d => (500 <? JSString.length d)%nat
                | None => false
                end = false).
  { destruct (UpdateTaskDTO.description dto); [by apply Nat.ltb_ge|done]. }
  unfold updateData. cbn [tasks]. unfold_update. unfold_monad.
  destruct (UpdateTaskDTO.title dto) as [title|] eqn:Etitle; unfold_monad.
  - cbn [from_option] in Ht. apply titleAccepted_checks in Ht as (_ & Ht2 & Ht3).
    rewrite Ht2; unfold_monad. rewrite Ht3; unfold_monad.
    rewrite Hd'; unfold_monad.
    rewrite deadlineValidation_run, Hl; unfold_monad.
    rewrite Hp; unfold_monad. rewrite Hs; unfold_monad.
    rewrite Hf; unfold_monad. rewrite (Hsim title eq_refl); unfold_monad.
    cbn [length Nat.ltb Nat.leb]. unfold_monad.
    rewrite Hi; unfold_monad. rewrite Hold; unfold_monad.
    rewrite list_lookup_insert_eq by (by eapply lookup_lt_Some). unfold_monad.
    done.
  - rewrite Hd'; unfold_monad.
    rewrite deadlineValidation_run, Hl; unfold_monad.
    rewrite Hp; unfold_monad. rewrite Hs; unfold_monad.
    rewrite Hf; unfold_monad.
    rewrite Hi; unfold_monad. rewrite Hold; unfold_monad.
    rewrite list_lookup_insert_eq by (by eapply lookup_lt_Some). unfold_monad.
    done.
Qed.

(* ===================================================================== *)
(** * Properties of [create] *)
(* ===================================================================== *)

(** C10. Whenever [create] ends with an exception, of any kind, the Task
    Store holds what it held before the call: the only write to the store,
    [save], is followed by no step that can fail. *)
Theorem create_error_keeps_tasks dto env w e w' :
  run (TaskService.create dto) env w = (Throw e, w') -> tasks w' = tasks w.
Proof.
  destruct w as [ts us c a ops con]. unfold_create. unfold_monad.
  repeat (first [rewrite deadlineValidation_run | split_head]; unfold_monad);
    intros [= <- <-]; reflexivity.
Qed.

Lemma create_error_keeps_tasks_witness :
  tasks (snd (run (TaskService.create (Sample.titled "ab")) Sample.env1
                Sample.world))
  = tasks Sample.world.
Proof.
  apply (create_error_keeps_tasks (Sample.titled "ab") Sample.env1 Sample.world
           (ValidationError "Title must be at least 3 characters long")).
  vm_compute. reflexivity.
Defined.

(** C4. When the fields of the request pass validation and the owner is not
    in the User Store, [create] fails with a NotFound error and the Task
    Store is unchanged. *)
Theorem create_owner_missing dto env w :
  fieldsAccepted env dto ->
  ~ ownerExists (CreateTaskDTO.ownerId dto) w ->
  fst (run (TaskService.create dto) env w)
  = Throw (NotFoundError "Owner not found")
  /\ tasks (snd (run (TaskService.create dto) env w)) = tasks w.
Proof.
  intros Hf Ho. destruct (create_accepted dto env w Hf) as (Hr & Ht & _).
  unfold ownerExists in Ho. rewrite <- findById_is_Some in Ho.
  apply eq_None_not_Some in Ho. rewrite Ho in Hr, Ht. done.
Qed.

Lemma create_owner_missing_witness :
  fst (run (TaskService.create
              (CreateTaskDTO.mk "Write report" None None None "nobody"))
           Sample.env1 Sample.world)
  = Throw (NotFoundError "Owner not found")
  /\ tasks (snd (run (TaskService.create
                        (CreateTaskDTO.mk "Write report" None None None
                           "nobody"))
                     Sample.env1 Sample.world))
     = tasks Sample.world.
Proof.
  apply (create_owner_missing
           (CreateTaskDTO.mk "Write report" None None None "nobody")
           Sample.env1 Sample.world).
  - repeat split; vm_compute; lia.
  - intros (u & Hin & Hid). vm_compute in Hin.
    apply elem_of_cons in Hin as [-> | Hin]; [discriminate|].
    apply elem_of_cons in Hin as [-> | Hin]; [discriminate|].
    by apply elem_of_nil in Hin.
Defined.

(** C5. [create] fails with a Validation error when the trimmed title has
    fewer than 3 characters, and when the raw title has more than 100; with
    a trimmed length of at least 3 and a raw length of at most 100 it
    succeeds, provided the other fields are valid, the owner exists and no
    similar title is stored: the new task is returned and appended to the
    store. *)
Theorem create_title_bounds dto env w :
  let title := CreateTaskDTO.title dto in
  let r := run (TaskService.create dto) env w in
  ((JSString.length (JSString.trim title) < 3)%nat ->
   exists msg, fst r = Throw (ValidationError msg))
  /\ ((100 < JSString.length title)%nat ->
      exists msg, fst r = Throw (ValidationError msg))
  /\ ((3 <= JSString.length (JSString.trim title))%nat ->
      (JSString.length title <= 100)%nat ->
      descriptionAccepted (CreateTaskDTO.description dto) ->
      deadlineAccepted env (CreateTaskDTO.deadline dto) = true ->
      priorityAccepted (CreateTaskDTO.priority dto) ->
      ownerExists (CreateTaskDTO.ownerId dto) w ->
      similarTasks (CreateTaskDTO.ownerId dto) (JSString.trim title) w = [] ->
      fst r = Ok (newTask env dto)
      /\ tasks (snd r) = (tasks w ++ [newTask env dto])%list).
Proof.
  intros title r. subst title r. split; [|split].
  - apply create_short_title.
  - apply create_long_title.
  - intros H3 H100 Hd Hl Hp Ho Hs.
    destruct (create_accepted dto env w) as (Hr & Ht & _); [done|].
    apply findById_is_Some in Ho as [u Hu].
    rewrite Hu, Hs in Hr, Ht. done.
Qed.

Lemma create_title_bounds_witness :
  (exists msg,
     fst (run (TaskService.create (Sample.titled " ab ")) Sample.env1
            Sample.world) = Throw (ValidationError msg))
  /\ fst (run (TaskService.create (Sample.titled "abc")) Sample.env1
            Sample.world)
     = Ok (newTask Sample.env1 (Sample.titled "abc")).
Proof.
  destruct (create_title_bounds (Sample.titled " ab ") Sample.env1 Sample.world)
    as (Hshort & _ & _).
  destruct (create_title_bounds (Sample.titled "abc") Sample.env1 Sample.world)
    as (_ & _ & Hok).
  split.
  - apply Hshort. vm_compute. lia.
  - apply Hok.
    + vm_compute. lia.
    + vm_compute. lia.
    + exact I.
    + reflexivity.
    + exact I.
    + exists Sample.user. split; [apply list_elem_of_here|reflexivity].
    + reflexivity.
Defined.

(* ===================================================================== *)
(** * The deadline *)
(* ===================================================================== *)

(** C1, as the specification states it, fails: a deadline equal to the
    clock is not turned down. Here the request is due at the very instant of
    the call and [create] stores the task. *)
Lemma deadline_equal_to_now_accepted :
  let dto := Sample.due (JSDate.DateOf (now Sample.env1)) in
  fst (run (TaskService.create dto) Sample.env1 Sample.world)
  = Ok (newTask Sample.env1 dto)
  /\ ~ (exists msg,
          fst (run (TaskService.create dto) Sample.env1 Sample.world)
          = Throw (ValidationError msg)).
Proof.
  assert (E : fst (run (TaskService.create
                          (Sample.due (JSDate.DateOf (now Sample.env1))))
                     Sample.env1 Sample.world)
              = Ok (newTask Sample.env1
                      (Sample.due (JSDate.DateOf (now Sample.env1)))))
    by (vm_compute; reflexivity).
  cbv zeta. split; [exact E|]. intros [msg H]. rewrite E in H. discriminate.
Qed.

(** C1 (amended). For every [create] and [update] whose dto has a deadline,
    the call fails with a Validation error when the deadline is not a valid
    timestamp, when it is strictly before the clock, and when it is after
    the date five calendar years from now, as one second after that date
    is. On a host with a sound clock every deadline from the clock itself
    to that date is accepted, one second ahead of the clock among them: the
    deadline block lets it pass, and [create] and [update] then succeed
    with that deadline in the stored task, when the other fields are
    valid, the owner, or the task, exists and no similar title is
    stored. *)
Theorem deadline_validation_bounds env w :
  (forall d, deadlineRejected env d ->
     (forall dto, CreateTaskDTO.deadline dto = Some d ->
        exists msg,
          fst (run (TaskService.create dto) env w)
          = Throw (ValidationError msg))
     /\ (forall id dto, UpdateTaskDTO.deadline dto = Some d ->
           exists msg,
             fst (run (TaskService.update id dto) env w)
             = Throw (ValidationError msg)))
  /\ (hostTimeOk env ->
      exists f,
        fiveYearsFromNow env = JSDate.DateOf f
        /\ deadlineRejected env (JSDate.DateOf (f + 1000))
        /\ now env + 1000 <= f
        /\ forall t, now env <= t <= f ->
             run (TaskService.deadlineValidation (Some (JSDate.DateOf t)))
                 env w = (Ok tt, w)
             /\ (forall dto,
                   CreateTaskDTO.deadline dto = Some (JSDate.DateOf t) ->
                   titleAccepted (CreateTaskDTO.title dto) ->
                   descriptionAccepted (CreateTaskDTO.description dto) ->
                   priorityAccepted (CreateTaskDTO.priority dto) ->
                   ownerExists (CreateTaskDTO.ownerId dto) w ->
                   similarTasks (CreateTaskDTO.ownerId dto)
                     (JSString.trim (CreateTaskDTO.title dto)) w = [] ->
                   exists task,
                     fst (run (TaskService.create dto) env w) = Ok task
                     /\ Task.deadline task = Some (JSDate.DateOf t)
                     /\ tasks (snd (run (TaskService.create dto) env w))
                        = (tasks w ++ [task])%list)
             /\ (forall id dto old,
                   UpdateTaskDTO.deadline dto = Some (JSDate.DateOf t) ->
                   from_option titleAccepted True (UpdateTaskDTO.title dto) ->
                   descriptionAccepted (UpdateTaskDTO.description dto) ->
                   priorityAccepted (UpdateTaskDTO.priority dto) ->
                   statusAccepted (UpdateTaskDTO.status dto) ->
                   List.find (fun x => String.eqb (Task.id x) id) (tasks w)
                   = Some old ->
                   (forall title, UpdateTaskDTO.title dto = Some title ->
                      similarTasksExcept (Task.ownerId old)
                        (JSString.trim title) id w = []) ->
                   exists task,
                     fst (run (TaskService.update id dto) env w) = Ok task
                     /\ Task.id task = id
                     /\ Task.deadline task = Some (JSDate.DateOf t)
                     /\ task ∈ tasks (snd (run (TaskService.update id dto)
                                             env w)))).
Proof.
  split.
  - intros d Hd. split.
    + intros dto Hdto. by eapply create_bad_deadline.
    + intros id dto Hdto. by eapply update_bad_deadline.
  - intros Hok.
    destruct (deadline_window env Hok) as (l5 & f & Hf & _ & _ & Hr & Hacc).
    exists f. split; [done|]. split; [|split].
    + right. right. exists (f + 1000), f. repeat split; [done|lia].
    + unfold JSDate.msPerDay in Hr. lia.
    + intros t Ht%Hacc. split; [|split].
      * unfold run. by rewrite deadlineValidation_run, Ht.
      * intros dto Hdl Htitle Hdesc Hprio Hown Hsim.
        destruct (create_accepted dto env w) as (Hres & Hts & _).
        { repeat split; try done; try apply Htitle. by rewrite Hdl. }
        apply findById_is_Some in Hown as [u Hu].
        rewrite Hu, Hsim in Hres, Hts.
        exists (newTask env dto). by rewrite Hres, Hts.
      * intros id dto old Hdl Htitle Hdesc Hprio Hstat Hfind Hsim.
        destruct (update_accepted id dto env w old) as (i & Hi & Hres & Hts);
          try done.
        { by rewrite Hdl. }
        exists (spread old (updateData dto)). split; [done|].
        apply find_some in Hfind as [_ Hid%String.eqb_eq].
        split; [done|]. split; [cbn; by rewrite Hdl|].
        rewrite Hts. eapply list_elem_of_lookup_2.
        apply list_lookup_insert_eq. by eapply lookup_lt_Some.
Qed.

Lemma deadline_validation_bounds_witness :
  (exists msg,
     fst (run (TaskService.create (Sample.due JSDate.InvalidDate)) Sample.env1
            Sample.world) = Throw (ValidationError msg))
  /\ (exists msg,
        fst (run (TaskService.create
                    (Sample.due (JSDate.DateOf (now Sample.env1 - 1))))
               Sample.env1 Sample.world) = Throw (ValidationError msg))
  /\ (exists msg,
        fst (run (TaskService.create
                    (Sample.due (JSDate.DateOf (1951428896000 + 1000))))
               Sample.env1 Sample.world) = Throw (ValidationError msg))
  /\ (exists msg,
        fst (run (TaskService.update "id-1"
                    (Sample.reschedule (JSDate.DateOf (now Sample.env2 - 1))))
               Sample.env2 Sample.afterReport) = Throw (ValidationError msg))
  /\ (exists task,
        fst (run (TaskService.create
                    (Sample.due (JSDate.DateOf (now Sample.env1))))
               Sample.env1 Sample.world) = Ok task
        /\ Task.deadline task = Some (JSDate.DateOf (now Sample.env1))
        /\ tasks (snd (run (TaskService.create
                              (Sample.due (JSDate.DateOf (now Sample.env1))))
                         Sample.env1 Sample.world))
           = (tasks Sample.world ++ [task])%list)
  /\ (exists task,
        fst (run (TaskService.create
                    (Sample.due (JSDate.DateOf (now Sample.env1 + 1000))))
               Sample.env1 Sample.world) = Ok task
        /\ Task.deadline task = Some (JSDate.DateOf (now Sample.env1 + 1000))
        /\ tasks (snd (run (TaskService.create
                              (Sample.due
                                 (JSDate.DateOf (now Sample.env1 + 1000))))
                         Sample.env1 Sample.world))
           = (tasks Sample.world ++ [task])%list)
  /\ (exists task,
        fst (run (TaskService.update "id-1"
                    (Sample.reschedule
                       (JSDate.DateOf (now Sample.env2 + 1000))))
               Sample.env2 Sample.afterReport) = Ok task
        /\ Task.id task = "id-1"
        /\ Task.deadline task = Some (JSDate.DateOf (now Sample.env2 + 1000))
        /\ task ∈ tasks (snd (run (TaskService.update "id-1"
                                     (Sample.reschedule
                                        (JSDate.DateOf
                                           (now Sample.env2 + 1000))))
                                Sample.env2 Sample.afterReport))).
Proof.
  destruct (deadline_validation_bounds Sample.env1 Sample.world)
    as [Hrej Hacc].
  destruct (deadline_validation_bounds Sample.env2 Sample.afterReport)
    as [Hrej2 Hacc2].
  assert (Hhost1 : hostTimeOk Sample.env1)
    by (split; [|intros t isUTC]; vm_compute; discriminate).
  assert (Hhost2 : hostTimeOk Sample.env2)
    by (split; [|intros t isUTC]; vm_compute; discriminate).
  destruct (Hacc Hhost1) as (f & Hf & _ & _ & Hin).
  destruct (Hacc2 Hhost2) as (f2 & Hf2 & _ & _ & Hin2).
  vm_compute in Hf. injection Hf as <-.
  vm_compute in Hf2. injection Hf2 as <-.
  split; [|split; [|split; [|split; [|split; [|split]]]]].
  - destruct (Hrej JSDate.InvalidDate) as [Hc _]; [left; reflexivity|].
    exact (Hc (Sample.due JSDate.InvalidDate) eq_refl).
  - destruct (Hrej (JSDate.DateOf (now Sample.env1 - 1))) as [Hc _].
    + right. left. exists (now Sample.env1 - 1).
      split; [reflexivity|vm_compute; reflexivity].
    + exact (Hc (Sample.due (JSDate.DateOf (now Sample.env1 - 1))) eq_refl).
  - destruct (Hrej (JSDate.DateOf (1951428896000 + 1000))) as [Hc _].
    + right. right. exists (1951428896000 + 1000), 1951428896000.
      split; [reflexivity|]. split; vm_compute; reflexivity.
    + exact (Hc (Sample.due (JSDate.DateOf (1951428896000 + 1000))) eq_refl).
  - destruct (Hrej2 (JSDate.DateOf (now Sample.env2 - 1))) as [_ Hc].
    + right. left. exists (now Sample.env2 - 1).
      split; [reflexivity|vm_compute; reflexivity].
    + exact (Hc "id-1"
               (Sample.reschedule (JSDate.DateOf (now Sample.env2 - 1)))
               eq_refl).
  - destruct (Hin (now Sample.env1)) as (_ & Hc & _).
    + split; vm_compute; discriminate.
    + apply (Hc (Sample.due (JSDate.DateOf (now Sample.env1)))).
      * reflexivity.
      * split; vm_compute; lia.
      * exact I.
      * exact I.
      * exists Sample.user. split; [apply list_elem_of_here|reflexivity].
      * reflexivity.
  - destruct (Hin (now Sample.env1 + 1000)) as (_ & Hc & _).
    + split; vm_compute; discriminate.
    + apply (Hc (Sample.due (JSDate.DateOf (now Sample.env1 + 1000)))).
      * reflexivity.
      * split; vm_compute; lia.
      * exact I.
      * exact I.
      * exists Sample.user. split; [apply list_elem_of_here|reflexivity].
      * reflexivity.
  - destruct (Hin2 (now Sample.env2 + 1000)) as (_ & _ & Hc).
    + split; vm_compute; discriminate.
    + apply (Hc "id-1"
               (Sample.reschedule (JSDate.DateOf (now Sample.env2 + 1000)))
               (newTask Sample.env1 (Sample.titled "report"))).
      * reflexivity.
      * exact I.
      * exact I.
      * exact I.
      * exact I.
      * vm_compute. reflexivity.
      * intros title H. discriminate H.
Defined.

(* ===================================================================== *)
(** * Similar titles *)
(* ===================================================================== *)

Lemma similarTasks_other_owner ownerId pattern w :
  (forall t, t ∈ tasks w -> Task.ownerId t <> ownerId) ->
  similarTasks ownerId pattern w = [].
Proof.
  unfold similarTasks. induction (tasks w) as [|t ts IH]; intros H; [done|].
  cbn [List.filter]. unfold TaskRepository.matchesPattern at 1.
  assert (Task.ownerId t <> ownerId) as Hne%String.eqb_neq
    by (apply H; apply list_elem_of_here).
  rewrite Hne. cbn [andb]. apply IH. intros t' Hin. apply H.
  by apply list_elem_of_further.
Qed.

(** C2, as the specification states it, fails: "write report" does not
    contain "report writing", so the second [create] succeeds. *)
Lemma report_writing_accepted :
  let w1 := snd (run (TaskService.create (Sample.titled "Write report"))
                   Sample.env1 Sample.world) in
  fst (run (TaskService.create (Sample.titled "Write report")) Sample.env1
         Sample.world)
  = Ok (newTask Sample.env1 (Sample.titled "Write report"))
  /\ fst (run (TaskService.create (Sample.titled "report writing"))
            Sample.env2 w1)
     = Ok (newTask Sample.env2 (Sample.titled "report writing")).
Proof. split; vm_compute; reflexivity. Qed.

(** C2 (amended). From a Task Store with no task of owner U, [create] of
    "Write report" for U succeeds; a following [create] of "report writing"
    for U succeeds as well, since the duplicate check looks for the new
    title inside the stored ones; a following [create] for U whose trimmed
    title occurs in "Write report", case aside, as "REPORT" does, fails with
    a Validation error. *)
Theorem create_similar_title U env1 env2 w :
  ownerExists U w ->
  (forall t, t ∈ tasks w -> Task.ownerId t <> U) ->
  let titled title := CreateTaskDTO.mk title None None None U in
  let w1 := snd (run (TaskService.create (titled "Write report")) env1 w) in
  fst (run (TaskService.create (titled "Write report")) env1 w)
  = Ok (newTask env1 (titled "Write report"))
  /\ fst (run (TaskService.create (titled "report writing")) env2 w1)
     = Ok (newTask env2 (titled "report writing"))
  /\ (forall title,
        titleAccepted title ->
        JSString.includes (JSString.toLowerCase "Write report")
          (JSString.toLowerCase (JSString.trim title)) = true ->
        fst (run (TaskService.create (titled title)) env2 w1)
        = Throw (ValidationError
                   "A task with similar title already exists for this user"))
  /\ fst (run (TaskService.create (titled "REPORT")) env2 w1)
     = Throw (ValidationError
                "A task with similar title already exists for this user").
Proof.
  intros Ho Hnone titled w1.
  assert (Hfields : forall env title,
            titleAccepted title -> fieldsAccepted env (titled title)).
  { intros env title Ht. repeat split; try done; apply Ht. }
  assert (T1 : titleAccepted "Write report") by (split; vm_compute; lia).
  assert (T2 : titleAccepted "report writing") by (split; vm_compute; lia).
  assert (T3 : titleAccepted "REPORT") by (split; vm_compute; lia).
  apply findById_is_Some in Ho as [u Hu].
  destruct (create_accepted (titled "Write report") env1 w (Hfields _ _ T1))
    as (Hr1 & Ht1 & Hu1 & _).
  cbn [CreateTaskDTO.ownerId CreateTaskDTO.title titled] in Hr1, Ht1.
  rewrite Hu, similarTasks_other_owner in Hr1, Ht1 by done.
  cbn [isUndefined length Nat.ltb Nat.leb orb] in Hr1, Ht1.
  fold w1 in Ht1, Hu1.
  assert (Hsim : forall pattern,
            similarTasks U pattern w1
            = if JSString.includes "write report" (JSString.toLowerCase pattern)
              then [newTask env1 (titled "Write report")] else []).
  { intros pattern. unfold similarTasks. rewrite Ht1, List.filter_app.
    fold (similarTasks U pattern w).
    rewrite similarTasks_other_owner by done.
    cbn [List.filter app]. unfold TaskRepository.matchesPattern.
    cbn [newTask Task.ownerId Task.title CreateTaskDTO.ownerId
         CreateTaskDTO.title titled].
    rewrite String.eqb_refl, andb_true_r. cbn [andb].
    change (JSString.toLowerCase (JSString.trim "Write report"))
      with "write report".
    by destruct (JSString.includes _ _). }
  assert (Hrun : forall title, titleAccepted title ->
            fst (run (TaskService.create (titled title)) env2 w1)
            = if JSString.includes "write report"
                   (JSString.toLowerCase (JSString.trim title))
              then Throw (ValidationError
                     "A task with similar title already exists for this user")
              else Ok (newTask env2 (titled title))).
  { intros title Ht.
    destruct (create_accepted (titled title) env2 w1 (Hfields _ _ Ht))
      as (Hr & _).
    cbn [CreateTaskDTO.ownerId CreateTaskDTO.title titled] in Hr.
    rewrite Hu1, Hu, Hsim in Hr. cbn [isUndefined] in Hr. rewrite Hr.
    by destruct (JSString.includes _ _). }
  split; [exact Hr1|]. split; [|split].
  - by rewrite (Hrun _ T2).
  - intros title Ht Hin. rewrite (Hrun _ Ht).
    change (JSString.toLowerCase "Write report") with "write report" in Hin.
    by rewrite Hin.
  - by rewrite (Hrun _ T3).
Qed.

Lemma create_similar_title_witness :
  fst (run (TaskService.create (Sample.titled "REPORT")) Sample.env2
         (snd (run (TaskService.create (Sample.titled "Write report"))
                 Sample.env1 Sample.world)))
  = Throw (ValidationError
             "A task with similar title already exists for this user").
Proof.
  apply (create_similar_title "U" Sample.env1 Sample.env2 Sample.world).
  - exists Sample.user. split; [apply list_elem_of_here|reflexivity].
  - intros t Hin. vm_compute in Hin. by apply elem_of_nil in Hin.
Defined.

(* ===================================================================== *)
(** * The cache *)
(* ===================================================================== *)

Lemma cache_set_run key value ttl env w :
  fst (run (CacheService.set key value ttl) env w) = Ok tt
  /\ cache (snd (run (CacheService.set key value ttl) env w))
     = <[key := mkEntry value (now env + default CacheService.defaultTTL ttl)]>
         (cache w).
Proof. destruct w. unfold_cache. unfold_monad. done. Qed.

Lemma cache_get_hit key e env w :
  cache w !! key = Some e -> now env <= expiry e ->
  fst (run (CacheService.get key) env w) = Ok (Some (data e))
  /\ cache (snd (run (CacheService.get key) env w)) = cache w.
Proof.
  destruct w as [ts us c a ops con]. cbn [cache]. intros Hk Hle.
  unfold_cache. unfold_monad. rewrite Hk. unfold_monad.
  rewrite (proj2 (Z.ltb_ge _ _) Hle). unfold_monad. done.
Qed.

Lemma cache_get_expired key e env w :
  cache w !! key = Some e -> expiry e < now env ->
  fst (run (CacheService.get key) env w) = Ok None
  /\ cache (snd (run (CacheService.get key) env w)) = delete key (cache w).
Proof.
  destruct w as [ts us c a ops con]. cbn [cache]. intros Hk Hlt.
  unfold_cache. unfold_monad. rewrite Hk. unfold_monad.
  rewrite (proj2 (Z.ltb_lt _ _) Hlt). unfold_monad. done.
Qed.

Lemma cache_get_absent key env w :
  cache w !! key = None ->
  fst (run (CacheService.get key) env w) = Ok None
  /\ cache (snd (run (CacheService.get key) env w)) = cache w.
Proof.
  destruct w as [ts us c a ops con]. cbn [cache]. intros Hk.
  unfold_cache. unfold_monad. rewrite Hk. unfold_monad. done.
Qed.

Lemma cache_invalidate_run key env w :
  fst (run (CacheService.invalidate key) env w) = Ok tt
  /\ cache (snd (run (CacheService.invalidate key) env w))
     = delete key (cache w).
Proof. destruct w. unfold_cache. unfold_monad. done. Qed.

(** C8. [set(key, value, ttl)] stores the value with expiry [now + ttl]
    (the default [ttl] is 60000); [get(key)] returns the stored value when
    the entry is present and the clock has not passed its expiry, and
    otherwise returns null, deleting the entry when it was present but
    expired; [invalidate(key)] removes the entry, changing nothing when it
    is absent, so a [get(key)] right after it returns null. *)
Theorem cache_contract key value ttl env w :
  (fst (run (CacheService.set key value (Some ttl)) env w) = Ok tt
   /\ cache (snd (run (CacheService.set key value (Some ttl)) env w))
      = <[key := mkEntry value (now env + ttl)]> (cache w)
   /\ cache (snd (run (CacheService.set key value None) env w))
      = <[key := mkEntry value (now env + 60000)]> (cache w))
  /\ (forall e, cache w !! key = Some e -> now env <= expiry e ->
        fst (run (CacheService.get key) env w) = Ok (Some (data e))
        /\ cache (snd (run (CacheService.get key) env w)) = cache w)
  /\ (forall e, cache w !! key = Some e -> expiry e < now env ->
        fst (run (CacheService.get key) env w) = Ok None
        /\ cache (snd (run (CacheService.get key) env w))
           = delete key (cache w))
  /\ (cache w !! key = None ->
        fst (run (CacheService.get key) env w) = Ok None
        /\ cache (snd (run (CacheService.get key) env w)) = cache w)
  /\ (fst (run (CacheService.invalidate key) env w) = Ok tt
      /\ cache (snd (run (CacheService.invalidate key) env w))
         = delete key (cache w)
      /\ (cache w !! key = None ->
          cache (snd (run (CacheService.invalidate key) env w)) = cache w))
  /\ (forall env',
        fst (run (CacheService.get key) env'
               (snd (run (CacheService.invalidate key) env w))) = Ok None).
Proof.
  pose proof (cache_set_run key value (Some ttl) env w) as [Hs1 Hs2].
  pose proof (cache_set_run key value None env w) as [_ Hs3].
  pose proof (cache_invalidate_run key env w) as [Hi1 Hi2].
  split; [|split; [|split; [|split; [|split]]]].
  - done.
  - intros e. apply cache_get_hit.
  - intros e. apply cache_get_expired.
  - apply cache_get_absent.
  - split; [done|]. split; [done|].
    intros H. rewrite Hi2. by apply delete_id.
  - intros env'. apply cache_get_absent. rewrite Hi2. apply lookup_delete_eq.
Qed.

Lemma cache_contract_witness :
  let value := AnyTask (Sample.task "id-1" "Write report" "U" 0) in
  let w1 := snd (run (CacheService.set "task:id-1" value (Some 500))
                   Sample.env1 Sample.world) in
  fst (run (CacheService.get "task:id-1") Sample.env2 w1) = Ok None
  /\ fst (run (CacheService.get "task:id-1") Sample.env1 w1) = Ok (Some value)
  /\ fst (run (CacheService.get "task:id-1") Sample.env1 Sample.world)
     = Ok None.
Proof.
  intros value w1.
  destruct (cache_contract "task:id-1" value 500 Sample.env2 w1)
    as (_ & _ & Hexpired & _).
  destruct (cache_contract "task:id-1" value 500 Sample.env1 w1)
    as (_ & Hhit & _).
  destruct (cache_contract "task:id-1" value 500 Sample.env1 Sample.world)
    as (_ & _ & _ & Habsent & _).
  split; [|split].
  - apply (Hexpired (mkEntry value (now Sample.env1 + 500)));
      [reflexivity|vm_compute; reflexivity].
  - apply (Hhit (mkEntry value (now Sample.env1 + 500)));
      [reflexivity|vm_compute; discriminate].
  - apply Habsent. reflexivity.
Defined.

(* ===================================================================== *)
(** * Reads through the cache *)
(* ===================================================================== *)

Lemma isStoreRead_info msg :
  isStoreRead (ConsoleLog (Logger.formatMessage "INFO" msg))
  = String.eqb msg "Finding task by id".
Proof. reflexivity. Qed.

Lemma isStoreRead_debug msg :
  isStoreRead (ConsoleLog (Logger.formatMessage "DEBUG" msg)) = false.
Proof. reflexivity. Qed.

(** Count the store reads on a console that grew by known lines. *)
Ltac count_reads :=
  unfold storeReads; cbn [console];
  rewrite ?List.filter_app, ?length_app; cbn [List.filter];
  rewrite ?isStoreRead_info, ?isStoreRead_debug;
  cbn [String.eqb Ascii.eqb Bool.eqb length isStoreRead].

(** [getById] when the cache has nothing to offer: the task comes from the
    store, with one store read, and is cached. *)
Lemma getById_miss id env w b :
  fst (run (CacheService.get ("task:" ++ id)) env w) = Ok None ->
  List.find (fun t => String.eqb (Task.id t) id) (tasks w) = Some b ->
  let r := run (TaskService.getById id) env w in
  fst r = Ok (AnyTask b)
  /\ storeReads (snd r) = S (storeReads w)
  /\ cache (snd r) !! ("task:" ++ id)
     = Some (mkEntry (AnyTask b) (now env + CacheService.defaultTTL))
  /\ tasks (snd r) = tasks w.
Proof.
  destruct w as [ts us c a ops con]. cbn [tasks]. unfold_getById. unfold_monad.
  intros Hget Hfind.
  destruct (c !! ("task:" ++ id)) as [e|] eqn:Hk; unfold_monad.
  - destruct (expiry e <? now env) eqn:Hexp; unfold_monad; [|done].
    rewrite Hfind; unfold_monad. cbn [default].
    repeat split; [count_reads; lia|apply lookup_insert_eq].
  - rewrite Hfind; unfold_monad. cbn [default].
    repeat split; [count_reads; lia|apply lookup_insert_eq].
Qed.

(** C7. After a successful [getById(id)] that read the task from the Task
    Store (and so cached it under [task:<id>]), a second [getById(id)] no
    later than the expiry of the entry returns the same value without a
    further store read, and leaves the store and the cache as they are. *)
Theorem getById_twice id env1 env2 w v w1 :
  run (TaskService.getById id) env1 w = (Ok v, w1) ->
  storeReads w1 = S (storeReads w) ->
  now env2 <= now env1 + CacheService.defaultTTL ->
  let r2 := run (TaskService.getById id) env2 w1 in
  cache w1 !! ("task:" ++ id)
  = Some (mkEntry v (now env1 + CacheService.defaultTTL))
  /\ fst r2 = Ok v
  /\ storeReads (snd r2) = storeReads w1
  /\ tasks (snd r2) = tasks w1
  /\ cache (snd r2) = cache w1.
Proof.
  destruct w as [ts us c a ops con]. unfold_getById. unfold_monad.
  intros Hrun Hreads Httl. revert Hrun.
  assert (Hexp : (now env1 + CacheService.defaultTTL <? now env2) = false)
    by (by apply Z.ltb_ge).
  destruct (c !! ("task:" ++ id)) as [e|] eqn:Hk; unfold_monad.
  - destruct (expiry e <? now env1) eqn:He; unfold_monad.
    + destruct (List.find _ ts) as [b|] eqn:Hf; unfold_monad; [|done].
      intros [= <- <-]. unfold_monad. cbn [default].
      rewrite lookup_insert_eq. unfold_monad. rewrite Hexp. unfold_monad.
      repeat split. count_reads. lia.
    + intros [= <- <-]. revert Hreads. count_reads. lia.
  - destruct (List.find _ ts) as [b|] eqn:Hf; unfold_monad; [|done].
    intros [= <- <-]. unfold_monad. cbn [default].
    rewrite lookup_insert_eq. unfold_monad. rewrite Hexp. unfold_monad.
    repeat split. count_reads. lia.
Qed.

Lemma getById_twice_witness :
  let w1 := snd (run (TaskService.getById "id-1") Sample.env2
                   Sample.afterReport) in
  fst (run (TaskService.getById "id-1") Sample.env3 w1)
  = Ok (AnyTask (newTask Sample.env1 (Sample.titled "report")))
  /\ storeReads (snd (run (TaskService.getById "id-1") Sample.env3 w1))
     = storeReads w1.
Proof.
  intros w1.
  destruct (getById_twice "id-1" Sample.env2 Sample.env3 Sample.afterReport
              (AnyTask (newTask Sample.env1 (Sample.titled "report"))) w1)
    as (_ & Hv & Hr & _).
  - vm_compute. reflexivity.
  - vm_compute. reflexivity.
  - vm_compute. discriminate.
  - split; [exact Hv|exact Hr].
Defined.

(* ===================================================================== *)
(** * Bulk deletion *)
(* ===================================================================== *)

(** What [filter] removes is what the opposite [filter] keeps. *)
Lemma removed_count {A} (p : A -> bool) (l : list A) :
  (length l - length (List.filter (fun x => negb (p x)) l))%nat
  = length (List.filter p l).
Proof. pose proof (List.filter_length p l). lia. Qed.

Lemma deleteByOwner_missing ownerId env w :
  ~ ownerExists ownerId w ->
  let r := run (TaskService.deleteByOwner ownerId) env w in
  fst r = Throw (NotFoundError "Owner not found")
  /\ tasks (snd r) = tasks w /\ cache (snd r) = cache w.
Proof.
  intros Ho. destruct w as [ts us c a ops con].
  unfold ownerExists in Ho. rewrite <- findById_is_Some in Ho.
  cbn [users] in Ho. apply eq_None_not_Some in Ho.
  unfold_deleteByOwner. unfold_monad. rewrite Ho. unfold_monad. done.
Qed.

Lemma deleteByOwner_found ownerId env w :
  ownerExists ownerId w ->
  let r := run (TaskService.deleteByOwner ownerId) env w in
  fst r = Ok (length (List.filter
                        (fun t => String.eqb (Task.ownerId t) ownerId)
                        (tasks w)))
  /\ tasks (snd r)
     = List.filter (fun t => negb (String.eqb (Task.ownerId t) ownerId))
                   (tasks w)
  /\ cache (snd r) = ∅.
Proof.
  intros Ho. destruct w as [ts us c a ops con].
  unfold ownerExists in Ho. rewrite <- findById_is_Some in Ho.
  cbn [users] in Ho. destruct Ho as [u Hu].
  unfold_deleteByOwner. unfold_monad. rewrite Hu. unfold_monad.
  rewrite (removed_count (fun t => String.eqb (Task.ownerId t) ownerId)).
  done.
Qed.

(** C6. [deleteByOwner(ownerId)] fails with NotFound when the owner does not
    exist. Otherwise it keeps exactly the tasks of the other owners, returns
    the number of tasks it removed, and leaves the cache empty: every entry
    is gone, also those of other owners' tasks, so the next [getById] of a
    task that is still stored reads the store and caches the task anew. *)
Theorem deleteByOwner_contract ownerId env w :
  let r := run (TaskService.deleteByOwner ownerId) env w in
  (~ ownerExists ownerId w ->
   fst r = Throw (NotFoundError "Owner not found"))
  /\ (ownerExists ownerId w ->
      fst r = Ok (length (List.filter
                            (fun t => String.eqb (Task.ownerId t) ownerId)
                            (tasks w)))
      /\ tasks (snd r)
         = List.filter (fun t => negb (String.eqb (Task.ownerId t) ownerId))
                       (tasks w)
      /\ (forall key, cache (snd r) !! key = None)
      /\ (forall id b env',
            List.find (fun t => String.eqb (Task.id t) id) (tasks (snd r))
            = Some b ->
            let r' := run (TaskService.getById id) env' (snd r) in
            fst r' = Ok (AnyTask b)
            /\ storeReads (snd r') = S (storeReads (snd r))
            /\ cache (snd r') !! ("task:" ++ id)
               = Some (mkEntry (AnyTask b)
                         (now env' + CacheService.defaultTTL)))).
Proof.
  intros r. subst r. split.
  - intros Ho. by apply deleteByOwner_missing.
  - intros Ho. destruct (deleteByOwner_found ownerId env w Ho) as (Hr & Ht & Hc).
    split; [done|]. split; [done|]. split.
    + intros key. rewrite Hc. apply lookup_empty.
    + intros id b env' Hfind.
      destruct (getById_miss id env'
                  (snd (run (TaskService.deleteByOwner ownerId) env w)) b)
        as (H1 & H2 & H3 & _); [|done|done].
      apply cache_get_absent. rewrite Hc. apply lookup_empty.
Qed.

Lemma deleteByOwner_contract_witness :
  let cached := snd (run (TaskService.getById "id-1") Sample.env2
                       Sample.afterReport) in
  let r := run (TaskService.deleteByOwner "V") Sample.env2 cached in
  cache cached !! "task:id-1"
  = Some (mkEntry (AnyTask (newTask Sample.env1 (Sample.titled "report")))
            (now Sample.env2 + 60000))
  /\ fst r = Ok 0%nat
  /\ cache (snd r) !! "task:id-1" = None
  /\ storeReads (snd (run (TaskService.getById "id-1") Sample.env3 (snd r)))
     = S (storeReads (snd r)).
Proof.
  intros cached r.
  destruct (deleteByOwner_contract "V" Sample.env2 cached) as [_ Hfound].
  destruct Hfound as (Hr & _ & Hc & Hnext).
  - exists Sample.other.
    split; [apply list_elem_of_further, list_elem_of_here|reflexivity].
  - split; [vm_compute; reflexivity|]. split; [exact Hr|].
    split; [apply Hc|].
    apply (Hnext "id-1" (newTask Sample.env1 (Sample.titled "report"))
             Sample.env3).
    vm_compute. reflexivity.
Defined.

Lemma invalidateEach_run ids env w :
  exists con',
    TaskService.invalidateEach ids env w
    = (Ok tt, mkWorld (tasks w) (users w) (invalidated ids (cache w))
                      (isActive w) (operations w) con').
Proof.
  revert w. induction ids as [|id ids IH]; intros [ts us c a ops con].
  - eexists. cbn. reflexivity.
  - cbn [TaskService.invalidateEach]. unfold_cache. unfold_monad.
    edestruct IH as [con' ->]. eexists. cbn. reflexivity.
Qed.

Lemma deleteMultiple_empty env w :
  let r := run (TaskService.deleteMultiple []) env w in
  fst r = Throw (ValidationError "At least one task ID required")
  /\ tasks (snd r) = tasks w.
Proof. destruct w. unfold_deleteMultiple. unfold_monad. cbn. done. Qed.

Lemma deleteMultiple_nonempty ids env w :
  ids <> [] ->
  let r := run (TaskService.deleteMultiple ids) env w in
  fst r = Ok (length (List.filter
                        (fun t => TaskRepository.arrayIncludes ids (Task.id t))
                        (tasks w)))
  /\ tasks (snd r)
     = List.filter
         (fun t => negb (TaskRepository.arrayIncludes ids (Task.id t)))
         (tasks w)
  /\ cache (snd r) = invalidated ids (cache w).
Proof.
  intros Hne. destruct w as [ts us c a ops con].
  unfold_deleteMultiple. unfold_monad.
  destruct ids as [|id ids]; [done|]. cbn [length Nat.eqb]. unfold_monad.
  match goal with
  | |- context [TaskService.invalidateEach ?i ?e ?w] =>
      destruct (invalidateEach_run i e w) as [con' ->]
  end.
  unfold_monad.
  rewrite (removed_count
             (fun t => TaskRepository.arrayIncludes (id :: ids) (Task.id t))).
  done.
Qed.

Lemma arrayIncludes_spec ids x :
  TaskRepository.arrayIncludes ids x = true <-> x ∈ ids.
Proof.
  unfold TaskRepository.arrayIncludes. rewrite existsb_exists. split.
  - intros (y & Hin & ->%String.eqb_eq). by apply list_elem_of_In.
  - intros Hin. exists x. split; [by apply list_elem_of_In|].
    apply String.eqb_refl.
Qed.

(** A store with distinct identifiers holds at most one task per
    identifier. *)
Lemma count_one_of_two (ts : list Task.t) id1 id2 :
  NoDup (Task.id <$> ts) ->
  id1 ∈ (Task.id <$> ts) -> id2 ∉ (Task.id <$> ts) ->
  length (List.filter
            (fun t => TaskRepository.arrayIncludes [id1; id2] (Task.id t)) ts)
  = 1%nat.
Proof.
  assert (Hzero : forall l : list Task.t,
            id1 ∉ (Task.id <$> l) -> id2 ∉ (Task.id <$> l) ->
            List.filter
              (fun t => TaskRepository.arrayIncludes [id1; id2] (Task.id t)) l
            = []).
  { induction l as [|t l IH]; [done|]. cbn [fmap list_fmap List.filter].
    intros H1 H2. rewrite not_elem_of_cons in H1, H2.
    destruct (TaskRepository.arrayIncludes [id1; id2] (Task.id t)) eqn:E.
    - apply arrayIncludes_spec in E.
      apply elem_of_cons in E as [E | [E | []%elem_of_nil]%elem_of_cons];
        [by destruct H1 as [H1 _]|by destruct H2 as [H2 _]].
    - apply IH; tauto. }
  induction ts as [|t ts IH]; cbn [fmap list_fmap List.filter].
  - intros _ []%elem_of_nil.
  - intros [Hnin Hnd]%NoDup_cons Hin Hnot.
    rewrite not_elem_of_cons in Hnot. destruct Hnot as [Hne2 Hnot].
    apply elem_of_cons in Hin as [-> | Hin].
    + assert (TaskRepository.arrayIncludes [Task.id t; id2] (Task.id t) = true)
        as -> by (apply arrayIncludes_spec, list_elem_of_here).
      cbn [length]. by rewrite Hzero.
    + assert (TaskRepository.arrayIncludes [id1; id2] (Task.id t) = false)
        as ->.
      { apply not_true_is_false. rewrite arrayIncludes_spec.
        intros [E | [E | []%elem_of_nil]%elem_of_cons]%elem_of_cons.
        - apply Hnin. by rewrite E.
        - by apply Hne2. }
      by apply IH.
Qed.

(** C9. [deleteMultiple(ids)] fails with a Validation error when [ids] is
    empty. For a non-empty [ids] it keeps exactly the tasks whose
    identifier is not in [ids] and returns the number of tasks it removed;
    with [ids = [id1; id2]], [id1] the identifier of a stored task and [id2]
    of none, in a store of distinct identifiers, that number is 1. *)
Theorem deleteMultiple_contract env w :
  (fst (run (TaskService.deleteMultiple []) env w)
   = Throw (ValidationError "At least one task ID required")
   /\ tasks (snd (run (TaskService.deleteMultiple []) env w)) = tasks w)
  /\ (forall ids, ids <> [] ->
        fst (run (TaskService.deleteMultiple ids) env w)
        = Ok (length (List.filter
                        (fun t => TaskRepository.arrayIncludes ids (Task.id t))
                        (tasks w)))
        /\ tasks (snd (run (TaskService.deleteMultiple ids) env w))
           = List.filter
               (fun t => negb (TaskRepository.arrayIncludes ids (Task.id t)))
               (tasks w))
  /\ (forall id1 id2,
        NoDup (storedIds w) -> id1 ∈ storedIds w -> id2 ∉ storedIds w ->
        fst (run (TaskService.deleteMultiple [id1; id2]) env w) = Ok 1%nat).
Proof.
  split; [apply deleteMultiple_empty|]. split.
  - intros ids Hne.
    destruct (deleteMultiple_nonempty ids env w Hne) as (Hr & Ht & _). done.
  - intros id1 id2 Hnd H1 H2.
    destruct (deleteMultiple_nonempty [id1; id2] env w) as (Hr & _); [done|].
    rewrite Hr. by rewrite count_one_of_two.
Qed.

Lemma deleteMultiple_contract_witness :
  fst (run (TaskService.deleteMultiple ["id-1"; "id-9"]) Sample.env3
         Sample.afterBoth) = Ok 1%nat
  /\ tasks (snd (run (TaskService.deleteMultiple ["id-1"; "id-9"]) Sample.env3
                   Sample.afterBoth))
     = [newTask Sample.env2 (Sample.titled "Write report")].
Proof.
  destruct (deleteMultiple_contract Sample.env3 Sample.afterBoth)
    as (_ & Hsome & Hone).
  split.
  - apply Hone.
    + vm_compute. apply NoDup_cons. split.
      * intros [H | H]%elem_of_cons; [discriminate|by apply elem_of_nil in H].
      * apply NoDup_singleton.
    + vm_compute. apply list_elem_of_here.
    + vm_compute.
      intros [H | [H | H]%elem_of_cons]%elem_of_cons;
        [discriminate|discriminate|by apply elem_of_nil in H].
  - destruct (Hsome ["id-1"; "id-9"]) as [_ Ht]; [discriminate|].
    rewrite Ht. vm_compute. reflexivity.
Defined.

(* ===================================================================== *)
(** * What a call does to the store *)
(* ===================================================================== *)

Lemma create_tasks dto env w :
  let ts' := tasks (step (Create dto) env w) in
  ts' = tasks w
  \/ (similarTasks (CreateTaskDTO.ownerId dto)
        (JSString.trim (CreateTaskDTO.title dto)) w = []
      /\ ts' = (tasks w ++ [newTask env dto])%list).
Proof.
  destruct w as [ts us c a ops con]. unfold step, similarTasks, newTask.
  cbn [tasks]. unfold_create. unfold_monad.
  repeat (first [rewrite deadlineValidation_run | split_head]; unfold_monad);
    try (by left).
  right. split; [|done].
  destruct (List.filter _ ts); [done|]. discriminate.
Qed.

Lemma findIndex_Some {A} (p : A -> bool) (l : list A) i :
  TaskRepository.findIndex p l = Some i ->
  exists x, l !! i = Some x /\ List.find p l = Some x /\ p x = true.
Proof.
  revert i. induction l as [|y l IH]; intros i; [done|]. cbn.
  destruct (p y) eqn:E.
  - intros [= <-]. eauto.
  - destruct (TaskRepository.findIndex p l) as [j|]; [|done].
    intros [= <-]. destruct (IH j eq_refl) as (x & ? & ? & ?). eauto.
Qed.

Lemma update_tasks id dto env w :
  let ts' := tasks (step (Update id dto) env w) in
  ts' = tasks w
  \/ exists index old,
       tasks w !! index = Some old
       /\ Task.id old = id
       /\ (forall title, UpdateTaskDTO.title dto = Some title ->
             List.filter
               (TaskRepository.matchesPattern (Task.ownerId old)
                  (JSString.trim title) (Some id)) (tasks w) = [])
       /\ ts' = <[index := spread old (updateData dto)]> (tasks w).
Proof.
  destruct w as [ts us c a ops con]. unfold step, updateData.
  cbn [tasks]. unfold_update. unfold_monad.
  destruct (UpdateTaskDTO.title dto) as [title|] eqn:Ht; unfold_monad;
    repeat (first [rewrite deadlineValidation_run | split_head]; unfold_monad);
    try (by left);
    right;
    match goal with
    | Hi : TaskRepository.findIndex _ ts = Some ?index,
      Hf : List.find _ ts = Some ?existing,
      Ho : ts !! ?index = Some ?old |- _ =>
        destruct (findIndex_Some _ _ _ Hi) as (old' & Hold & Hf' & Hid);
        assert (old' = old) as -> by congruence;
        assert (existing = old) as -> by congruence;
        apply String.eqb_eq in Hid;
        exists index, old
    end;
    (split; [done|]); (split; [done|]); (split; [|done]);
    try done;
    intros ? [= <-];
    match goal with
    | H : (0 <? length ?l)%nat = false |- _ => by destruct l
    end.
Qed.

Lemma delete_tasks id env w :
  tasks (step (Delete id) env w)
  = List.filter (fun t => negb (String.eqb (Task.id t) id)) (tasks w).
Proof.
  destruct w. unfold step, TaskService.delete, TaskRepository.delete.
  unfold_cache. unfold_monad. done.
Qed.

Lemma deleteByOwner_tasks ownerId env w :
  let ts' := tasks (step (DeleteByOwner ownerId) env w) in
  ts' = tasks w
  \/ ts' = List.filter (fun t => negb (String.eqb (Task.ownerId t) ownerId))
                       (tasks w).
Proof.
  destruct w as [ts us c a ops con]. unfold step. unfold_deleteByOwner.
  unfold_monad. split_head; [by left|by right].
Qed.

Lemma deleteMultiple_tasks ids env w :
  let ts' := tasks (step (DeleteMultiple ids) env w) in
  ts' = tasks w
  \/ ts' = List.filter
             (fun t => negb (TaskRepository.arrayIncludes ids (Task.id t)))
             (tasks w).
Proof.
  destruct ids as [|id ids].
  - left. apply deleteMultiple_empty.
  - right. by apply deleteMultiple_nonempty.
Qed.

Lemma getById_tasks id env w : tasks (step (GetById id) env w) = tasks w.
Proof.
  destruct w as [ts us c a ops con]. unfold step. unfold_getById. unfold_monad.
  repeat split_head; done.
Qed.

Lemma getByOwner_tasks ownerId env w :
  tasks (step (GetByOwner ownerId) env w) = tasks w.
Proof.
  destruct w as [ts us c a ops con].
  unfold step, TaskService.getByOwner, UserRepository.findById,
    TaskRepository.findByOwner.
  unfold_cache. unfold_monad. repeat split_head; done.
Qed.

Lemma register_tasks u env w : tasks (step (Register u) env w) = tasks w.
Proof. destruct w. unfold step, UserRepository.save. unfold_monad. done. Qed.

(* ===================================================================== *)
(** * The invariant of the store *)
(* ===================================================================== *)

Lemma filter_elem_of {A} (p : A -> bool) (l : list A) x :
  x ∈ List.filter p l <-> x ∈ l /\ p x = true.
Proof. rewrite !list_elem_of_In. apply filter_In. Qed.

Lemma filter_sublist {A} (p : A -> bool) (l : list A) :
  List.filter p l `sublist_of` l.
Proof.
  induction l as [|x l IH]; cbn; [constructor|].
  destruct (p x); by constructor.
Qed.

Lemma storeInvariant_filter p ts :
  storeInvariant ts -> storeInvariant (List.filter p ts).
Proof.
  intros (Hu & Ht & Hd). split; [|split].
  - unfold uniqueIds in *.
    apply (sublist_NoDup (Task.id <$> List.filter p ts) (Task.id <$> ts));
      [done|].
    apply fmap_sublist, filter_sublist.
  - intros t [Hin _]%filter_elem_of. by apply Ht.
  - intros a b [Ha _]%filter_elem_of [Hb _]%filter_elem_of. by apply Hd.
Qed.

(** A stored task of the owner whose title equals the pattern, case aside,
    is among the similar tasks. *)
Lemma matchesPattern_same_title ownerId pattern excludeId t :
  Task.ownerId t = ownerId ->
  JSString.toLowerCase (Task.title t) = JSString.toLowerCase pattern ->
  match excludeId with
  | Some e => Task.id t <> e
  | None => True
  end ->
  TaskRepository.matchesPattern ownerId pattern excludeId t = true.
Proof.
  intros Ho Ht He. unfold TaskRepository.matchesPattern.
  rewrite Ht, JSStringFacts.includes_refl.
  apply String.eqb_eq in Ho. rewrite Ho. cbn [andb].
  destruct excludeId as [e|]; [|done].
  apply String.eqb_neq in He. rewrite He. by rewrite orb_true_r.
Qed.

Lemma storeInvariant_create env dto w :
  storeInvariant (tasks w) -> freshUUID env w ->
  similarTasks (CreateTaskDTO.ownerId dto)
    (JSString.trim (CreateTaskDTO.title dto)) w = [] ->
  storeInvariant (tasks w ++ [newTask env dto]).
Proof.
  intros (Hu & Ht & Hd) Hfresh Hsim.
  assert (Hnone : forall t, t ∈ tasks w ->
            Task.ownerId t = CreateTaskDTO.ownerId dto ->
            JSString.toLowerCase (Task.title t)
            = JSString.toLowerCase (JSString.trim (CreateTaskDTO.title dto)) ->
            False).
  { intros t Hin Ho Hl.
    assert (t ∈ similarTasks (CreateTaskDTO.ownerId dto)
                  (JSString.trim (CreateTaskDTO.title dto)) w) as Hs.
    { apply filter_elem_of. split; [done|].
      by apply matchesPattern_same_title. }
    rewrite Hsim in Hs. by apply elem_of_nil in Hs. }
  split; [|split].
  - unfold uniqueIds in *. rewrite fmap_app. apply NoDup_app.
    split; [done|]. split; [|apply NoDup_singleton].
    intros x Hx [->|[]%elem_of_nil]%elem_of_cons. by apply Hfresh.
  - intros t [Hin| ->%list_elem_of_singleton]%elem_of_app; [by apply Ht|].
    cbn. apply JSStringFacts.trim_idem.
  - intros a b [Ha| ->%list_elem_of_singleton]%elem_of_app
               [Hb| ->%list_elem_of_singleton]%elem_of_app; cbn.
    + by apply Hd.
    + intros Ho Hl. by destruct (Hnone a).
    + intros Ho Hl. by destruct (Hnone b).
    + done.
Qed.

Lemma uniqueIds_lookup ts i j a b :
  uniqueIds ts -> ts !! i = Some a -> ts !! j = Some b ->
  Task.id a = Task.id b -> i = j.
Proof.
  intros Hu Ha Hb Hid.
  apply (NoDup_lookup (Task.id <$> ts) i j (Task.id a)); [done| |].
  - by rewrite list_lookup_fmap, Ha.
  - by rewrite list_lookup_fmap, Hb, Hid.
Qed.

Lemma storeInvariant_update dto ts index old :
  storeInvariant ts ->
  ts !! index = Some old ->
  (forall title, UpdateTaskDTO.title dto = Some title ->
     List.filter
       (TaskRepository.matchesPattern (Task.ownerId old)
          (JSString.trim title) (Some (Task.id old))) ts = []) ->
  storeInvariant (<[index := spread old (updateData dto)]> ts).
Proof.
  intros (Hu & Ht & Hd) Hold Hsim.
  set (new := spread old (updateData dto)).
  assert (Hin_old : old ∈ ts) by (apply list_elem_of_lookup; eauto).
  assert (Hcases : forall t, t ∈ <[index := new]> ts ->
            t = new \/ (t ∈ ts /\ Task.id t <> Task.id old)).
  { intros t [j Hj]%list_elem_of_lookup.
    apply list_lookup_insert_Some in Hj as [(-> & <- & _)|[Hne Hj]]; [by left|].
    right. split; [apply list_elem_of_lookup; eauto|].
    intros Hid. apply Hne. symmetry. by eapply uniqueIds_lookup. }
  assert (Hnew : forall b, b ∈ ts -> Task.id b <> Task.id old ->
            Task.ownerId new = Task.ownerId b ->
            JSString.toLowerCase (Task.title new)
            = JSString.toLowerCase (Task.title b) -> False).
  { intros b Hb Hne Ho Hl. cbn in Ho, Hl.
    destruct (UpdateTaskDTO.title dto) as [title|] eqn:Htitle; cbn in Hl.
    - assert (b ∈ List.filter
                (TaskRepository.matchesPattern (Task.ownerId old)
                   (JSString.trim title) (Some (Task.id old))) ts) as Hs.
      { apply filter_elem_of. split; [done|].
        by apply matchesPattern_same_title. }
      rewrite (Hsim title eq_refl) in Hs. by apply elem_of_nil in Hs.
    - apply Hne. symmetry. by apply Hd. }
  split; [|split].
  - unfold uniqueIds in *. rewrite list_fmap_insert.
    rewrite list_insert_id; [done|]. by rewrite list_lookup_fmap, Hold.
  - intros t [->|[Hin _]]%Hcases; [|by apply Ht]. cbn.
    destruct (UpdateTaskDTO.title dto) as [title|]; cbn.
    + apply JSStringFacts.trim_idem.
    + by apply Ht.
  - intros a b [->|[Ha Hna]]%Hcases [->|[Hb Hnb]]%Hcases Ho Hl.
    + done.
    + by destruct (Hnew b).
    + by destruct (Hnew a).
    + by apply Hd.
Qed.

Lemma storeInvariant_step c env w :
  storeInvariant (tasks w) -> freshUUID env w ->
  storeInvariant (tasks (step c env w)).
Proof.
  intros Hinv Hfresh. destruct c as [dto|id dto|id|o|ids|id|o|u].
  - destruct (create_tasks dto env w) as [->|[Hsim ->]]; [done|].
    by apply storeInvariant_create.
  - destruct (update_tasks id dto env w)
      as [->|(index & old & Hold & <- & Hsim & ->)]; [done|].
    by apply storeInvariant_update.
  - rewrite delete_tasks. by apply storeInvariant_filter.
  - destruct (deleteByOwner_tasks o env w) as [->| ->]; [done|].
    by apply storeInvariant_filter.
  - destruct (deleteMultiple_tasks ids env w) as [->| ->]; [done|].
    by apply storeInvariant_filter.
  - by rewrite getById_tasks.
  - by rewrite getByOwner_tasks.
  - by rewrite register_tasks.
Qed.

Lemma storeInvariant_reachable w : reachable w -> storeInvariant (tasks w).
Proof.
  induction 1 as [us|w env c _ IH Hfresh].
  - cbn. split; [|split].
    + constructor.
    + intros t []%elem_of_nil.
    + intros a b []%elem_of_nil.
  - by apply storeInvariant_step.
Qed.

(** The sample world in which "report" was created before "Write report"
    is reachable. *)
Lemma afterBoth_reachable : reachable Sample.afterBoth.
Proof.
  unfold Sample.afterBoth, Sample.afterReport.
  apply reachable_step; [apply reachable_step|].
  - apply reachable_initial.
  - unfold freshUUID. cbn. apply not_elem_of_nil.
  - unfold freshUUID. vm_compute. intros [H|H]%elem_of_cons.
    + discriminate.
    + by apply elem_of_nil in H.
Qed.

Lemma afterBoth_pair :
  sameOwnerPair Sample.afterBoth
    (Sample.task "id-1" "report" "U" 1793662496000)
    (Sample.task "id-2" "Write report" "U" 1793662497000).
Proof.
  exists 0%nat, 1%nat. repeat split; [lia|..]; vm_compute; reflexivity.
Qed.

(** C3, as the specification states it, fails: the duplicate check looks
    for the new title inside the stored titles only, so "Write report" may
    follow "report" for one owner, and the store then holds a title that
    occurs within another. *)
Lemma overlapping_titles_reachable :
  ~ (forall w, reachable w -> noOverlappingTitles w).
Proof.
  intros H.
  specialize (H Sample.afterBoth afterBoth_reachable _ _ afterBoth_pair).
  vm_compute in H. discriminate.
Qed.

(** C3 (amended). In every world reachable from the empty Task Store through
    calls of the coordinator, no two tasks of one owner have trimmed titles
    that are equal, case aside. *)
Theorem reachable_noDuplicateTitles w : reachable w -> noDuplicateTitles w.
Proof.
  intros (Hu & Ht & Hd)%storeInvariant_reachable a b
    (i & j & Hne & Ha & Hb & Ho) Heq.
  assert (a ∈ tasks w) as Hina by (apply list_elem_of_lookup; eauto).
  assert (b ∈ tasks w) as Hinb by (apply list_elem_of_lookup; eauto).
  rewrite (Ht a Hina), (Ht b Hinb) in Heq.
  apply Hne. eapply uniqueIds_lookup; [done..|]. by apply Hd.
Qed.

Lemma reachable_noDuplicateTitles_witness :
  reachable Sample.afterBoth /\ noDuplicateTitles Sample.afterBoth.
Proof.
  split; [exact afterBoth_reachable|].
  apply (reachable_noDuplicateTitles Sample.afterBoth).
  unfold Sample.afterBoth, Sample.afterReport.
  apply reachable_step; [apply reachable_step|].
  - apply reachable_initial.
  - unfold freshUUID. simpl. apply not_elem_of_nil.
  - unfold freshUUID. vm_compute. intros H.
    apply elem_of_cons in H as [H | H]; [discriminate|].
    apply elem_of_nil in H. exact H.
Defined.

(* ===================================================================== *)
(** * More on [update] *)
(* ===================================================================== *)

(** The sample world [Sample.afterBoth] is reachable, step by step. *)
Ltac reach_afterBoth :=
  unfold Sample.afterBoth, Sample.afterReport;
  apply reachable_step; [apply reachable_step|];
  [ apply reachable_initial
  | unfold freshUUID; simpl; apply not_elem_of_nil
  | unfold freshUUID; vm_compute;
    let H := fresh in
    intros H; apply elem_of_cons in H as [H | H];
    [discriminate|apply elem_of_nil in H; exact H] ].

(** A string is not in a list of literals. *)
Ltac not_in_literals :=
  let H := fresh in
  intros H;
  repeat (apply elem_of_cons in H as [H | H]; [discriminate|]);
  apply elem_of_nil in H; exact H.

Lemma find_insert_findIndex {A} (p : A -> bool) (l : list A) i x :
  TaskRepository.findIndex p l = Some i -> p x = true ->
  List.find p (<[i := x]> l) = Some x.
Proof.
  revert i. induction l as [|y l IH]; intros i; [done|]. cbn [TaskRepository.findIndex].
  destruct (p y) eqn:E.
  - intros [= <-] Hx. cbn. by rewrite Hx.
  - destruct (TaskRepository.findIndex p l) as [j|]; [|done].
    intros [= <-] Hx. cbn. rewrite E. by apply IH.
Qed.

(** A successful [update], in full. *)
Lemma update_success id dto env w t w' :
  run (TaskService.update id dto) env w = (Ok t, w') ->
  exists index old,
    tasks w !! index = Some old
    /\ List.find (fun t => String.eqb (Task.id t) id) (tasks w) = Some old
    /\ TaskRepository.findIndex (fun t => String.eqb (Task.id t) id) (tasks w)
       = Some index
    /\ Task.id old = id
    /\ t = spread old (updateData dto)
    /\ tasks w' = <[index := t]> (tasks w)
    /\ cache w' = delete ("task:" ++ id) (cache w)
    /\ users w' = users w.
Proof.
  destruct w as [ts us c a ops con]. unfold updateData.
  cbn [tasks users cache]. unfold_update. unfold_monad.
  destruct (UpdateTaskDTO.title dto) as [title|] eqn:Ht; unfold_monad;
    repeat (first [rewrite deadlineValidation_run | split_head]; unfold_monad);
    intros [= <- <-];
    match goal with
    | Hi : TaskRepository.findIndex _ ts = Some ?index,
      Hf : List.find _ ts = Some ?existing,
      Ho : ts !! ?index = Some ?old,
      Hn : <[?index := _]> ts !! ?index = Some _ |- _ =>
        destruct (findIndex_Some _ _ _ Hi) as (old' & Hold & Hf' & Hid);
        assert (old' = old) as -> by congruence;
        assert (existing = old) as -> by congruence;
        apply String.eqb_eq in Hid;
        rewrite list_lookup_insert_eq in Hn by (by eapply lookup_lt_Some);
        injection Hn as <-;
        exists index, old
    end; done.
Qed.

(** X1. Whenever [update] ends with an exception, the Task Store holds what it
    held before the call. *)
Theorem update_error_keeps_tasks id dto env w e w' :
  run (TaskService.update id dto) env w = (Throw e, w') -> tasks w' = tasks w.
Proof.
  destruct w as [ts us c a ops con]. unfold_update. unfold_monad.
  destruct (UpdateTaskDTO.title dto) as [title|] eqn:Ht; unfold_monad;
    repeat (first [rewrite deadlineValidation_run | split_head]; unfold_monad);
    intros [= <- <-]; try reflexivity;
    match goal with
    | Ho : ts !! ?index = Some ?old,
      Hn : <[?index := _]> ts !! ?index = None |- _ =>
        rewrite list_lookup_insert_eq in Hn by (by eapply lookup_lt_Some);
        discriminate
    end.
Qed.

Lemma update_error_keeps_tasks_witness :
  tasks (snd (run (TaskService.update "id-9" (Scenario.setStatus "DONE"))
                Sample.env2 Sample.afterReport))
  = tasks Sample.afterReport.
Proof.
  apply (update_error_keeps_tasks "id-9" (Scenario.setStatus "DONE")
           Sample.env2 Sample.afterReport (NotFoundError "Task not found")).
  vm_compute. reflexivity.
Defined.

(** X2. A successful [update] returns the stored task of that identifier
    with the fields of the request written over it: the trimmed title and
    description when present, the status and the priority when present and
    not empty, the deadline when present; every other field, the
    identifier, the owner and the creation time among them, is as it was.
    The returned task takes the place of the old one in the store, whose
    other tasks, identifiers and users stay as they are. *)
Theorem update_result id dto env w t w' :
  run (TaskService.update id dto) env w = (Ok t, w') ->
  exists index old,
    tasks w !! index = Some old
    /\ List.find (fun t => String.eqb (Task.id t) id) (tasks w) = Some old
    /\ Task.id t = id
    /\ Task.ownerId t = Task.ownerId old
    /\ Task.createdAt t = Task.createdAt old
    /\ Task.title t = match UpdateTaskDTO.title dto with
                      | Some title => JSString.trim title
                      | None => Task.title old
                      end
    /\ Task.description t = match UpdateTaskDTO.description dto with
                            | Some d => Some (JSString.trim d)
                            | None => Task.description old
                            end
    /\ Task.status t = match UpdateTaskDTO.status dto with
                       | Some s => if String.eqb s "" then Task.status old
                                   else s
                       | None => Task.status old
                       end
    /\ Task.deadline t = match UpdateTaskDTO.deadline dto with
                         | Some d => Some d
                         | None => Task.deadline old
                         end
    /\ Task.priority t = match UpdateTaskDTO.priority dto with
                         | Some p => if String.eqb p "" then Task.priority old
                                     else p
                         | None => Task.priority old
                         end
    /\ tasks w' !! index = Some t
    /\ (forall j, j <> index -> tasks w' !! j = tasks w !! j)
    /\ storedIds w' = storedIds w
    /\ length (tasks w') = length (tasks w)
    /\ users w' = users w.
Proof.
  intros (index & old & Hold & Hf & Hi & Hid & -> & Ht & Hc & Hu)%update_success.
  exists index, old. unfold spread, updateData, TaskService.present.
  cbn [Task.id Task.ownerId Task.createdAt Task.title Task.description
       Task.status Task.deadline Task.priority
       UpdateTaskDTO.title UpdateTaskDTO.description UpdateTaskDTO.status
       UpdateTaskDTO.deadline UpdateTaskDTO.priority].
  split; [done|]. split; [done|]. split; [done|]. split; [done|].
  split; [done|].
  split; [by destruct (UpdateTaskDTO.title dto)|].
  split; [by destruct (UpdateTaskDTO.description dto)|].
  split; [by destruct (UpdateTaskDTO.status dto) as [[|c s]|]|].
  split; [by destruct (UpdateTaskDTO.deadline dto)|].
  split; [by destruct (UpdateTaskDTO.priority dto) as [[|c p]|]|].
  split; [|split; [|split; [|split]]].
  - rewrite Ht. apply list_lookup_insert_eq. by eapply lookup_lt_Some.
  - intros j Hj. rewrite Ht. by apply list_lookup_insert_ne.
  - unfold storedIds. rewrite Ht, list_fmap_insert.
    apply list_insert_id. by rewrite list_lookup_fmap, Hold.
  - rewrite Ht. apply length_insert.
  - done.
Qed.

Lemma update_result_witness :
  exists index old,
    tasks Sample.afterReport !! index = Some old
    /\ List.find (fun t => String.eqb (Task.id t) "id-1")
         (tasks Sample.afterReport) = Some old
    /\ Task.id Scenario.finished = "id-1"
    /\ Task.ownerId Scenario.finished = Task.ownerId old
    /\ Task.createdAt Scenario.finished = Task.createdAt old
    /\ Task.title Scenario.finished = Task.title old
    /\ Task.description Scenario.finished = Task.description old
    /\ Task.status Scenario.finished = "DONE"
    /\ Task.deadline Scenario.finished = Task.deadline old
    /\ Task.priority Scenario.finished = Task.priority old
    /\ tasks Scenario.afterFinish !! index = Some Scenario.finished
    /\ (forall j, j <> index ->
          tasks Scenario.afterFinish !! j = tasks Sample.afterReport !! j)
    /\ storedIds Scenario.afterFinish = storedIds Sample.afterReport
    /\ length (tasks Scenario.afterFinish) = length (tasks Sample.afterReport)
    /\ users Scenario.afterFinish = users Sample.afterReport.
Proof.
  apply (update_result "id-1" (Scenario.setStatus "DONE") Sample.env2
           Sample.afterReport Scenario.finished Scenario.afterFinish).
  vm_compute. reflexivity.
Defined.

(** X3. After a successful [update(id, dto)] the next [getById(id)] reads the
    store and returns the updated task, which it caches: the entry of the
    task was invalidated. *)
Theorem update_then_getById id dto env env' w t w' :
  run (TaskService.update id dto) env w = (Ok t, w') ->
  let r := run (TaskService.getById id) env' w' in
  fst r = Ok (AnyTask t)
  /\ storeReads (snd r) = S (storeReads w')
  /\ cache (snd r) !! ("task:" ++ id)
     = Some (mkEntry (AnyTask t) (now env' + CacheService.defaultTTL)).
Proof.
  intros (index & old & Hold & Hf & Hi & Hid & Ht & Hts & Hc & Hu)%update_success.
  destruct (getById_miss id env' w' t) as (H1 & H2 & H3 & _); [| |done].
  - apply cache_get_absent. rewrite Hc. apply lookup_delete_eq.
  - rewrite Hts. apply find_insert_findIndex; [done|].
    apply String.eqb_eq. rewrite Ht. cbn. done.
Qed.

Lemma update_then_getById_witness :
  fst (run (TaskService.getById "id-1") Sample.env3
         (snd (run (TaskService.update "id-1" (Scenario.setStatus "DONE"))
                 Sample.env2 Sample.afterReport)))
  = Ok (AnyTask Scenario.finished).
Proof.
  apply (update_then_getById "id-1" (Scenario.setStatus "DONE") Sample.env2
           Sample.env3 Sample.afterReport Scenario.finished).
  vm_compute. reflexivity.
Defined.

(** X4. [update] of an identifier that no stored task has fails, with a
    Validation error of the field checks or with NotFound, and leaves the
    store as it is. *)
Theorem update_missing id dto env w :
  List.find (fun t => String.eqb (Task.id t) id) (tasks w) = None ->
  let r := run (TaskService.update id dto) env w in
  tasks (snd r) = tasks w
  /\ ((exists msg, fst r = Throw (ValidationError msg))
      \/ fst r = Throw (NotFoundError "Task not found")).
Proof.
  destruct w as [ts us c a ops con]. cbn [tasks]. intros Hf.
  unfold_update. unfold_monad.
  destruct (UpdateTaskDTO.title dto) as [title|] eqn:Ht; unfold_monad;
    repeat (first [rewrite deadlineValidation_run | rewrite Hf | split_head];
            unfold_monad);
    (split; [reflexivity|]); eauto.
Qed.

Lemma update_missing_witness :
  fst (run (TaskService.update "id-9" (Scenario.setStatus "DONE")) Sample.env2
         Sample.afterReport)
  = Throw (NotFoundError "Task not found").
Proof.
  destruct (update_missing "id-9" (Scenario.setStatus "DONE") Sample.env2
              Sample.afterReport) as [_ [[msg H] | H]].
  - vm_compute. reflexivity.
  - vm_compute in H. discriminate H.
  - exact H.
Defined.

(* ===================================================================== *)
(** * Deleting and reading back *)
(* ===================================================================== *)

Lemma truthy_true s : s <> "" -> JSString.truthy s = true.
Proof. by destruct s. Qed.

(** X5. [update] fails with a Validation error when the request has a non-empty
    status outside TODO, IN_PROGRESS, DONE, CANCELLED, or a non-empty
    priority outside LOW, MEDIUM, HIGH. *)
Theorem update_bad_enum id dto env w :
  (exists s, UpdateTaskDTO.status dto = Some s /\ s <> ""
             /\ s ∉ ["TODO"; "IN_PROGRESS"; "DONE"; "CANCELLED"])
  \/ (exists p, UpdateTaskDTO.priority dto = Some p /\ p <> ""
                /\ p ∉ ["LOW"; "MEDIUM"; "HIGH"]) ->
  exists msg,
    fst (run (TaskService.update id dto) env w) = Throw (ValidationError msg).
Proof.
  intros H.
  assert (Hb : TaskService.badPriority (UpdateTaskDTO.priority dto) = true
               \/ TaskService.badStatus (UpdateTaskDTO.status dto) = true).
  { destruct H as [(s & -> & Hne & Hnin) | (p & -> & Hne & Hnin)]; [right|left];
      unfold TaskService.badStatus, TaskService.badPriority;
      rewrite truthy_true by done; cbn [andb]; apply negb_true_iff;
      apply not_true_is_false; by intros Hin%arrayIncludes_spec. }
  destruct w as [ts us c a ops con]. unfold_update. unfold_monad.
  destruct (UpdateTaskDTO.title dto) as [title|]; unfold_monad;
    repeat (first [rewrite deadlineValidation_run | split_head]; unfold_monad);
    eauto; destruct Hb; congruence.
Qed.

Lemma update_bad_enum_witness :
  exists msg,
    fst (run (TaskService.update "id-1" (Scenario.setStatus "ARCHIVED"))
           Sample.env2 Sample.afterReport) = Throw (ValidationError msg).
Proof.
  apply (update_bad_enum "id-1" (Scenario.setStatus "ARCHIVED") Sample.env2
           Sample.afterReport).
  left. exists "ARCHIVED". split; [reflexivity|]. split; [discriminate|].
  not_in_literals.
Defined.

Lemma delete_run id env w :
  let r := run (TaskService.delete id) env w in
  fst r = Ok tt
  /\ tasks (snd r)
     = List.filter (fun t => negb (String.eqb (Task.id t) id)) (tasks w)
  /\ cache (snd r) = delete ("task:" ++ id) (cache w)
  /\ users (snd r) = users w.
Proof.
  destruct w. unfold TaskService.delete, TaskRepository.delete.
  unfold_cache. unfold_monad. done.
Qed.

Lemma find_filter_neg {A} (p : A -> bool) (l : list A) :
  List.find p (List.filter (fun x => negb (p x)) l) = None.
Proof.
  induction l as [|x l IH]; [done|]. cbn.
  destruct (p x) eqn:E; cbn; [done|]. by rewrite E.
Qed.

Lemma filter_all {A} (p : A -> bool) (l : list A) :
  (forall x, x ∈ l -> p x = true) -> List.filter p l = l.
Proof.
  induction l as [|x l IH]; intros H; [done|]. cbn.
  rewrite (H x) by apply list_elem_of_here. f_equal. apply IH.
  intros y Hy. apply H. by apply list_elem_of_further.
Qed.

(** getById when the cache offers nothing and the store has no such task. *)
Lemma getById_notFound id env w :
  fst (run (CacheService.get ("task:" ++ id)) env w) = Ok None ->
  List.find (fun t => String.eqb (Task.id t) id) (tasks w) = None ->
  let r := run (TaskService.getById id) env w in
  fst r = Throw (NotFoundError "Task not found")
  /\ cache (snd r) !! ("task:" ++ id) = None
  /\ tasks (snd r) = tasks w.
Proof.
  destruct w as [ts us c a ops con]. cbn [tasks]. unfold_getById. unfold_monad.
  intros Hget Hfind.
  destruct (c !! ("task:" ++ id)) as [e|] eqn:Hk; unfold_monad.
  - destruct (expiry e <? now env) eqn:Hexp; unfold_monad; [|done].
    rewrite Hfind; unfold_monad. repeat split. apply lookup_delete_eq.
  - rewrite Hfind; unfold_monad. done.
Qed.

(** X6. [delete(id)] never fails; it keeps exactly the tasks with another
    identifier, so it changes nothing when no task has [id]; the next
    [getById(id)] fails with NotFound, whatever the cache held. *)
Theorem delete_then_getById id env env' w :
  let r := run (TaskService.delete id) env w in
  fst r = Ok tt
  /\ tasks (snd r)
     = List.filter (fun t => negb (String.eqb (Task.id t) id)) (tasks w)
  /\ (id ∉ storedIds w -> tasks (snd r) = tasks w)
  /\ fst (run (TaskService.getById id) env' (snd r))
     = Throw (NotFoundError "Task not found").
Proof.
  intros r. destruct (delete_run id env w) as (Hr & Ht & Hc & _). fold r in Hr, Ht, Hc.
  split; [done|]. split; [done|]. split.
  - intros Hnin. rewrite Ht. apply filter_all. intros t Hin.
    apply negb_true_iff, String.eqb_neq. intros <-. apply Hnin.
    unfold storedIds. by apply list_elem_of_fmap_2.
  - apply getById_notFound.
    + apply cache_get_absent. rewrite Hc. apply lookup_delete_eq.
    + rewrite Ht. apply (find_filter_neg (fun t => String.eqb (Task.id t) id)).
Qed.

Lemma delete_then_getById_witness :
  tasks (snd (run (TaskService.delete "id-9") Sample.env3 Sample.afterBoth))
  = tasks Sample.afterBoth
  /\ fst (run (TaskService.getById "id-1") Sample.env3
            (snd (run (TaskService.delete "id-1") Sample.env3
                    Sample.afterBoth)))
     = Throw (NotFoundError "Task not found").
Proof.
  destruct (delete_then_getById "id-9" Sample.env3 Sample.env3 Sample.afterBoth)
    as (_ & _ & Hsame & _).
  destruct (delete_then_getById "id-1" Sample.env3 Sample.env3 Sample.afterBoth)
    as (_ & _ & _ & Hgone).
  split; [|exact Hgone].
  apply Hsame. vm_compute. not_in_literals.
Defined.

Lemma invalidated_None ids (c : gmap string CacheEntry) key :
  c !! key = None -> invalidated ids c !! key = None.
Proof.
  revert c. induction ids as [|x ids IH]; intros c Hc; [done|].
  cbn [invalidated]. apply IH.
  destruct (decide ("task:" ++ x = key)) as [<-|Hne].
  - apply lookup_delete_eq.
  - by rewrite lookup_delete_ne.
Qed.

Lemma invalidated_elem ids (c : gmap string CacheEntry) id :
  id ∈ ids -> invalidated ids c !! ("task:" ++ id) = None.
Proof.
  revert c. induction ids as [|x ids IH]; intros c; [by intros ?%elem_of_nil|].
  intros [-> | Hin]%elem_of_cons; cbn [invalidated].
  - apply invalidated_None, lookup_delete_eq.
  - by apply IH.
Qed.

Lemma find_filter_none {A} (p q : A -> bool) (l : list A) :
  (forall x, p x = true -> q x = false) ->
  List.find p (List.filter q l) = None.
Proof.
  intros H. induction l as [|x l IH]; [done|]. cbn.
  destruct (q x) eqn:E; [|done]. cbn.
  destruct (p x) eqn:Ep; [|done]. apply H in Ep. congruence.
Qed.

(** X7. After [deleteMultiple(ids)], [getById] of any identifier in [ids] fails
    with NotFound: the task is gone and its cache entry is invalidated. *)
Theorem deleteMultiple_then_getById ids id env env' w :
  id ∈ ids ->
  fst (run (TaskService.getById id) env'
         (snd (run (TaskService.deleteMultiple ids) env w)))
  = Throw (NotFoundError "Task not found").
Proof.
  intros Hin.
  destruct (deleteMultiple_nonempty ids env w) as (_ & Ht & Hc).
  { intros ->. by apply elem_of_nil in Hin. }
  apply getById_notFound.
  - apply cache_get_absent. rewrite Hc. by apply invalidated_elem.
  - rewrite Ht. apply find_filter_none. intros t ->%String.eqb_eq.
    apply negb_false_iff, arrayIncludes_spec. done.
Qed.

Lemma deleteMultiple_then_getById_witness :
  fst (run (TaskService.getById "id-2") Sample.env3
         (snd (run (TaskService.deleteMultiple ["id-1"; "id-2"]) Sample.env3
                 Sample.afterBoth)))
  = Throw (NotFoundError "Task not found").
Proof.
  apply (deleteMultiple_then_getById ["id-1"; "id-2"] "id-2").
  apply list_elem_of_further, list_elem_of_here.
Defined.

(* ===================================================================== *)
(** * Creating and reading back *)
(* ===================================================================== *)

(** A successful [create], in full. *)
Lemma create_success dto env w t w' :
  run (TaskService.create dto) env w = (Ok t, w') ->
  t = newTask env dto
  /\ tasks w' = (tasks w ++ [t])%list
  /\ users w' = users w
  /\ cache w' = cache w
  /\ similarTasks (CreateTaskDTO.ownerId dto)
       (JSString.trim (CreateTaskDTO.title dto)) w = []
  /\ is_Some (List.find
                (fun u => String.eqb (User.id u) (CreateTaskDTO.ownerId dto))
                (users w)).
Proof.
  destruct w as [ts us c a ops con]. unfold similarTasks, newTask.
  cbn [tasks users cache]. unfold_create. unfold_monad.
  repeat (first [rewrite deadlineValidation_run | split_head]; unfold_monad);
    intros [= <- <-].
  repeat split; try done.
  - by destruct (List.filter _ ts).
  - match goal with H : isUndefined ?o = false |- _ => by destruct o end.
Qed.

Lemma find_snoc {A} (p : A -> bool) (l : list A) x :
  List.find p l = None -> List.find p (l ++ [x]) = if p x then Some x else None.
Proof.
  induction l as [|y l IH]; [done|]. cbn. destruct (p y); [done|]. apply IH.
Qed.

(** Once a title is stored for an owner, a request for that owner whose
    trimmed title occurs in it, case aside, is a duplicate. *)
(** X8. After a successful [create], a [create] for the same owner with valid
    fields whose trimmed title occurs in the stored title, case aside,
    fails with a Validation error and stores nothing. *)
Theorem create_then_duplicate dto env w t w' dto' env' :
  run (TaskService.create dto) env w = (Ok t, w') ->
  fieldsAccepted env' dto' ->
  CreateTaskDTO.ownerId dto' = CreateTaskDTO.ownerId dto ->
  JSString.includes
    (JSString.toLowerCase (JSString.trim (CreateTaskDTO.title dto)))
    (JSString.toLowerCase (JSString.trim (CreateTaskDTO.title dto'))) = true ->
  fst (run (TaskService.create dto') env' w')
  = Throw (ValidationError
             "A task with similar title already exists for this user")
  /\ tasks (snd (run (TaskService.create dto') env' w')) = tasks w'.
Proof.
  intros (-> & Ht & Hu & _ & _ & [u Ho])%create_success Hf Hown Hinc.
  destruct (create_accepted dto' env' w' Hf) as (Hr & Hts & _).
  rewrite Hu, Hown, Ho in Hr, Hts. cbn [isUndefined orb] in Hr, Hts.
  assert (Hsim : (0 <? length (similarTasks (CreateTaskDTO.ownerId dto)
                    (JSString.trim (CreateTaskDTO.title dto')) w'))%nat = true).
  { unfold similarTasks. rewrite Ht, List.filter_app, length_app.
    cbn [List.filter]. unfold TaskRepository.matchesPattern at 2.
    cbn [newTask Task.ownerId Task.title].
    rewrite String.eqb_refl, Hinc. cbn [andb length]. apply Nat.ltb_lt. lia. }
  rewrite Hsim in Hr, Hts. done.
Qed.

Lemma create_then_duplicate_witness :
  fst (run (TaskService.create (Sample.titled " REPORT ")) Sample.env2
         Sample.afterReport)
  = Throw (ValidationError
             "A task with similar title already exists for this user").
Proof.
  apply (create_then_duplicate (Sample.titled "report") Sample.env1
           Sample.world Scenario.report Sample.afterReport
           (Sample.titled " REPORT ") Sample.env2).
  - vm_compute. reflexivity.
  - repeat split; vm_compute; lia.
  - reflexivity.
  - vm_compute. reflexivity.
Defined.

(** X9. After a successful [create] with a fresh identifier and no cache entry
    under it, [getById] of the new identifier reads the store and returns
    the created task. *)
Theorem create_then_getById dto env env' w t w' :
  run (TaskService.create dto) env w = (Ok t, w') ->
  freshUUID env w ->
  cache w !! ("task:" ++ uuid env) = None ->
  let r := run (TaskService.getById (Task.id t)) env' w' in
  Task.id t = uuid env
  /\ fst r = Ok (AnyTask t)
  /\ storeReads (snd r) = S (storeReads w').
Proof.
  intros (-> & Ht & Hu & Hc & _)%create_success Hfresh Hk.
  cbn [newTask Task.id]. split; [done|].
  destruct (getById_miss (uuid env) env' w' (newTask env dto))
    as (H1 & H2 & _); [| |done].
  - apply cache_get_absent. by rewrite Hc.
  - rewrite Ht, find_snoc.
    + cbn [newTask Task.id]. by rewrite String.eqb_refl.
    + destruct (List.find _ (tasks w)) as [x|] eqn:E; [|done].
      apply find_some in E as [Hin Heq%String.eqb_eq]. exfalso. apply Hfresh.
      rewrite <- Heq. apply list_elem_of_fmap_2. by apply list_elem_of_In.
Qed.

Lemma create_then_getById_witness :
  fst (run (TaskService.getById "id-1") Sample.env2 Sample.afterReport)
  = Ok (AnyTask Scenario.report).
Proof.
  apply (create_then_getById (Sample.titled "report") Sample.env1 Sample.env2
           Sample.world Scenario.report Sample.afterReport).
  - vm_compute. reflexivity.
  - unfold freshUUID. simpl. apply not_elem_of_nil.
  - reflexivity.
Defined.

(* ===================================================================== *)
(** * What a call leaves alone, and the owner lists *)
(* ===================================================================== *)

Lemma ownerKey_notTaskKey o : notTaskKey ("tasks:owner:" ++ o).
Proof. intros id H. cbn in H. discriminate. Qed.

Lemma invalidated_other ids (c : gmap string CacheEntry) key :
  notTaskKey key -> invalidated ids c !! key = c !! key.
Proof.
  intros Hk. revert c. induction ids as [|x ids IH]; intros c; [done|].
  cbn [invalidated]. rewrite IH. apply lookup_delete_ne. intros H. by apply (Hk x).
Qed.

Lemma step_frame c env w :
  (match c with
   | Register u => users (step c env w) = (users w ++ [u])%list
   | _ => users (step c env w) = users w
   end)
  /\ (isActive w = false -> operations w = [] ->
      isActive (step c env w) = false /\ operations (step c env w) = [])
  /\ (leavesOwnerLists c = true -> forall key, notTaskKey key ->
      cache (step c env w) !! key = cache w !! key).
Proof.
  assert (Hdel : forall (m : gmap string CacheEntry) id key,
            notTaskKey key -> delete ("task:" ++ id) m !! key = m !! key).
  { intros m id key Hk. apply lookup_delete_ne. intros H. by apply (Hk id). }
  assert (Hins : forall (m : gmap string CacheEntry) id key e,
            notTaskKey key -> <["task:" ++ id := e]> m !! key = m !! key).
  { intros m id key e Hk. apply lookup_insert_ne. intros H. by apply (Hk id). }
  destruct w as [ts us cc a ops con]. cbn [isActive operations users cache].
  destruct c as [dto|id dto|id|o|ids|id|o|u]; unfold step, leavesOwnerLists.
  - unfold_create. unfold_monad.
    repeat (first [rewrite deadlineValidation_run | split_head]; unfold_monad);
      (split; [done|]); (split; [by intros -> ->|done]).
  - unfold_update. unfold_monad.
    destruct (UpdateTaskDTO.title dto) as [title|]; unfold_monad;
      repeat (first [rewrite deadlineValidation_run | split_head]; unfold_monad);
      (split; [done|]); (split; [by intros -> ->|]);
      intros _ key Hk; rewrite ?Hdel by done; done.
  - unfold TaskService.delete, TaskRepository.delete. unfold_cache. unfold_monad.
    split; [done|]. split; [by intros -> ->|].
    intros _ key Hk. by rewrite Hdel.
  - unfold_deleteByOwner. unfold_monad.
    split_head; (split; [done|]); (split; [by intros -> ->|done]).
  - destruct ids as [|id ids].
    + unfold_deleteMultiple. unfold_monad. cbn [length Nat.eqb]. unfold_monad.
      split; [done|]. split; [by intros -> ->|done].
    + unfold_deleteMultiple. unfold_monad. cbn [length Nat.eqb]. unfold_monad.
      match goal with
      | |- context [TaskService.invalidateEach ?i ?e ?w] =>
          destruct (invalidateEach_run i e w) as [con' ->]
      end.
      unfold_monad. split; [done|]. split; [done|].
      intros _ key Hk. by apply invalidated_other.
  - unfold_getById. unfold_monad.
    repeat split_head; (split; [done|]); (split; [by intros -> ->|]);
      intros _ key Hk; rewrite ?Hins, ?Hdel by done; done.
  - unfold TaskService.getByOwner, UserRepository.findById,
      TaskRepository.findByOwner. unfold_cache. unfold_monad.
    repeat split_head; (split; [done|]); (split; [by intros -> ->|done]).
  - unfold UserRepository.save. unfold_monad.
    split; [done|]. split; [by intros -> ->|done].
Qed.

Ltac unfold_getByOwner :=
  unfold TaskService.getByOwner, UserRepository.findById,
    TaskRepository.findByOwner; unfold_cache.

Lemma getByOwner_missing o env w :
  ~ ownerExists o w ->
  let r := run (TaskService.getByOwner o) env w in
  fst r = Throw (NotFoundError "Owner not found")
  /\ cache (snd r) = cache w /\ tasks (snd r) = tasks w.
Proof.
  intros Ho. destruct w as [ts us c a ops con].
  unfold ownerExists in Ho. rewrite <- findById_is_Some in Ho.
  cbn [users] in Ho. apply eq_None_not_Some in Ho.
  unfold_getByOwner. unfold_monad. rewrite Ho. unfold_monad. done.
Qed.

Lemma getByOwner_hit o e env w :
  ownerExists o w ->
  cache w !! ("tasks:owner:" ++ o) = Some e -> now env <= expiry e ->
  let r := run (TaskService.getByOwner o) env w in
  fst r = Ok (data e) /\ cache (snd r) = cache w /\ tasks (snd r) = tasks w.
Proof.
  intros Ho Hk Hle. destruct w as [ts us c a ops con].
  unfold ownerExists in Ho. rewrite <- findById_is_Some in Ho.
  cbn [users] in Ho. destruct Ho as [u Hu]. cbn [cache] in Hk.
  unfold_getByOwner. unfold_monad. rewrite Hu. unfold_monad.
  rewrite Hk. unfold_monad. rewrite (proj2 (Z.ltb_ge _ _) Hle). unfold_monad.
  done.
Qed.

Lemma getByOwner_miss o env w :
  ownerExists o w ->
  fst (run (CacheService.get ("tasks:owner:" ++ o)) env w) = Ok None ->
  let r := run (TaskService.getByOwner o) env w in
  let found := List.filter (fun t => String.eqb (Task.ownerId t) o) (tasks w) in
  fst r = Ok (AnyTasks found)
  /\ cache (snd r) !! ("tasks:owner:" ++ o)
     = Some (mkEntry (AnyTasks found) (now env + CacheService.defaultTTL))
  /\ tasks (snd r) = tasks w.
Proof.
  intros Ho. destruct w as [ts us c a ops con].
  unfold ownerExists in Ho. rewrite <- findById_is_Some in Ho.
  cbn [users] in Ho. destruct Ho as [u Hu]. cbn [tasks].
  unfold_getByOwner. unfold_monad. rewrite Hu. unfold_monad.
  destruct (c !! ("tasks:owner:" ++ o)) as [e|] eqn:Hk; unfold_monad.
  - destruct (expiry e <? now env) eqn:Hexp; unfold_monad; [|done].
    intros _. cbn [default]. repeat split. apply lookup_insert_eq.
  - intros _. cbn [default]. repeat split. apply lookup_insert_eq.
Qed.

Lemma ownerExists_step o c env w :
  ownerExists o w -> ownerExists o (step c env w).
Proof.
  intros (u & Hin & Hid). exists u. split; [|done].
  destruct (step_frame c env w) as (Hu & _).
  destruct c; rewrite Hu; try done. apply elem_of_app. by left.
Qed.

(** X12. [create], [update], [delete], [deleteMultiple] and [getById] leave the
    cached owner lists alone: while the entry of an owner is live,
    [getByOwner] after such a call still returns the cached list, whatever
    the store holds by then. *)
Theorem ownerList_stale o e c env env' w :
  leavesOwnerLists c = true ->
  ownerExists o w ->
  cache w !! ("tasks:owner:" ++ o) = Some e ->
  now env' <= expiry e ->
  fst (run (TaskService.getByOwner o) env' (step c env w)) = Ok (data e).
Proof.
  intros Hc Ho Hk Hle.
  destruct (step_frame c env w) as (_ & _ & Hcache).
  apply getByOwner_hit; [by apply ownerExists_step| |done].
  rewrite Hcache; [done|done|apply ownerKey_notTaskKey].
Qed.

Lemma ownerList_stale_witness :
  tasks (step (Create (Sample.titled "Write report")) Sample.env3
           Scenario.listed)
  = [Scenario.report; newTask Sample.env3 (Sample.titled "Write report")]
  /\ fst (run (TaskService.getByOwner "U") Sample.env3
            (step (Create (Sample.titled "Write report")) Sample.env3
               Scenario.listed))
     = Ok (AnyTasks [Scenario.report]).
Proof.
  split; [vm_compute; reflexivity|].
  apply (ownerList_stale "U"
           (mkEntry (AnyTasks [Scenario.report]) (now Sample.env2 + 60000))
           (Create (Sample.titled "Write report")) Sample.env3 Sample.env3
           Scenario.listed).
  - reflexivity.
  - exists Sample.user. split; [apply list_elem_of_here|reflexivity].
  - vm_compute. reflexivity.
  - vm_compute. discriminate.
Defined.

(** X11. [getByOwner] fails with NotFound for an owner that does not exist and
    caches nothing; for an existing owner without a cached list it returns
    the owner's tasks in store order and caches them for 60000 ms. *)
Theorem getByOwner_contract o env w :
  let r := run (TaskService.getByOwner o) env w in
  (~ ownerExists o w ->
   fst r = Throw (NotFoundError "Owner not found") /\ cache (snd r) = cache w)
  /\ (ownerExists o w -> cache w !! ("tasks:owner:" ++ o) = None ->
      let found :=
        List.filter (fun t => String.eqb (Task.ownerId t) o) (tasks w) in
      fst r = Ok (AnyTasks found)
      /\ cache (snd r) !! ("tasks:owner:" ++ o)
         = Some (mkEntry (AnyTasks found)
                   (now env + CacheService.defaultTTL))).
Proof.
  intros r. subst r. split.
  - intros Ho. destruct (getByOwner_missing o env w Ho) as (? & ? & _). done.
  - intros Ho Hk found. subst found.
    destruct (getByOwner_miss o env w Ho) as (? & ? & _); [|done].
    by apply cache_get_absent.
Qed.

Lemma getByOwner_contract_witness :
  fst (run (TaskService.getByOwner "nobody") Sample.env3 Sample.afterBoth)
  = Throw (NotFoundError "Owner not found")
  /\ fst (run (TaskService.getByOwner "V") Sample.env3 Sample.afterBoth)
     = Ok (AnyTasks []).
Proof.
  destruct (getByOwner_contract "nobody" Sample.env3 Sample.afterBoth)
    as [Hmissing _].
  destruct (getByOwner_contract "V" Sample.env3 Sample.afterBoth)
    as [_ Hfound].
  split.
  - apply Hmissing. intros (u & Hin & Hid). vm_compute in Hin.
    apply elem_of_cons in Hin as [-> | Hin]; [discriminate|].
    apply elem_of_cons in Hin as [-> | Hin]; [discriminate|].
    apply elem_of_nil in Hin. exact Hin.
  - apply Hfound.
    + exists Sample.other.
      split; [apply list_elem_of_further, list_elem_of_here|reflexivity].
    + reflexivity.
Defined.

(** X15. In every reachable world no transaction is active and no operation is
    queued: each call of the coordinator that begins a transaction commits
    it or rolls it back. *)
Theorem reachable_transaction_idle w :
  reachable w -> isActive w = false /\ operations w = [].
Proof.
  induction 1 as [us|w env c _ [IHa IHo] _]; [done|].
  destruct (step_frame c env w) as (_ & Ht & _). by apply Ht.
Qed.

Lemma reachable_transaction_idle_witness :
  isActive Sample.afterBoth = false /\ operations Sample.afterBoth = [].
Proof. apply (reachable_transaction_idle Sample.afterBoth). reach_afterBoth. Defined.

(** X16. No call of the coordinator changes the User Store; a registration
    appends one user. *)
Theorem coordinator_keeps_users c env w :
  match c with
  | Register u => users (step c env w) = (users w ++ [u])%list
  | _ => users (step c env w) = users w
  end.
Proof. apply step_frame. Qed.

(* ===================================================================== *)
(** * Well-formed tasks *)
(* ===================================================================== *)

Lemma trimStart_length s :
  (JSString.length (JSString.trimStart s) <= JSString.length s)%nat.
Proof.
  unfold JSString.length. induction s as [|c s IH]; [done|]. cbn.
  destruct (JSString.isWhiteSpace c); cbn; lia.
Qed.

Lemma trimEnd_length s :
  (JSString.length (JSString.trimEnd s) <= JSString.length s)%nat.
Proof.
  unfold JSString.length. induction s as [|c s IH]; [done|].
  rewrite JSStringFacts.trimEnd_cons.
  destruct (JSString.trimEnd s) as [|c' r].
  - destruct (JSString.isWhiteSpace c); cbn in *; lia.
  - cbn in *. lia.
Qed.

Lemma trim_length s : (JSString.length (JSString.trim s) <= JSString.length s)%nat.
Proof.
  unfold JSString.trim. pose proof (trimEnd_length (JSString.trimStart s)).
  pose proof (trimStart_length s). lia.
Qed.

Lemma orElse_priority p :
  TaskService.badPriority p = false ->
  TaskService.orElse p "MEDIUM" ∈ ["LOW"; "MEDIUM"; "HIGH"].
Proof.
  destruct p as [p|]; unfold TaskService.badPriority, TaskService.orElse.
  - destruct (JSString.truthy p); cbn [andb].
    + intros H%negb_false_iff. by apply arrayIncludes_spec.
    + intros _. apply list_elem_of_further, list_elem_of_here.
  - intros _. apply list_elem_of_further, list_elem_of_here.
Qed.

Lemma deadlineAccepted_valid env d :
  deadlineAccepted env d = true -> d <> Some JSDate.InvalidDate.
Proof. by intros H ->. Qed.

Lemma newTask_wellFormed env dto :
  (JSString.length (JSString.trim (CreateTaskDTO.title dto)) <? 3)%nat = false ->
  (100 <? JSString.length (CreateTaskDTO.title dto))%nat = false ->
  match TaskService.present (CreateTaskDTO.description dto) with
  | Some d => (500 <? JSString.length d)%nat
  | None => false
  end = false ->
  deadlineAccepted env (CreateTaskDTO.deadline dto) = true ->
  TaskService.badPriority (CreateTaskDTO.priority dto) = false ->
  wellFormedTask (newTask env dto).
Proof.
  intros H3%Nat.ltb_ge H100%Nat.ltb_ge Hd Hl Hp.
  unfold wellFormedTask, newTask.
  cbn [Task.title Task.description Task.status Task.priority Task.deadline].
  split; [apply JSStringFacts.trim_idem|].
  split; [pose proof (trim_length (CreateTaskDTO.title dto)); lia|].
  split; [|split; [apply list_elem_of_here|split;
    [by apply orElse_priority|by apply (deadlineAccepted_valid env)]]].
  destruct (CreateTaskDTO.description dto) as [d|]; [|done]. cbn.
  unfold TaskService.present in Hd. pose proof (trim_length d).
  destruct (JSString.truthy d) eqn:E.
  - apply Nat.ltb_ge in Hd. lia.
  - apply JSStringFacts.truthy_false in E. subst d. cbn. lia.
Qed.

Lemma present_enum s (allowed : list string) :
  JSString.truthy s && negb (TaskRepository.arrayIncludes allowed s) = false ->
  forall x, TaskService.present (Some s) = Some x -> x ∈ allowed.
Proof.
  unfold TaskService.present. destruct (JSString.truthy s); [|done].
  cbn [andb]. intros H%negb_false_iff%arrayIncludes_spec x [= <-]. done.
Qed.

Lemma spread_wellFormed env old dto :
  wellFormedTask old ->
  (forall title, UpdateTaskDTO.title dto = Some title ->
     (JSString.length (JSString.trim title) <? 3)%nat = false
     /\ (100 <? JSString.length title)%nat = false) ->
  match UpdateTaskDTO.description dto with
  | Some d => (500 <? JSString.length d)%nat
  | None => false
  end = false ->
  deadlineAccepted env (UpdateTaskDTO.deadline dto) = true ->
  TaskService.badPriority (UpdateTaskDTO.priority dto) = false ->
  TaskService.badStatus (UpdateTaskDTO.status dto) = false ->
  wellFormedTask (spread old (updateData dto)).
Proof.
  intros (Wt & Wl & Wd & Ws & Wp & Wdl) Ht Hd Hl Hp Hs.
  unfold wellFormedTask, spread, updateData.
  cbn [Task.title Task.description Task.status Task.priority Task.deadline
       UpdateTaskDTO.title UpdateTaskDTO.description UpdateTaskDTO.status
       UpdateTaskDTO.priority UpdateTaskDTO.deadline].
  assert (Htitle :
    JSString.trim (default (Task.title old)
                     (JSString.trim <$> UpdateTaskDTO.title dto))
    = default (Task.title old) (JSString.trim <$> UpdateTaskDTO.title dto)
    /\ (3 <= JSString.length
               (default (Task.title old)
                  (JSString.trim <$> UpdateTaskDTO.title dto)) <= 100)%nat).
  { destruct (UpdateTaskDTO.title dto) as [title|];
      cbn [from_option fmap option_fmap option_map id]; [|done].
    destruct (Ht title eq_refl) as [H3%Nat.ltb_ge H100%Nat.ltb_ge].
    split; [apply JSStringFacts.trim_idem|].
    pose proof (trim_length title). lia. }
  destruct Htitle as [Htrim Hlen].
  split; [done|]. split; [done|]. split; [|split; [|split]].
  - destruct (UpdateTaskDTO.description dto) as [d|];
      cbn [fmap option_fmap option_map]; [|done].
    apply Nat.ltb_ge in Hd. pose proof (trim_length d). lia.
  - destruct (UpdateTaskDTO.status dto) as [s|]; [|done].
    destruct (TaskService.present (Some s)) as [x|] eqn:E; [|done].
    cbn [from_option id]. by eapply present_enum.
  - destruct (UpdateTaskDTO.priority dto) as [p|]; [|done].
    destruct (TaskService.present (Some p)) as [x|] eqn:E; [|done].
    cbn [from_option id]. by eapply present_enum.
  - destruct (UpdateTaskDTO.deadline dto) as [d|]; [|done].
    by apply (deadlineAccepted_valid env).
Qed.

Lemma create_tasks_wf dto env w :
  let ts' := tasks (step (Create dto) env w) in
  ts' = tasks w
  \/ (ts' = (tasks w ++ [newTask env dto])%list
      /\ wellFormedTask (newTask env dto)).
Proof.
  destruct w as [ts us c a ops con]. unfold step.
  cbn [tasks]. unfold_create. unfold_monad.
  repeat (first [rewrite deadlineValidation_run | split_head]; unfold_monad);
    try (by left).
  right. split; [done|]. by apply newTask_wellFormed.
Qed.

Lemma update_tasks_wf id dto env w :
  let ts' := tasks (step (Update id dto) env w) in
  ts' = tasks w
  \/ exists index old,
       tasks w !! index = Some old
       /\ ts' = <[index := spread old (updateData dto)]> (tasks w)
       /\ (wellFormedTask old -> wellFormedTask (spread old (updateData dto))).
Proof.
  destruct w as [ts us c a ops con]. unfold step, updateData.
  cbn [tasks]. unfold_update. unfold_monad.
  destruct (UpdateTaskDTO.title dto) as [title|] eqn:Ht; unfold_monad;
    repeat (first [rewrite deadlineValidation_run | split_head]; unfold_monad);
    try (by left);
    right;
    match goal with
    | Ho : ts !! ?index = Some ?old |- _ =>
        exists index, old;
        (split; [done|]); (split; [done|]);
        intros Hwf;
        pose proof (spread_wellFormed env old dto Hwf) as Hsp;
        unfold updateData in Hsp; rewrite Ht in Hsp;
        apply Hsp; try done
    end.
  all: intros ? [= <-]; split; assumption.
Qed.

(** X17. In every reachable world each stored task has a trimmed title of 3 to
    100 characters, a description of at most 500 characters, a status among
    TODO, IN_PROGRESS, DONE, CANCELLED, a priority among LOW, MEDIUM, HIGH,
    and a deadline that, when present, is a valid date. *)
Theorem reachable_wellFormed w :
  reachable w -> forall t, t ∈ tasks w -> wellFormedTask t.
Proof.
  induction 1 as [us|w env c _ IH _]; [by intros t ?%elem_of_nil|].
  assert (Hfilter : forall p t, t ∈ List.filter p (tasks w) -> wellFormedTask t).
  { intros p t [Hin _]%filter_elem_of. by apply IH. }
  destruct c as [dto|id dto|id|o|ids|id|o|u].
  - destruct (create_tasks_wf dto env w) as [->|[-> Hwf]]; [done|].
    intros t [Hin| ->%list_elem_of_singleton]%elem_of_app; [by apply IH|done].
  - destruct (update_tasks_wf id dto env w)
      as [->|(index & old & Hold & -> & Hwf)]; [done|].
    intros t [j Hj]%list_elem_of_lookup.
    apply list_lookup_insert_Some in Hj as [(_ & <- & _)|[_ Hj]].
    + apply Hwf, IH. apply list_elem_of_lookup. eauto.
    + apply IH. apply list_elem_of_lookup. eauto.
  - rewrite delete_tasks. apply Hfilter.
  - destruct (deleteByOwner_tasks o env w) as [->| ->]; [done|apply Hfilter].
  - destruct (deleteMultiple_tasks ids env w) as [->| ->]; [done|apply Hfilter].
  - by rewrite getById_tasks.
  - by rewrite getByOwner_tasks.
  - by rewrite register_tasks.
Qed.

Lemma reachable_wellFormed_witness :
  wellFormedTask (newTask Sample.env2 (Sample.titled "Write report")).
Proof.
  apply (reachable_wellFormed Sample.afterBoth).
  - reach_afterBoth.
  - vm_compute. apply list_elem_of_further, list_elem_of_here.
Defined.

(** X18. In every reachable world the identifiers of the stored tasks are
    pairwise distinct. *)
Theorem reachable_uniqueIds w : reachable w -> NoDup (storedIds w).
Proof. intros H. by apply storeInvariant_reachable in H as (Hu & _). Qed.

Lemma reachable_uniqueIds_witness : NoDup (storedIds Sample.afterBoth).
Proof. apply (reachable_uniqueIds Sample.afterBoth). reach_afterBoth. Defined.

(* ===================================================================== *)
(** * The cache, the transaction manager and the stores *)
(* ===================================================================== *)

Lemma cache_clear_run env w :
  fst (run CacheService.clear env w) = Ok tt
  /\ cache (snd (run CacheService.clear env w)) = ∅.
Proof. destruct w. unfold_cache. unfold_monad. done. Qed.

(** X19. After [set(key, value, ttl)] a [get(key)] returns the value as long as
    the clock is at most [ttl] later, the expiry instant included, and
    returns null and evicts the entry afterwards; [set] touches no other
    key; after [clear] every [get] returns null. *)
Theorem cache_set_then_get key value ttl env env' w :
  let w1 := snd (run (CacheService.set key value (Some ttl)) env w) in
  (now env' <= now env + ttl ->
   fst (run (CacheService.get key) env' w1) = Ok (Some value)
   /\ cache (snd (run (CacheService.get key) env' w1)) = cache w1)
  /\ (now env + ttl < now env' ->
      fst (run (CacheService.get key) env' w1) = Ok None
      /\ cache (snd (run (CacheService.get key) env' w1)) !! key = None)
  /\ (forall k, k <> key -> cache w1 !! k = cache w !! k)
  /\ (forall k,
        fst (run (CacheService.get k) env'
               (snd (run CacheService.clear env w1))) = Ok None).
Proof.
  intros w1. destruct (cache_set_run key value (Some ttl) env w) as [_ Hs].
  fold w1 in Hs. cbn [default from_option id] in Hs.
  assert (Hk : cache w1 !! key = Some (mkEntry value (now env + ttl)))
    by (rewrite Hs; apply lookup_insert_eq).
  split; [|split; [|split]].
  - intros Hle. by apply (cache_get_hit key _ env' w1 Hk).
  - intros Hlt. destruct (cache_get_expired key _ env' w1 Hk) as [H1 H2]; [done|].
    split; [done|]. rewrite H2. apply lookup_delete_eq.
  - intros k Hne. rewrite Hs. by apply lookup_insert_ne.
  - intros k. apply cache_get_absent.
    rewrite (proj2 (cache_clear_run env w1)). apply lookup_empty.
Qed.

Lemma cache_set_then_get_witness :
  let value := AnyTask Scenario.report in
  let w1 := snd (run (CacheService.set "k" value (Some 0)) Sample.env1
                   Sample.world) in
  fst (run (CacheService.get "k") Sample.env1 w1) = Ok (Some value)
  /\ fst (run (CacheService.get "k") Sample.env2 w1) = Ok None.
Proof.
  intros value w1.
  destruct (cache_set_then_get "k" value 0 Sample.env1 Sample.env1 Sample.world)
    as (Hhit & _).
  destruct (cache_set_then_get "k" value 0 Sample.env1 Sample.env2 Sample.world)
    as (_ & Hmiss & _).
  split.
  - apply Hhit. vm_compute. discriminate.
  - apply Hmiss. vm_compute. reflexivity.
Defined.

(** X20. Without an active transaction [commit], [rollback] and [addOperation]
    throw a plain Error and change nothing; [begin] activates a transaction
    with an empty queue; with an active transaction [commit] and [rollback]
    both deactivate it and empty the queue without touching the Task Store,
    and [addOperation] appends to the queue. *)
Theorem transaction_protocol op env w :
  (isActive w = false ->
   run TransactionManager.commit env w
   = (Throw (Error "No active transaction to commit"), w)
   /\ run TransactionManager.rollback env w
      = (Throw (Error "No active transaction to rollback"), w)
   /\ run (TransactionManager.addOperation op) env w
      = (Throw (Error "No active transaction"), w))
  /\ (let w1 := snd (run TransactionManager.begin env w) in
      fst (run TransactionManager.begin env w) = Ok tt
      /\ isActive w1 = true /\ operations w1 = [] /\ tasks w1 = tasks w)
  /\ (isActive w = true ->
      (fst (run TransactionManager.commit env w) = Ok tt
       /\ isActive (snd (run TransactionManager.commit env w)) = false
       /\ operations (snd (run TransactionManager.commit env w)) = []
       /\ tasks (snd (run TransactionManager.commit env w)) = tasks w)
      /\ (fst (run TransactionManager.rollback env w) = Ok tt
          /\ isActive (snd (run TransactionManager.rollback env w)) = false
          /\ operations (snd (run TransactionManager.rollback env w)) = []
          /\ tasks (snd (run TransactionManager.rollback env w)) = tasks w)
      /\ (fst (run (TransactionManager.addOperation op) env w) = Ok tt
          /\ operations (snd (run (TransactionManager.addOperation op) env w))
             = (operations w ++ [op])%list
          /\ isActive (snd (run (TransactionManager.addOperation op) env w))
             = true)).
Proof.
  destruct w as [ts us c a ops con]. cbn [isActive operations tasks].
  unfold TransactionManager.commit, TransactionManager.rollback,
    TransactionManager.addOperation, TransactionManager.begin.
  split; [|split].
  - intros ->. unfold_monad. done.
  - unfold_monad. done.
  - intros ->. unfold_monad. done.
Qed.

Lemma transaction_protocol_witness :
  run TransactionManager.commit Sample.env1 Sample.world
  = (Throw (Error "No active transaction to commit"), Sample.world)
  /\ fst (run TransactionManager.rollback Sample.env1
            (snd (run TransactionManager.begin Sample.env1 Sample.afterBoth)))
     = Ok tt
  /\ tasks (snd (run TransactionManager.rollback Sample.env1
                   (snd (run TransactionManager.begin Sample.env1
                           Sample.afterBoth))))
     = tasks Sample.afterBoth.
Proof.
  destruct (transaction_protocol 0%nat Sample.env1 Sample.world)
    as (Hidle & _).
  destruct (transaction_protocol 0%nat Sample.env1
              (snd (run TransactionManager.begin Sample.env1 Sample.afterBoth)))
    as (_ & _ & Hactive).
  destruct Hidle as (Hc & _); [reflexivity|].
  destruct Hactive as (_ & (Hr & _ & _ & Ht) & _); [reflexivity|].
  split; [exact Hc|]. split; [exact Hr|]. rewrite Ht. vm_compute. reflexivity.
Defined.

Lemma prefix_empty s : String.prefix "" s = true.
Proof. by destruct s. Qed.

Lemma includes_empty s : JSString.includes s "" = true.
Proof. destruct s; cbn [JSString.includes]; by rewrite prefix_empty. Qed.

(** X21. [findByOwnerAndTitlePattern] with the empty pattern returns every task
    of the owner; an empty [excludeId] excludes nothing; the search changes
    no task. *)
Theorem findByOwnerAndTitlePattern_edges ownerId pattern env w :
  fst (run (TaskRepository.findByOwnerAndTitlePattern ownerId "" None) env w)
  = Ok (List.filter (fun t => String.eqb (Task.ownerId t) ownerId) (tasks w))
  /\ fst (run (TaskRepository.findByOwnerAndTitlePattern ownerId pattern
                 (Some "")) env w)
     = fst (run (TaskRepository.findByOwnerAndTitlePattern ownerId pattern
                   None) env w)
  /\ tasks (snd (run (TaskRepository.findByOwnerAndTitlePattern ownerId
                        pattern None) env w)) = tasks w.
Proof.
  destruct w as [ts us c a ops con].
  unfold TaskRepository.findByOwnerAndTitlePattern. unfold_monad.
  split; [|done]. f_equal. apply filter_ext. intros t.
  unfold TaskRepository.matchesPattern.
  change (JSString.toLowerCase "") with "".
  by rewrite includes_empty, !andb_true_r.
Qed.

Lemma find_app_Some {A} (p : A -> bool) (l k : list A) x :
  List.find p l = Some x -> List.find p (l ++ k) = Some x.
Proof.
  induction l as [|y l IH]; [done|]. cbn. destruct (p y); [done|]. apply IH.
Qed.

(** X22. [UserRepository.save] appends the user without any check: after it,
    [findByEmail] and [findById] return the earliest stored user with that
    email or identifier, which is the saved one only when there was none. *)
Theorem user_save_then_find u env env1 env2 w :
  let w1 := snd (run (UserRepository.save u) env w) in
  fst (run (UserRepository.save u) env w) = Ok u
  /\ users w1 = (users w ++ [u])%list
  /\ fst (run (UserRepository.findByEmail (User.email u)) env1 w1)
     = Ok (Some (default u
                   (List.find
                      (fun x => String.eqb (User.email x) (User.email u))
                      (users w))))
  /\ fst (run (UserRepository.findById (User.id u)) env2 w1)
     = Ok (Some (default u
                   (List.find (fun x => String.eqb (User.id x) (User.id u))
                      (users w)))).
Proof.
  destruct w as [ts us c a ops con]. cbn [users].
  unfold UserRepository.save, UserRepository.findByEmail,
    UserRepository.findById. unfold_monad.
  split; [done|]. split; [done|].
  split; f_equal; f_equal.
  - destruct (List.find _ us) as [x|] eqn:E.
    + by rewrite (find_app_Some _ _ _ _ E).
    + rewrite find_snoc by done. by rewrite String.eqb_refl.
  - destruct (List.find _ us) as [x|] eqn:E.
    + by rewrite (find_app_Some _ _ _ _ E).
    + rewrite find_snoc by done. by rewrite String.eqb_refl.
Qed.

(** X13. After [deleteByOwner(o)] for an existing owner, [getByOwner(o)] returns
    the empty list, read from the store, and caches it. *)
Theorem deleteByOwner_then_getByOwner o env env' w :
  ownerExists o w ->
  let r := run (TaskService.getByOwner o) env'
             (snd (run (TaskService.deleteByOwner o) env w)) in
  fst r = Ok (AnyTasks [])
  /\ cache (snd r) !! ("tasks:owner:" ++ o)
     = Some (mkEntry (AnyTasks []) (now env' + CacheService.defaultTTL)).
Proof.
  intros Ho r. subst r.
  destruct (deleteByOwner_found o env w Ho) as (_ & Ht & Hc).
  set (w1 := snd (run (TaskService.deleteByOwner o) env w)) in *.
  assert (Ho1 : ownerExists o w1) by apply (ownerExists_step o (DeleteByOwner o) env w Ho).
  destruct (getByOwner_miss o env' w1 Ho1) as (Hr & Hk & _).
  { apply cache_get_absent. rewrite Hc. apply lookup_empty. }
  assert (List.filter (fun t => String.eqb (Task.ownerId t) o) (tasks w1) = [])
    as Hnil.
  { rewrite Ht. clear. induction (tasks w) as [|t ts IH]; [done|]. cbn.
    destruct (String.eqb (Task.ownerId t) o) eqn:E; cbn; [done|].
    by rewrite E. }
  rewrite Hnil in Hr, Hk. done.
Qed.

Lemma deleteByOwner_then_getByOwner_witness :
  fst (run (TaskService.getByOwner "U") Sample.env3
         (snd (run (TaskService.deleteByOwner "U") Sample.env3
                 Sample.afterBoth)))
  = Ok (AnyTasks []).
Proof.
  apply (deleteByOwner_then_getByOwner "U" Sample.env3 Sample.env3
           Sample.afterBoth).
  exists Sample.user. split; [|reflexivity].
  vm_compute. apply list_elem_of_here.
Defined.

(** X14. [getById] of an identifier that no stored task has, with no live cache
    entry, fails with NotFound and leaves no cache entry under the key. *)
Theorem getById_no_negative_caching id env w :
  id ∉ storedIds w ->
  (forall e, cache w !! ("task:" ++ id) = Some e -> expiry e < now env) ->
  let r := run (TaskService.getById id) env w in
  fst r = Throw (NotFoundError "Task not found")
  /\ cache (snd r) !! ("task:" ++ id) = None
  /\ tasks (snd r) = tasks w.
Proof.
  intros Hnin Hexp. apply getById_notFound.
  - destruct (cache w !! ("task:" ++ id)) as [e|] eqn:Hk.
    + by apply (cache_get_expired _ e); [|apply Hexp].
    + by apply cache_get_absent.
  - destruct (List.find _ (tasks w)) as [t|] eqn:E; [|done].
    apply find_some in E as [Hin Heq%String.eqb_eq]. exfalso. apply Hnin.
    rewrite <- Heq. apply list_elem_of_fmap_2. by apply list_elem_of_In.
Qed.

Lemma getById_no_negative_caching_witness :
  let r := run (TaskService.getById "id-9") Sample.env3 Sample.afterBoth in
  fst r = Throw (NotFoundError "Task not found")
  /\ cache (snd r) !! "task:id-9" = None.
Proof.
  intros r.
  destruct (getById_no_negative_caching "id-9" Sample.env3 Sample.afterBoth)
    as (H1 & H2 & _).
  - vm_compute. not_in_literals.
  - intros e He. vm_compute in He. discriminate He.
  - split; [exact H1|exact H2].
Defined.

(** X23. On a host with a sound clock the deadline block accepts a valid
    deadline exactly when it lies between the clock and the limit, both
    included. The limit is the UTC reading, with the offset that the host
    has then, of the local time five calendar years ahead, which is 1824
    to 1828 days after the local time of the clock; so the limit is 1822
    to 1830 days ahead of the clock, and 1824 to 1828 where the offset is
    the same at both ends. *)
Theorem deadline_window_exact env w t :
  hostTimeOk env ->
  exists l5 f,
    fiveYearsFromNow env = JSDate.DateOf f
    /\ f = l5 - localTZA env l5 false
    /\ now env + localTZA env (now env) true + 1824 * JSDate.msPerDay
       <= l5
       <= now env + localTZA env (now env) true + 1828 * JSDate.msPerDay
    /\ now env + 1822 * JSDate.msPerDay <= f <= now env + 1830 * JSDate.msPerDay
    /\ (localTZA env l5 false = localTZA env (now env) true ->
        now env + 1824 * JSDate.msPerDay <= f
        <= now env + 1828 * JSDate.msPerDay)
    /\ (run (TaskService.deadlineValidation (Some (JSDate.DateOf t))) env w
        = (Ok tt, w) <-> now env <= t <= f).
Proof.
  intros Hok.
  destruct (deadline_window env Hok) as (l5 & f & Hf & Hu & Hl & Hr & Hacc).
  exists l5, f. unfold JSDate.UTC, JSDate.LocalTime in Hu, Hl.
  split; [exact Hf|]. split; [exact Hu|]. split; [exact Hl|].
  split; [exact Hr|]. split; [intros Heq; lia|].
  unfold run. rewrite deadlineValidation_run, <- Hacc.
  destruct (deadlineAccepted env (Some (JSDate.DateOf t)));
    split; first [reflexivity | discriminate | intros [= ?]].
Qed.

Lemma deadline_window_exact_witness :
  exists l5 f,
    fiveYearsFromNow Sample.spring = JSDate.DateOf f
    /\ f = l5 - localTZA Sample.spring l5 false
    /\ now Sample.spring + localTZA Sample.spring (now Sample.spring) true
         + 1824 * JSDate.msPerDay
       <= l5
       <= now Sample.spring + localTZA Sample.spring (now Sample.spring) true
            + 1828 * JSDate.msPerDay
    /\ now Sample.spring + 1822 * JSDate.msPerDay <= f
       <= now Sample.spring + 1830 * JSDate.msPerDay
    /\ (localTZA Sample.spring l5 false
        = localTZA Sample.spring (now Sample.spring) true ->
        now Sample.spring + 1824 * JSDate.msPerDay <= f
        <= now Sample.spring + 1828 * JSDate.msPerDay)
    /\ (run (TaskService.deadlineValidation
               (Some (JSDate.DateOf 1930798800000))) Sample.spring
          Sample.world = (Ok tt, Sample.world)
        <-> now Sample.spring <= 1930798800000 <= f).
Proof.
  apply (deadline_window_exact Sample.spring Sample.world 1930798800000).
  split; [vm_compute; discriminate|].
  intros t isUTC. unfold localTZA, Sample.spring, Sample.eastern.
  destruct (existsb _ _); vm_compute; discriminate.
Defined.

(** X10. [create] fails with a Validation error, and stores nothing, when the
    title is empty ("Title is required"), when the description has more
    than 500 characters, or when the priority is non-empty and not LOW,
    MEDIUM or HIGH. *)
Theorem create_bad_fields dto env w :
  CreateTaskDTO.title dto = ""
  \/ (exists d, CreateTaskDTO.description dto = Some d
                /\ (500 < JSString.length d)%nat)
  \/ (exists p, CreateTaskDTO.priority dto = Some p /\ p <> ""
                /\ p ∉ ["LOW"; "MEDIUM"; "HIGH"]) ->
  (exists msg,
     fst (run (TaskService.create dto) env w) = Throw (ValidationError msg))
  /\ tasks (snd (run (TaskService.create dto) env w)) = tasks w
  /\ (CreateTaskDTO.title dto = "" ->
      fst (run (TaskService.create dto) env w)
      = Throw (ValidationError "Title is required")).
Proof.
  intros H.
  assert (Hb : negb (JSString.truthy (CreateTaskDTO.title dto)) = true
               \/ match TaskService.present (CreateTaskDTO.description dto) with
                  | Some d => (500 <? JSString.length d)%nat
                  | None => false
                  end = true
               \/ TaskService.badPriority (CreateTaskDTO.priority dto) = true).
  { destruct H as [-> | [(d & -> & Hd) | (p & -> & Hne & Hnin)]].
    - by left.
    - right; left. unfold TaskService.present.
      rewrite truthy_true; [by apply Nat.ltb_lt|].
      intros ->. cbn in Hd. lia.
    - right; right. unfold TaskService.badPriority.
      rewrite truthy_true by done. cbn [andb]. apply negb_true_iff.
      apply not_true_is_false. by intros Hin%arrayIncludes_spec. }
  destruct w as [ts us c a ops con]. cbn [tasks]. unfold_create. unfold_monad.
  repeat (first [rewrite deadlineValidation_run | split_head]; unfold_monad);
    try (split; [eauto|split; [reflexivity|]];
         intros Ht; rewrite Ht in *; done);
    exfalso; destruct Hb as [Hb | [Hb | Hb]]; congruence.
Qed.

Lemma create_bad_fields_witness :
  fst (run (TaskService.create
              (CreateTaskDTO.mk "Write report" None None (Some "URGENT") "U"))
         Sample.env1 Sample.world)
  = Throw (ValidationError "Priority must be LOW, MEDIUM, or HIGH")
  /\ fst (run (TaskService.create (Sample.titled "")) Sample.env1 Sample.world)
     = Throw (ValidationError "Title is required").
Proof.
  destruct (create_bad_fields
              (CreateTaskDTO.mk "Write report" None None (Some "URGENT") "U")
              Sample.env1 Sample.world) as ([msg H] & _ & _).
  { right. right. exists "URGENT". split; [reflexivity|].
    split; [discriminate|not_in_literals]. }
  destruct (create_bad_fields (Sample.titled "") Sample.env1 Sample.world)
    as (_ & _ & Hempty); [left; reflexivity|].
  split; [|apply Hempty; reflexivity].
  rewrite H. vm_compute in H. injection H as H. rewrite H. reflexivity.
Defined.

(* ===================================================================== *)
(** * The controllers *)
(* ===================================================================== *)

(** A header of a sample request has a value. *)
Ltac header_is := split; [vm_compute; reflexivity|discriminate].

Ltac unfold_server :=
  cbv [serve mbind H_bind mret H_ret raise try_catchH lift getContext
       setContext logCaught
       AuthContext.extractFromHeaders AuthContext.get AuthContext.getRole
       AuthContext.getUserId AuthContext.clear AuthContext.isAuthenticated
       Logger.info Logger.error Logger.debug modify M_bind M_ret
       world context fst snd];
  cbn [AuthContextData.userId AuthContextData.role].

Lemma headerIs_present headers name value :
  headerIs headers name value ->
  TaskService.present (headers !! name) = Some value.
Proof.
  intros [-> Hne]. unfold TaskService.present. by rewrite truthy_true.
Qed.

Lemma tasks_write_console l w : tasks (write_console l w) = tasks w.
Proof. by destruct w. Qed.

Lemma users_write_console l w : users (write_console l w) = users w.
Proof. by destruct w. Qed.

Lemma ownerExists_write_console o l w :
  ownerExists o (write_console l w) <-> ownerExists o w.
Proof. unfold ownerExists. by rewrite users_write_console. Qed.

(** X24. [extractFromHeaders] throws Unauthorized and keeps the previous context
    when [x-user-id] or [x-role] is absent or empty; otherwise it stores
    the two header values, the role unchecked, and [getUserId] and
    [getRole] return them; [get] after [clear] throws Unauthorized. *)
Theorem AuthContext_contract headers env env' s :
  let r := serve (AuthContext.extractFromHeaders headers) env s in
  (headerMissing headers "x-user-id" \/ headerMissing headers "x-role" ->
   fst r = Raised (UnauthorizedError "Authentication required")
   /\ context (snd r) = context s)
  /\ (forall userId role,
        headerIs headers "x-user-id" userId -> headerIs headers "x-role" role ->
        fst r = Returned tt
        /\ context (snd r) = Some (AuthContextData.mk userId role)
        /\ fst (serve AuthContext.getUserId env' (snd r)) = Returned userId
        /\ fst (serve AuthContext.getRole env' (snd r)) = Returned role)
  /\ fst (serve AuthContext.get env' (snd (serve AuthContext.clear env s)))
     = Raised (UnauthorizedError "Authentication context not available").
Proof.
  destruct s as [w c]. split; [|split].
  - unfold headerMissing. intros Hm. unfold_server.
    destruct (TaskService.present (headers !! "x-user-id")) as [u|];
      [|done].
    destruct (TaskService.present (headers !! "x-role")) as [r|]; [|done].
    by destruct Hm.
  - intros userId role Hu%headerIs_present Hr%headerIs_present.
    unfold_server. rewrite Hu, Hr. done.
  - unfold_server. done.
Qed.

Lemma AuthContext_contract_witness :
  fst (serve (AuthContext.extractFromHeaders Scenario.noHeaders) Sample.env1
         Scenario.server)
  = Raised (UnauthorizedError "Authentication required")
  /\ context (snd (serve (AuthContext.extractFromHeaders Scenario.adminHeaders)
                     Sample.env1 Scenario.server))
     = Some (AuthContextData.mk "V" "ADMIN").
Proof.
  destruct (AuthContext_contract Scenario.noHeaders Sample.env1 Sample.env1
              Scenario.server) as (Hmissing & _).
  destruct (AuthContext_contract Scenario.adminHeaders Sample.env1 Sample.env1
              Scenario.server) as (_ & Hset & _).
  split.
  - apply Hmissing. left. reflexivity.
  - apply (Hset "V" "ADMIN"); header_is.
Defined.

(** Name the result of the service call the run is waiting for. *)
Ltac name_call r W E :=
  match goal with
  | |- context [match ?m ?env ?w with (_, _) => _ end] =>
      lazymatch m with
      | TaskService.delete _ => idtac
      | TaskService.deleteByOwner _ => idtac
      | TaskService.getById _ => idtac
      | TaskService.getByOwner _ => idtac
      | UserService.getById _ => idtac
      end;
      destruct (m env w) as [r W] eqn:E
  end.

(** X25. The [deleteTask] endpoint always leaves the authentication context
    cleared; it answers 401 without the two headers and 403 for a role
    other than ADMIN, leaving the store as it is; for the role ADMIN it
    answers 204 and removes the tasks with the given identifier. *)
Theorem deleteTask_authorization taskId headers env s :
  let r := serve (TaskController.deleteTask taskId headers) env s in
  context (snd r) = None
  /\ (headerMissing headers "x-user-id" \/ headerMissing headers "x-role" ->
      fst r = Returned (mkResponse 401
                          (JsonError "Authentication required" "UNAUTHORIZED"))
      /\ tasks (world (snd r)) = tasks (world s))
  /\ (forall userId role,
        headerIs headers "x-user-id" userId -> headerIs headers "x-role" role ->
        role <> "ADMIN" ->
        fst r = Returned (mkResponse 403
                            (JsonError "Admin role required" "FORBIDDEN"))
        /\ tasks (world (snd r)) = tasks (world s))
  /\ (forall userId,
        headerIs headers "x-user-id" userId -> headerIs headers "x-role" "ADMIN" ->
        fst r = Returned (mkResponse 204 SendNothing)
        /\ tasks (world (snd r))
           = List.filter (fun t => negb (String.eqb (Task.id t) taskId))
               (tasks (world s))).
Proof.
  destruct s as [w c]. unfold TaskController.deleteTask, headerMissing.
  cbn [world]. unfold_server.
  destruct (TaskService.present (headers !! "x-user-id")) as [u|] eqn:Hu;
    [destruct (TaskService.present (headers !! "x-role")) as [r|] eqn:Hr|].
  - unfold_server.
    destruct (String.eqb r "ADMIN") eqn:Hadmin; cbn [negb]; unfold_server.
    + apply String.eqb_eq in Hadmin. subst r.
      name_call res W E.
      pose proof (delete_run taskId env
                    (write_console
                       (ConsoleLog
                          (Logger.formatMessage "DEBUG"
                             ("Auth context set: userId=" ++ u
                              ++ ", role=" ++ "ADMIN")))
                       (write_console
                          (ConsoleLog
                             (Logger.formatMessage "INFO"
                                "Entering deleteTask endpoint")) w)))
        as (H1 & H2 & _).
      unfold run in H1, H2. rewrite E in H1, H2. cbn [fst snd] in H1, H2.
      subst res. rewrite !tasks_write_console in H2. unfold_server.
      split; [done|]. split; [by intros [?|?]|]. split.
      * intros userId role Hu'%headerIs_present Hr'%headerIs_present Hne.
        congruence.
      * intros userId _ _. done.
    + apply String.eqb_neq in Hadmin.
      split; [done|]. split; [by intros [?|?]|]. split.
      * intros userId role _ _ _. split; [reflexivity|]. by rewrite ?tasks_write_console.
      * intros userId _ Hr'%headerIs_present. congruence.
  - unfold_server. split; [done|]. split; [|split].
    + intros _. split; [reflexivity|]. by rewrite ?tasks_write_console.
    + intros userId role _ Hr'%headerIs_present. congruence.
    + intros userId _ Hr'%headerIs_present. congruence.
  - unfold_server. split; [done|]. split; [|split].
    + intros _. split; [reflexivity|]. by rewrite ?tasks_write_console.
    + intros userId role Hu'%headerIs_present. congruence.
    + intros userId Hu'%headerIs_present. congruence.
Qed.

Lemma deleteTask_authorization_witness :
  fst (serve (TaskController.deleteTask "id-1" Scenario.userHeaders)
         Sample.env3 Scenario.server)
  = Returned (mkResponse 403 (JsonError "Admin role required" "FORBIDDEN"))
  /\ fst (serve (TaskController.deleteTask "id-1" Scenario.adminHeaders)
            Sample.env3 Scenario.server)
     = Returned (mkResponse 204 SendNothing)
  /\ fst (serve (TaskController.deleteTask "id-1" Scenario.noHeaders)
            Sample.env3 Scenario.server)
     = Returned (mkResponse 401
                   (JsonError "Authentication required" "UNAUTHORIZED")).
Proof.
  destruct (deleteTask_authorization "id-1" Scenario.userHeaders Sample.env3
              Scenario.server) as (_ & _ & Huser & _).
  destruct (deleteTask_authorization "id-1" Scenario.adminHeaders Sample.env3
              Scenario.server) as (_ & _ & _ & Hadmin).
  destruct (deleteTask_authorization "id-1" Scenario.noHeaders Sample.env3
              Scenario.server) as (_ & Hnone & _).
  split; [|split].
  - apply (Huser "U" "USER"); [header_is|header_is|discriminate].
  - apply (Hadmin "V"); header_is.
  - apply Hnone. left. reflexivity.
Defined.

(** X26. The [deleteTasksByOwner] endpoint always leaves the authentication
    context cleared; it answers 401 without the two headers; 403, with the
    store unchanged, when the target is another user and the role is not
    ADMIN; otherwise 404 when the target user does not exist, and 200 with
    the number of removed tasks when it does. *)
Theorem deleteTasksByOwner_authorization paramUserId headers env s :
  let r := serve (TaskController.deleteTasksByOwner paramUserId headers) env s in
  context (snd r) = None
  /\ (headerMissing headers "x-user-id" \/ headerMissing headers "x-role" ->
      fst r = Returned (mkResponse 401
                          (JsonError "Authentication required" "UNAUTHORIZED"))
      /\ tasks (world (snd r)) = tasks (world s))
  /\ (forall userId role,
        headerIs headers "x-user-id" userId -> headerIs headers "x-role" role ->
        let target := default userId paramUserId in
        (target <> userId -> role <> "ADMIN" ->
         fst r = Returned (mkResponse 403
                             (JsonError "You can only delete your own tasks"
                                "FORBIDDEN"))
         /\ tasks (world (snd r)) = tasks (world s))
        /\ (target = userId \/ role = "ADMIN" ->
            (~ ownerExists target (world s) ->
             fst r = Returned (mkResponse 404
                                 (JsonError "Owner not found" "NOT_FOUND"))
             /\ tasks (world (snd r)) = tasks (world s))
            /\ (ownerExists target (world s) ->
                let n := length (List.filter
                                   (fun t => String.eqb (Task.ownerId t) target)
                                   (tasks (world s))) in
                fst r = Returned
                          (mkResponse 200
                             (JsonDeleted n
                                ("Deleted " ++ JSString.ofNat n ++ " tasks")))
                /\ tasks (world (snd r))
                   = List.filter
                       (fun t => negb (String.eqb (Task.ownerId t) target))
                       (tasks (world s))))).
Proof.
  destruct s as [w c]. unfold TaskController.deleteTasksByOwner, headerMissing.
  cbn [world]. unfold_server.
  destruct (TaskService.present (headers !! "x-user-id")) as [u|] eqn:Hu;
    [destruct (TaskService.present (headers !! "x-role")) as [r|] eqn:Hr|];
    unfold_server.
  - set (target := default u paramUserId).
    destruct (negb (String.eqb target u) && negb (String.eqb r "ADMIN"))
      eqn:Hforbid; unfold_server.
    + apply andb_true_iff in Hforbid as [Ht%negb_true_iff%String.eqb_neq
                                          Ha%negb_true_iff%String.eqb_neq].
      split; [done|]. split; [by intros [?|?]|].
      intros userId role Hu'%headerIs_present Hr'%headerIs_present.
      assert (userId = u) as -> by congruence.
      assert (role = r) as -> by congruence.
      fold target. split.
      * intros _ _. split; [reflexivity|]. by rewrite ?tasks_write_console.
      * intros [?|?]; done.
    + assert (Hallowed : target = u \/ r = "ADMIN").
      { apply andb_false_iff in Hforbid
          as [H%negb_false_iff%String.eqb_eq|H%negb_false_iff%String.eqb_eq];
          auto. }
      name_call res W E.
      match type of E with
      | _ _ ?w0 = _ =>
          pose proof (deleteByOwner_missing target env w0) as Hmiss;
          pose proof (deleteByOwner_found target env w0) as Hfound;
          rewrite !ownerExists_write_console in Hmiss, Hfound;
          unfold run in Hmiss, Hfound; rewrite E in Hmiss, Hfound;
          cbn [fst snd] in Hmiss, Hfound;
          rewrite ?tasks_write_console in Hmiss, Hfound
      end.
      split.
      { destruct res; unfold_server; done. }
      split; [by intros [?|?]|].
      intros userId role Hu'%headerIs_present Hr'%headerIs_present.
      assert (userId = u) as -> by congruence.
      assert (role = r) as -> by congruence.
      fold target. split.
      * intros Hne Hna. destruct Hallowed; done.
      * intros _. split.
        -- intros Ho. destruct (Hmiss Ho) as (-> & Ht & _). unfold_server.
           split; [reflexivity|]. by rewrite ?tasks_write_console.
        -- intros Ho. destruct (Hfound Ho) as (-> & Ht & _). unfold_server.
           split; [reflexivity|]. done.
  - split; [done|]. split; [|intros userId role _ Hr'%headerIs_present; congruence].
    intros _. split; [reflexivity|]. by rewrite ?tasks_write_console.
  - split; [done|]. split; [|intros userId role Hu'%headerIs_present; congruence].
    intros _. split; [reflexivity|]. by rewrite ?tasks_write_console.
Qed.

Lemma deleteTasksByOwner_authorization_witness :
  fst (serve (TaskController.deleteTasksByOwner (Some "V") Scenario.userHeaders)
         Sample.env3 Scenario.server)
  = Returned (mkResponse 403
                (JsonError "You can only delete your own tasks" "FORBIDDEN"))
  /\ fst (serve (TaskController.deleteTasksByOwner (Some "U")
                   Scenario.adminHeaders) Sample.env3 Scenario.server)
     = Returned (mkResponse 200 (JsonDeleted 2 "Deleted 2 tasks")).
Proof.
  destruct (deleteTasksByOwner_authorization (Some "V") Scenario.userHeaders
              Sample.env3 Scenario.server) as (_ & _ & Huser).
  destruct (deleteTasksByOwner_authorization (Some "U") Scenario.adminHeaders
              Sample.env3 Scenario.server) as (_ & _ & Hadmin).
  split.
  - apply (Huser "U" "USER"); [header_is|header_is|discriminate|discriminate].
  - destruct (Hadmin "V" "ADMIN") as [_ Hallowed]; [header_is|header_is|].
    destruct Hallowed as [_ Hfound]; [right; reflexivity|].
    apply Hfound. exists Sample.user. split; [|reflexivity].
    vm_compute. apply list_elem_of_here.
Defined.

Lemma cache_write_console l w : cache (write_console l w) = cache w.
Proof. by destruct w. Qed.

Lemma getById_outcome id env w :
  let r := run (TaskService.getById id) env w in
  tasks (snd r) = tasks w
  /\ ((exists v, fst r = Ok v)
      \/ fst r = Throw (NotFoundError "Task not found")).
Proof.
  destruct w as [ts us c a ops con]. unfold_getById. unfold_monad.
  repeat split_head; (split; [done|]); eauto.
Qed.

(** X27. The [getTask] endpoint answers 200 with a task or 404 "Task not found",
    and changes neither the store nor the authentication context; with no
    cache entry for the task it answers 200 with the stored task exactly
    when the store has one with that identifier. *)
Theorem getTask_response id env s :
  let r := serve (TaskController.getTask id) env s in
  tasks (world (snd r)) = tasks (world s)
  /\ context (snd r) = context s
  /\ ((exists v, fst r = Returned (mkResponse 200 (JsonValue v)))
      \/ fst r = Returned (mkResponse 404
                             (JsonError "Task not found" "NOT_FOUND")))
  /\ (cache (world s) !! ("task:" ++ id) = None ->
      match List.find (fun t => String.eqb (Task.id t) id) (tasks (world s)) with
      | Some b => fst r = Returned (mkResponse 200 (JsonValue (AnyTask b)))
      | None => fst r = Returned (mkResponse 404
                                    (JsonError "Task not found" "NOT_FOUND"))
      end).
Proof.
  destruct s as [w c]. unfold TaskController.getTask. cbn [world context].
  unfold_server. name_call res W E.
  match type of E with
  | _ _ ?w0 = _ =>
      pose proof (getById_outcome id env w0) as (Ht & Hout);
      pose proof (getById_miss id env w0) as Hmiss;
      pose proof (getById_notFound id env w0) as Hnf;
      pose proof (cache_get_absent ("task:" ++ id) env w0) as Habs;
      rewrite cache_write_console in Habs;
      unfold run in Ht, Hout, Hmiss, Hnf; rewrite E in Ht, Hout, Hmiss, Hnf;
      cbn [fst snd] in Ht, Hout, Hmiss, Hnf;
      rewrite ?tasks_write_console in Ht, Hmiss, Hnf
  end.
  destruct Hout as [[v ->] | ->]; unfold_server.
  - split; [done|]. split; [done|]. split; [eauto|].
    intros Hk. destruct (List.find _ (tasks w)) as [b|] eqn:Hf.
    + destruct (Hmiss b) as (Hb & _); [by apply Habs|done|]. congruence.
    + destruct Hnf as (Hb & _); [by apply Habs|done|]. discriminate.
  - split; [by rewrite ?tasks_write_console|]. split; [done|].
    split; [by right|].
    intros Hk. destruct (List.find _ (tasks w)) as [b|] eqn:Hf; [|done].
    destruct (Hmiss b) as (Hb & _); [by apply Habs|done|]. discriminate.
Qed.

Lemma getTask_response_witness :
  fst (serve (TaskController.getTask "id-9") Sample.env3 Scenario.server)
  = Returned (mkResponse 404 (JsonError "Task not found" "NOT_FOUND")).
Proof.
  destruct (getTask_response "id-9" Sample.env3 Scenario.server)
    as (_ & _ & _ & H).
  apply H. reflexivity.
Defined.

Lemma UserService_getById_run id env w :
  let r := run (UserService.getById id) env w in
  tasks (snd r) = tasks w /\ users (snd r) = users w
  /\ fst r = match List.find (fun u => String.eqb (User.id u) id) (users w) with
             | Some u => Ok u
             | None => Throw (NotFoundError "User not found")
             end.
Proof.
  destruct w as [ts us c a ops con]. cbn [users tasks].
  unfold UserService.getById, UserRepository.findById. unfold_monad.
  destruct (List.find _ us); unfold_monad; done.
Qed.

(** X29. The [getProfile] endpoint leaves the authentication context cleared and
    the User Store unchanged; it answers 401 without the two headers, 404
    when no user has the identifier of [x-user-id], and otherwise 200 with
    the identifier, email and role of the first such user. *)
Theorem getProfile_response headers env s :
  let r := serve (UserController.getProfile headers) env s in
  context (snd r) = None
  /\ users (world (snd r)) = users (world s)
  /\ (headerMissing headers "x-user-id" \/ headerMissing headers "x-role" ->
      fst r = Returned (mkResponse 401
                          (JsonError "Authentication required" "UNAUTHORIZED")))
  /\ (forall userId role,
        headerIs headers "x-user-id" userId -> headerIs headers "x-role" role ->
        fst r = match List.find (fun u => String.eqb (User.id u) userId)
                        (users (world s)) with
                | Some u =>
                    Returned (mkResponse 200
                                (JsonProfile (User.id u) (User.email u)
                                   (User.role u)))
                | None =>
                    Returned (mkResponse 404
                                (JsonError "User not found" "NOT_FOUND"))
                end).
Proof.
  destruct s as [w c]. unfold UserController.getProfile, headerMissing.
  cbn [world]. unfold_server.
  destruct (TaskService.present (headers !! "x-user-id")) as [u|] eqn:Hu;
    [destruct (TaskService.present (headers !! "x-role")) as [r|] eqn:Hr|];
    unfold_server.
  - name_call res W E.
    match type of E with
    | _ _ ?w0 = _ =>
        pose proof (UserService_getById_run u env w0) as (_ & Hus & Hres);
        unfold run in Hus, Hres; rewrite E in Hus, Hres;
        cbn [fst snd] in Hus, Hres;
        rewrite ?users_write_console in Hus, Hres
    end.
    destruct (List.find _ (users w)) as [x|] eqn:Hf; subst res; unfold_server.
    + split; [done|]. split; [done|]. split; [by intros [?|?]|].
      intros userId role Hu'%headerIs_present Hr'%headerIs_present.
      assert (userId = u) as -> by congruence. by rewrite Hf.
    + split; [done|]. split; [by rewrite ?users_write_console|].
      split; [by intros [?|?]|].
      intros userId role Hu'%headerIs_present Hr'%headerIs_present.
      assert (userId = u) as -> by congruence. by rewrite Hf.
  - split; [done|]. split; [by rewrite ?users_write_console|].
    split; [done|]. intros userId role _ Hr'%headerIs_present. congruence.
  - split; [done|]. split; [by rewrite ?users_write_console|].
    split; [done|]. intros userId role Hu'%headerIs_present. congruence.
Qed.

Lemma getProfile_response_witness :
  fst (serve (UserController.getProfile Scenario.userHeaders) Sample.env3
         Scenario.server)
  = Returned (mkResponse 200 (JsonProfile "U" "u@example.org" USER)).
Proof.
  destruct (getProfile_response Scenario.userHeaders Sample.env3
              Scenario.server) as (_ & _ & _ & H).
  apply (H "U" "USER"); header_is.
Defined.

(** X28. The [getTasksByOwner] endpoint leaves the authentication context cleared
    and the store unchanged; it answers 401 without the two headers, 404
    when the caller is not a stored user, and, with nothing cached for the
    caller, 200 with the caller's tasks. *)
Theorem getTasksByOwner_response headers env s :
  let r := serve (TaskController.getTasksByOwner headers) env s in
  context (snd r) = None
  /\ tasks (world (snd r)) = tasks (world s)
  /\ (headerMissing headers "x-user-id" \/ headerMissing headers "x-role" ->
      fst r = Returned (mkResponse 401
                          (JsonError "Authentication required" "UNAUTHORIZED")))
  /\ (forall userId role,
        headerIs headers "x-user-id" userId -> headerIs headers "x-role" role ->
        (~ ownerExists userId (world s) ->
         fst r = Returned (mkResponse 404
                             (JsonError "Owner not found" "NOT_FOUND")))
        /\ (ownerExists userId (world s) ->
            cache (world s) !! ("tasks:owner:" ++ userId) = None ->
            fst r = Returned
                      (mkResponse 200
                         (JsonValue
                            (AnyTasks
                               (List.filter
                                  (fun t => String.eqb (Task.ownerId t) userId)
                                  (tasks (world s)))))))).
Proof.
  destruct s as [w c]. unfold TaskController.getTasksByOwner, headerMissing.
  cbn [world]. unfold_server.
  destruct (TaskService.present (headers !! "x-user-id")) as [u|] eqn:Hu;
    [destruct (TaskService.present (headers !! "x-role")) as [r|] eqn:Hr|];
    unfold_server.
  - name_call res W E.
    match type of E with
    | _ _ ?w0 = _ =>
        pose proof (getByOwner_missing u env w0) as Hmiss;
        pose proof (getByOwner_miss u env w0) as Hfound;
        pose proof (cache_get_absent ("tasks:owner:" ++ u) env w0) as Habs;
        pose proof (getByOwner_tasks u env w0) as Hts;
        rewrite cache_write_console in Habs;
        rewrite !ownerExists_write_console in Hmiss, Hfound;
        unfold step, run in Hmiss, Hfound, Hts; rewrite E in Hmiss, Hfound, Hts;
        cbn [fst snd] in Hmiss, Hfound, Hts;
        rewrite ?tasks_write_console in Hmiss, Hfound, Hts
    end.
    split; [by destruct res|]. split; [by destruct res|].
    split; [by intros [?|?]|].
    intros userId role Hu'%headerIs_present Hr'%headerIs_present.
    assert (userId = u) as -> by congruence. split.
    + intros Ho. destruct (Hmiss Ho) as (-> & _). done.
    + intros Ho Hk. destruct (Hfound Ho) as (-> & _); [by apply Habs|]. done.
  - split; [done|]. split; [by rewrite ?tasks_write_console|].
    split; [done|]. intros userId role _ Hr'%headerIs_present. congruence.
  - split; [done|]. split; [by rewrite ?tasks_write_console|].
    split; [done|]. intros userId role Hu'%headerIs_present. congruence.
Qed.

Lemma getTasksByOwner_response_witness :
  fst (serve (TaskController.getTasksByOwner Scenario.adminHeaders) Sample.env3
         Scenario.server)
  = Returned (mkResponse 200 (JsonValue (AnyTasks []))).
Proof.
  destruct (getTasksByOwner_response Scenario.adminHeaders Sample.env3
              Scenario.server) as (_ & _ & _ & H).
  destruct (H "V" "ADMIN") as [_ Hfound]; [header_is|header_is|].
  apply Hfound; [|reflexivity].
  exists Sample.other. split; [|reflexivity].
  vm_compute. apply list_elem_of_further, list_elem_of_here.
Defined.
